(** * Property rental back end: stores, services and history queries

    A shallow embedding of the TypeScript back end
    (instances/property, instances/propertyHistory, services/property and
    services/propertyHistory) and the properties of it that the
    specification states, followed by further properties of the same
    stores and services, of the CEP schema and of the CEP input mask of
    the forms.

    Representation choices, used throughout:
    - a JS [string] is a Rocq [string]; [===] on strings is [String.eqb];
    - a JS [number] holding a quantity that is only stored and copied
      (areas, prices, room counts) is a binary64 [float];
    - a JS [number] holding a counter, a length or a time value is a [Z];
    - an ISO-8601 timestamp text produced by [new Date().toISOString()]
      is represented by the instant it denotes, in milliseconds since the
      epoch, so that [new Date(text).getTime()] is the identity on it;
    - a validated [YYYY-MM-DD] filter date is represented by its day
      number [d]: [new Date(text)] is the instant [d * 86400000]
      (midnight UTC of that day);
    - a JS [Map] is an association list in insertion order ([JsMap]);
    - [T | null] and optional members are [option T];
    - the clock ([new Date()]) and the generator [uuidv4()] are inputs of
      the operation that reads them.

    Left out: [validateCep], which only talks to the postal-code service
    and touches no store, and the HTTP controllers, which pass requests to
    the services unchanged. *)

From Stdlib Require Import List ZArith String Ascii Bool Lia.
From Stdlib Require Import Permutation Sorted DecimalString DecimalN.
From Corelib Require Import PrimFloat.
Import ListNotations.

Local Open Scope string_scope.
Local Open Scope Z_scope.

(** ** JavaScript [Map] with string keys *)

Module JsMap.

Definition t (V : Type) : Type := list (string * V).

Definition empty {V : Type} : t V := [].

Fixpoint get {V : Type} (m : t V) (k : string) : option V :=
  match m with
  | [] => None
  | (k', v) :: m' => if String.eqb k' k then Some v else get m' k
  end.

(** [set] keeps the position of a key that is already there and puts a
    new key last. *)
Fixpoint set {V : Type} (m : t V) (k : string) (v : V) : t V :=
  match m with
  | [] => [(k, v)]
  | (k', v') :: m' =>
      if String.eqb k' k then (k, v) :: m' else (k', v') :: set m' k v
  end.

Definition has {V : Type} (m : t V) (k : string) : bool :=
  match get m k with Some _ => true | None => false end.

Fixpoint delete {V : Type} (m : t V) (k : string) : t V :=
  match m with
  | [] => []
  | (k', v') :: m' =>
      if String.eqb k' k then delete m' k else (k', v') :: delete m' k
  end.

Definition keys {V : Type} (m : t V) : list string := map fst m.

Definition values {V : Type} (m : t V) : list V := map snd m.

Definition size {V : Type} (m : t V) : Z := Z.of_nat (List.length m).

(** No key occurs twice; every map built from [empty] by [set] and
    [delete] is of this kind. *)
Definition wf {V : Type} (m : t V) : Prop := NoDup (keys m).

End JsMap.

(** ** Array and string primitives *)

(** [Array.prototype.sort] with a comparator: a stable sort that puts [a]
    before [b] when [cmp a b < 0]. *)
Fixpoint Array_sort_insert {A : Type} (cmp : A -> A -> Z) (x : A)
    (l : list A) : list A :=
  match l with
  | [] => [x]
  | y :: l' =>
      if cmp x y <=? 0 then x :: y :: l'
      else y :: Array_sort_insert cmp x l'
  end.

Fixpoint Array_sort {A : Type} (cmp : A -> A -> Z) (l : list A) : list A :=
  match l with
  | [] => []
  | x :: l' => Array_sort_insert cmp x (Array_sort cmp l')
  end.

(** [String(n)] for a non-negative integer. *)
Definition String_of_number (n : Z) : string :=
  NilZero.string_of_uint (N.to_uint (Z.to_N n)).

Fixpoint repeat_fill (n : nat) (fill cur : string) : string :=
  match n with
  | O => EmptyString
  | S n' =>
      match cur with
      | EmptyString =>
          match fill with
          | EmptyString => EmptyString
          | String c rest => String c (repeat_fill n' fill rest)
          end
      | String c rest => String c (repeat_fill n' fill rest)
      end
  end.

(** [s.padStart(targetLength, fill)] *)
Definition padStart (targetLength : nat) (fill : string) (s : string)
    : string :=
  if (targetLength <=? String.length s)%nat then s
  else repeat_fill (targetLength - String.length s) fill fill ++ s.

(** [s.split(sep)[0]] for a one-character separator. *)
Fixpoint split_first (sep : ascii) (s : string) : string :=
  match s with
  | EmptyString => EmptyString
  | String c rest =>
      if Ascii.eqb c sep then EmptyString
      else String c (split_first sep rest)
  end.

(** [s.replace(/c/g, '')] for a one-character pattern. *)
Fixpoint remove_all (c : ascii) (s : string) : string :=
  match s with
  | EmptyString => EmptyString
  | String c' rest =>
      if Ascii.eqb c' c then remove_all c rest
      else String c' (remove_all c rest)
  end.

(** *** [Date.prototype.toISOString] *)

Definition msPerDay : Z := 86400000.

(** Calendar date (year, month, day) of a day number counted from
    1970-01-01, proleptic Gregorian. *)
Definition civil_from_days (days : Z) : Z * Z * Z :=
  let z := days + 719468 in
  let era := z / 146097 in
  let doe := z - era * 146097 in
  let yoe := (doe - doe / 1460 + doe / 36524 - doe / 146096) / 365 in
  let y := yoe + era * 400 in
  let doy := doe - (365 * yoe + yoe / 4 - yoe / 100) in
  let mp := (5 * doy + 2) / 153 in
  let d := doy - (153 * mp + 2) / 5 + 1 in
  let m := if mp <? 10 then mp + 3 else mp - 9 in
  (if m <=? 2 then y + 1 else y, m, d).

Definition pad_number (width : nat) (n : Z) : string :=
  padStart width "0" (String_of_number n).

Definition iso_year (y : Z) : string :=
  if (0 <=? y) && (y <=? 9999) then pad_number 4 y
  else if y <? 0 then "-" ++ pad_number 6 (- y)
  else "+" ++ pad_number 6 y.

Definition toISOString (t : Z) : string :=
  let '(y, m, d) := civil_from_days (t / msPerDay) in
  let ms := t mod msPerDay in
  iso_year y ++ "-" ++ pad_number 2 m ++ "-" ++ pad_number 2 d ++ "T"
  ++ pad_number 2 (ms / 3600000) ++ ":"
  ++ pad_number 2 ((ms / 60000) mod 60) ++ ":"
  ++ pad_number 2 ((ms / 1000) mod 60) ++ "."
  ++ pad_number 3 (ms mod 1000) ++ "Z".

(** ** Host environment

    What the services take from outside this repository: the case
    mappings of [String.prototype], the offset of local time from UTC used
    by [Date.prototype.setHours], and the three Zod schemas, each seen as
    the function [safeParse] from a raw value to the validated data. *)

Module CreateInput.
Record t : Type := {
  tipo_propriedade : string;
  endereco_completo : string;
  cep : string;
  bairro : string;
  cidade : string;
  estado : string;
  area_total : float;
  quartos : option float;
  banheiros : option float;
  vagas_garagem : float;
  valor_aluguel : float;
  valor_condominio : option float;
  valor_iptu : option float;
  descricao : option string;
  usuario_cadastro : string
}.
End CreateInput.

Module UpdateInput.
Record t : Type := {
  tipo_propriedade : string;
  endereco_completo : string;
  cep : string;
  bairro : string;
  cidade : string;
  estado : string;
  area_total : float;
  quartos : option float;
  banheiros : option float;
  vagas_garagem : float;
  valor_aluguel : float;
  valor_condominio : option float;
  valor_iptu : option float;
  descricao : option string;
  status : string
}.
End UpdateInput.

Module HistoryQueryInput.
Record t : Type := {
  property_id : string;
  start_date : option Z;
  end_date : option Z;
  change_type : option string;
  responsible_user : option string
}.
End HistoryQueryInput.

Class Runtime : Type := {
  unknown : Type;
  toLowerCase : string -> string;
  toUpperCase : string -> string;
  (** local time is UTC plus [utcOffset] milliseconds (the opposite sign
      of [Date.prototype.getTimezoneOffset], which counts minutes) *)
  utcOffset : Z;
  createSchema : unknown -> option CreateInput.t;
  updateSchema : unknown -> option UpdateInput.t;
  historyQuerySchema : unknown -> option HistoryQueryInput.t
}.

(** ** Entities *)

Module PropertyEntity.
Record t : Type := {
property_id : string;
codigo_propriedade : string;
tipo_propriedade : string;
endereco_completo : string;
cep : string;
bairro : string;
cidade : string;
estado : string;
area_total : float;
quartos : option float;
banheiros : option float;
vagas_garagem : float;
valor_aluguel : float;
valor_condominio : option float;
valor_iptu : option float;
descricao : option string;
status : string;
data_cadastro : Z;
usuario_cadastro : string
}.
End PropertyEntity.

Module PropertyHistoryChangeRecord.
Record t : Type := {
  change_id : string;
  property_id : string;
  change_date : Z;
  user_responsible : string;
  field_modified : string;
  previous_value : option string;
  new_value : string;
  change_reason : string;
  property_status : string;
  change_type : string
}.
End PropertyHistoryChangeRecord.

Module PropertyLifecycleEventRecord.
Record t : Type := {
  event_id : string;
  property_id : string;
  event_type : string;
  event_date : Z;
  event_description : string;
  related_contract_id : option string;
  related_tenant_id : option string;
  event_impact : string
}.
End PropertyLifecycleEventRecord.

Module PropertyHistoryAuditRecord.
Record t : Type := {
  audit_id : string;
  user_id : string;
  consulted_property_id : string;
  consultation_timestamp : Z;
  applied_filters : option HistoryQueryInput.t;
  records_returned : Z;
  exported : bool;
  export_format : option string
}.
End PropertyHistoryAuditRecord.

Module PropertyHistoryResponse.
Record summary_t : Type := {
  total_changes : Z;
  total_events : Z;
  first_change_date : option Z;
  last_change_date : option Z
}.
Record t : Type := {
  changes : list PropertyHistoryChangeRecord.t;
  lifecycle_events : list PropertyLifecycleEventRecord.t;
  summary : summary_t
}.
End PropertyHistoryResponse.

Module PropertyListResponse.
Record t : Type := {
  property_id : string;
  codigo_propriedade : string;
  tipo_propriedade : string;
  endereco_completo : string;
  bairro : string;
  cidade : string;
  estado : string;
  valor_aluguel : float;
  status : string;
  data_cadastro : Z
}.
End PropertyListResponse.

(** ** Constants *)

Module PROPERTY_DEFAULTS.
Definition STATUS : string := "Disponível".
Definition MAX_RECORDS : Z := 10000.
End PROPERTY_DEFAULTS.

Module PROPERTY_CHANGE_TYPES.
Definition TODOS : string := "todos".
End PROPERTY_CHANGE_TYPES.

(** ** Errors *)

Inductive Exception : Type :=
| ServiceError (code : string) (statusCode : Z)
| Error (message : string).

Inductive Outcome (A : Type) : Type :=
| Return (a : A)
| Throw (e : Exception).
Arguments Return {A} a.
Arguments Throw {A} e.

(** ** Stores (instances/) *)

Module PropertyStore.

Definition t : Type := JsMap.t PropertyEntity.t.

Definition getAll (records : t) : list PropertyEntity.t :=
  JsMap.values records.

Definition getById (records : t) (property_id : string)
    : option PropertyEntity.t :=
  JsMap.get records property_id.

Definition existsByAddress `{Runtime} (records : t)
    (endereco_completo bairro cep cidade estado : string) : bool :=
  existsb
    (fun p =>
       String.eqb (toLowerCase p.(PropertyEntity.endereco_completo))
                  (toLowerCase endereco_completo)
       && String.eqb (toLowerCase p.(PropertyEntity.bairro))
                     (toLowerCase bairro)
       && String.eqb p.(PropertyEntity.cep) cep
       && String.eqb (toLowerCase p.(PropertyEntity.cidade))
                     (toLowerCase cidade)
       && String.eqb (toUpperCase p.(PropertyEntity.estado))
                     (toUpperCase estado))
    (JsMap.values records).

Definition add (records : t) (record : PropertyEntity.t) : t :=
  JsMap.set records record.(PropertyEntity.property_id) record.

Definition update (records : t) (property_id : string)
    (data : PropertyEntity.t) : t :=
  JsMap.set records property_id data.

Definition exists_ (records : t) (property_id : string) : bool :=
  JsMap.has records property_id.

Definition count (records : t) : Z := JsMap.size records.

Definition clear (records : t) : t := JsMap.empty.

End PropertyStore.

(** Sequential control record of [codigoSequencialStore]. *)
Module SequencialRecord.
Record t : Type := {
  data_referencia : string;
  ultimo_sequencial : Z;
  created_at : Z;
  updated_at : Z
}.
End SequencialRecord.

Module CodigoSequencialStore.

Record t : Type := {
  records : JsMap.t SequencialRecord.t;
  locks : JsMap.t bool
}.

Definition empty : t := {| records := JsMap.empty; locks := JsMap.empty |}.

(** The retry loop of [acquireLock]: an attempt takes the lock when the
    entry is absent or false; otherwise it busy-waits, during which no
    other code runs, and tries again.  [None] is the lock timeout. *)
Fixpoint acquireLock_loop (attempts : nat) (locks : JsMap.t bool)
    (dateRef : string) : option (JsMap.t bool) :=
  match attempts with
  | O => None
  | S attempts' =>
      match JsMap.get locks dateRef with
      | Some true => acquireLock_loop attempts' locks dateRef
      | _ => Some (JsMap.set locks dateRef true)
      end
  end.

Definition acquireLock (locks : JsMap.t bool) (dateRef : string)
    : option (JsMap.t bool) :=
  acquireLock_loop 50 locks dateRef.

Definition releaseLock (locks : JsMap.t bool) (dateRef : string)
    : JsMap.t bool :=
  JsMap.delete locks dateRef.

(** [now] is the clock read inside the method. *)
Definition getNextSequential (st : t) (dateRef : string) (now : Z)
    : Outcome Z * t :=
  match acquireLock st.(locks) dateRef with
  | None =>
      (Throw (Error
         "Lock timeout: Sistema ocupado, tente novamente em alguns segundos"),
       st)
  | Some locked =>
      match JsMap.get st.(records) dateRef with
      | Some existing =>
          let existing' :=
            {| SequencialRecord.data_referencia :=
                 existing.(SequencialRecord.data_referencia);
               SequencialRecord.ultimo_sequencial :=
                 existing.(SequencialRecord.ultimo_sequencial) + 1;
               SequencialRecord.created_at :=
                 existing.(SequencialRecord.created_at);
               SequencialRecord.updated_at := now |} in
          (Return existing'.(SequencialRecord.ultimo_sequencial),
           {| records := JsMap.set st.(records) dateRef existing';
              locks := releaseLock locked dateRef |})
      | None =>
          let newRecord :=
            {| SequencialRecord.data_referencia := dateRef;
               SequencialRecord.ultimo_sequencial := 1;
               SequencialRecord.created_at := now;
               SequencialRecord.updated_at := now |} in
          (Return 1,
           {| records := JsMap.set st.(records) dateRef newRecord;
              locks := releaseLock locked dateRef |})
      end
  end.

Definition getCurrentSequential (st : t) (dateRef : string) : Z :=
  match JsMap.get st.(records) dateRef with
  | Some record => record.(SequencialRecord.ultimo_sequencial)
  | None => 0
  end.

Definition clear (st : t) : t := empty.

End CodigoSequencialStore.

Module PropertyHistoryStore.

Record t : Type := {
  changes : JsMap.t PropertyHistoryChangeRecord.t;
  events : JsMap.t PropertyLifecycleEventRecord.t
}.

Definition empty : t := {| changes := JsMap.empty; events := JsMap.empty |}.

Definition addChange (st : t) (change : PropertyHistoryChangeRecord.t)
    : t :=
  {| changes :=
       JsMap.set st.(changes)
         change.(PropertyHistoryChangeRecord.change_id) change;
     events := st.(events) |}.

Definition addEvent (st : t) (event : PropertyLifecycleEventRecord.t)
    : t :=
  {| changes := st.(changes);
     events :=
       JsMap.set st.(events)
         event.(PropertyLifecycleEventRecord.event_id) event |}.

(** Newest first. *)
Definition getChangesByPropertyId (st : t) (property_id : string)
    : list PropertyHistoryChangeRecord.t :=
  Array_sort
    (fun a b => b.(PropertyHistoryChangeRecord.change_date)
                - a.(PropertyHistoryChangeRecord.change_date))
    (filter
       (fun c => String.eqb c.(PropertyHistoryChangeRecord.property_id)
                            property_id)
       (JsMap.values st.(changes))).

Definition getEventsByPropertyId (st : t) (property_id : string)
    : list PropertyLifecycleEventRecord.t :=
  Array_sort
    (fun a b => b.(PropertyLifecycleEventRecord.event_date)
                - a.(PropertyLifecycleEventRecord.event_date))
    (filter
       (fun e => String.eqb e.(PropertyLifecycleEventRecord.property_id)
                            property_id)
       (JsMap.values st.(events))).

Definition getChangeById (st : t) (change_id : string)
    : option PropertyHistoryChangeRecord.t :=
  JsMap.get st.(changes) change_id.

Definition getEventById (st : t) (event_id : string)
    : option PropertyLifecycleEventRecord.t :=
  JsMap.get st.(events) event_id.

Definition countChanges (st : t) : Z := JsMap.size st.(changes).

Definition countEvents (st : t) : Z := JsMap.size st.(events).

Definition clear (st : t) : t := empty.

End PropertyHistoryStore.

Module PropertyAuditStore.

Definition t : Type := JsMap.t PropertyHistoryAuditRecord.t.

Definition addAudit (audits : t) (audit : PropertyHistoryAuditRecord.t)
    : t :=
  JsMap.set audits audit.(PropertyHistoryAuditRecord.audit_id) audit.

(** Newest first. *)
Definition getAuditsByPropertyId (audits : t) (property_id : string)
    : list PropertyHistoryAuditRecord.t :=
  Array_sort
    (fun a b => b.(PropertyHistoryAuditRecord.consultation_timestamp)
                - a.(PropertyHistoryAuditRecord.consultation_timestamp))
    (filter
       (fun a =>
          String.eqb a.(PropertyHistoryAuditRecord.consulted_property_id)
                     property_id)
       (JsMap.values audits)).

Definition getAuditsByUserId (audits : t) (user_id : string)
    : list PropertyHistoryAuditRecord.t :=
  Array_sort
    (fun a b => b.(PropertyHistoryAuditRecord.consultation_timestamp)
                - a.(PropertyHistoryAuditRecord.consultation_timestamp))
    (filter
       (fun a => String.eqb a.(PropertyHistoryAuditRecord.user_id) user_id)
       (JsMap.values audits)).

Definition getAuditById (audits : t) (audit_id : string)
    : option PropertyHistoryAuditRecord.t :=
  JsMap.get audits audit_id.

Definition count (audits : t) : Z := JsMap.size audits.

Definition clear (audits : t) : t := JsMap.empty.

End PropertyAuditStore.

(** ** The process state: the four singleton stores *)

Record State : Type := {
  propertyStore : PropertyStore.t;
  codigoSequencialStore : CodigoSequencialStore.t;
  propertyHistoryStore : PropertyHistoryStore.t;
  propertyAuditStore : PropertyAuditStore.t
}.

Definition initial_state : State :=
  {| propertyStore := JsMap.empty;
     codigoSequencialStore := CodigoSequencialStore.empty;
     propertyHistoryStore := PropertyHistoryStore.empty;
     propertyAuditStore := JsMap.empty |}.

(** ** services/property *)

(** [today] is the clock read of [generatePropertyCode], [seq_now] the one
    inside [getNextSequential]. *)
Definition dateStr (today : Z) : string :=
  remove_all "-" (split_first "T" (toISOString today)).

Definition generatePropertyCode (st : CodigoSequencialStore.t)
    (today seq_now : Z) : Outcome string * CodigoSequencialStore.t :=
  match CodigoSequencialStore.getNextSequential st (dateStr today) seq_now
  with
  | (Return sequential, st') =>
      (Return ("PROP-" ++ dateStr today ++ "-"
               ++ padStart 3 "0" (String_of_number sequential)), st')
  | (Throw e, st') => (Throw e, st')
  end.

Definition checkDuplicateAddress `{Runtime} (s : State)
    (endereco_completo bairro cep cidade estado : string) : bool :=
  PropertyStore.existsByAddress s.(propertyStore)
    endereco_completo bairro cep cidade estado.

Definition propertyList (s : State) : list PropertyListResponse.t :=
  map (fun p =>
         {| PropertyListResponse.property_id := p.(PropertyEntity.property_id);
            PropertyListResponse.codigo_propriedade :=
              p.(PropertyEntity.codigo_propriedade);
            PropertyListResponse.tipo_propriedade :=
              p.(PropertyEntity.tipo_propriedade);
            PropertyListResponse.endereco_completo :=
              p.(PropertyEntity.endereco_completo);
            PropertyListResponse.bairro := p.(PropertyEntity.bairro);
            PropertyListResponse.cidade := p.(PropertyEntity.cidade);
            PropertyListResponse.estado := p.(PropertyEntity.estado);
            PropertyListResponse.valor_aluguel :=
              p.(PropertyEntity.valor_aluguel);
            PropertyListResponse.status := p.(PropertyEntity.status);
            PropertyListResponse.data_cadastro :=
              p.(PropertyEntity.data_cadastro) |})
      (PropertyStore.getAll s.(propertyStore)).

(** [now] and [uuid] are the clock read and the identifier drawn by
    [propertyCreate] itself. *)
Definition propertyCreate `{Runtime} (s : State) (body : unknown)
    (now : Z) (uuid : string) (today seq_now : Z)
    : Outcome PropertyEntity.t * State :=
  match createSchema body with
  | None => (Throw (ServiceError "VALIDATION_ERROR" 400), s)
  | Some params =>
      if checkDuplicateAddress s
           params.(CreateInput.endereco_completo)
           params.(CreateInput.bairro)
           params.(CreateInput.cep)
           params.(CreateInput.cidade)
           params.(CreateInput.estado)
      then (Throw (ServiceError "DUPLICATE_ADDRESS" 409), s)
      else if PROPERTY_DEFAULTS.MAX_RECORDS
              <=? PropertyStore.count s.(propertyStore)
      then (Throw (ServiceError "MAX_RECORDS_REACHED" 507), s)
      else
        match generatePropertyCode s.(codigoSequencialStore) today seq_now
        with
        | (Throw e, seqs) =>
            (Throw e,
             {| propertyStore := s.(propertyStore);
                codigoSequencialStore := seqs;
                propertyHistoryStore := s.(propertyHistoryStore);
                propertyAuditStore := s.(propertyAuditStore) |})
        | (Return codigo_propriedade, seqs) =>
            let newProperty :=
              {| PropertyEntity.property_id := uuid;
                 PropertyEntity.codigo_propriedade := codigo_propriedade;
                 PropertyEntity.tipo_propriedade :=
                   params.(CreateInput.tipo_propriedade);
                 PropertyEntity.endereco_completo :=
                   params.(CreateInput.endereco_completo);
                 PropertyEntity.cep := params.(CreateInput.cep);
                 PropertyEntity.bairro := params.(CreateInput.bairro);
                 PropertyEntity.cidade := params.(CreateInput.cidade);
                 PropertyEntity.estado := params.(CreateInput.estado);
                 PropertyEntity.area_total :=
                   params.(CreateInput.area_total);
                 PropertyEntity.quartos := params.(CreateInput.quartos);
                 PropertyEntity.banheiros := params.(CreateInput.banheiros);
                 PropertyEntity.vagas_garagem :=
                   params.(CreateInput.vagas_garagem);
                 PropertyEntity.valor_aluguel :=
                   params.(CreateInput.valor_aluguel);
                 PropertyEntity.valor_condominio :=
                   params.(CreateInput.valor_condominio);
                 PropertyEntity.valor_iptu :=
                   params.(CreateInput.valor_iptu);
                 PropertyEntity.descricao := params.(CreateInput.descricao);
                 PropertyEntity.status := PROPERTY_DEFAULTS.STATUS;
                 PropertyEntity.data_cadastro := now;
                 PropertyEntity.usuario_cadastro :=
                   params.(CreateInput.usuario_cadastro) |} in
            (Return newProperty,
             {| propertyStore :=
                  PropertyStore.add s.(propertyStore) newProperty;
                codigoSequencialStore := seqs;
                propertyHistoryStore := s.(propertyHistoryStore);
                propertyAuditStore := s.(propertyAuditStore) |})
        end
  end.

Definition propertyGet (s : State) (property_id : string)
    : Outcome PropertyEntity.t :=
  match PropertyStore.getById s.(propertyStore) property_id with
  | None => Throw (ServiceError "NOT_FOUND" 404)
  | Some record => Return record
  end.

(** The address test of [propertyUpdate], which leaves out the property
    being updated. *)
Definition duplicateExists `{Runtime} (s : State) (property_id : string)
    (params : UpdateInput.t) : bool :=
  existsb
    (fun p =>
       negb (String.eqb p.(PropertyEntity.property_id) property_id)
       && String.eqb (toLowerCase p.(PropertyEntity.endereco_completo))
                     (toLowerCase params.(UpdateInput.endereco_completo))
       && String.eqb (toLowerCase p.(PropertyEntity.bairro))
                     (toLowerCase params.(UpdateInput.bairro))
       && String.eqb p.(PropertyEntity.cep) params.(UpdateInput.cep)
       && String.eqb (toLowerCase p.(PropertyEntity.cidade))
                     (toLowerCase params.(UpdateInput.cidade))
       && String.eqb (toUpperCase p.(PropertyEntity.estado))
                     (toUpperCase params.(UpdateInput.estado)))
    (PropertyStore.getAll s.(propertyStore)).

Definition propertyUpdate `{Runtime} (s : State) (property_id : string)
    (body : unknown) : Outcome PropertyEntity.t * State :=
  match updateSchema body with
  | None => (Throw (ServiceError "VALIDATION_ERROR" 400), s)
  | Some params =>
      match PropertyStore.getById s.(propertyStore) property_id with
      | None => (Throw (ServiceError "NOT_FOUND" 404), s)
      | Some existing =>
          if duplicateExists s property_id params
          then (Throw (ServiceError "DUPLICATE_ADDRESS" 409), s)
          else
            let updated :=
              {| PropertyEntity.property_id :=
                   existing.(PropertyEntity.property_id);
                 PropertyEntity.codigo_propriedade :=
                   existing.(PropertyEntity.codigo_propriedade);
                 PropertyEntity.tipo_propriedade :=
                   params.(UpdateInput.tipo_propriedade);
                 PropertyEntity.endereco_completo :=
                   params.(UpdateInput.endereco_completo);
                 PropertyEntity.cep := params.(UpdateInput.cep);
                 PropertyEntity.bairro := params.(UpdateInput.bairro);
                 PropertyEntity.cidade := params.(UpdateInput.cidade);
                 PropertyEntity.estado := params.(UpdateInput.estado);
                 PropertyEntity.area_total :=
                   params.(UpdateInput.area_total);
                 PropertyEntity.quartos := params.(UpdateInput.quartos);
                 PropertyEntity.banheiros := params.(UpdateInput.banheiros);
                 PropertyEntity.vagas_garagem :=
                   params.(UpdateInput.vagas_garagem);
                 PropertyEntity.valor_aluguel :=
                   params.(UpdateInput.valor_aluguel);
                 PropertyEntity.valor_condominio :=
                   params.(UpdateInput.valor_condominio);
                 PropertyEntity.valor_iptu :=
                   params.(UpdateInput.valor_iptu);
                 PropertyEntity.descricao := params.(UpdateInput.descricao);
                 PropertyEntity.status := params.(UpdateInput.status);
                 PropertyEntity.data_cadastro :=
                   existing.(PropertyEntity.data_cadastro);
                 PropertyEntity.usuario_cadastro :=
                   existing.(PropertyEntity.usuario_cadastro) |} in
            (Return updated,
             {| propertyStore :=
                  PropertyStore.update s.(propertyStore) property_id updated;
                codigoSequencialStore := s.(codigoSequencialStore);
                propertyHistoryStore := s.(propertyHistoryStore);
                propertyAuditStore := s.(propertyAuditStore) |})
      end
  end.

(** ** services/propertyHistory *)

(** [new Date(text)] for a validated [YYYY-MM-DD] text. *)
Definition Date_of_day (d : Z) : Z := d * msPerDay.

(** [date.setHours(23, 59, 59, 999)]: the same local calendar day, at its
    last millisecond.  The offset of local time is taken as constant. *)
Definition setHours_23_59_59_999 `{Runtime} (t : Z) : Z :=
  let local := t + utcOffset in
  (local / msPerDay) * msPerDay
  + (23 * 3600000 + 59 * 60000 + 59 * 1000 + 999)
  - utcOffset.

(** Truthiness of an optional string: absent and empty are falsy. *)
Definition truthy (o : option string) : bool :=
  match o with
  | Some s => negb (String.eqb s "")
  | None => false
  end.

Module RegisterAuditLogParams.
Record t : Type := {
  user_id : string;
  consulted_property_id : string;
  applied_filters : option HistoryQueryInput.t;
  records_returned : Z;
  exported : bool;
  export_format : option string
}.
End RegisterAuditLogParams.

Definition registerAuditLog (s : State) (params : RegisterAuditLogParams.t)
    (uuid : string) (now : Z) : State :=
  let audit :=
    {| PropertyHistoryAuditRecord.audit_id := uuid;
       PropertyHistoryAuditRecord.user_id :=
         params.(RegisterAuditLogParams.user_id);
       PropertyHistoryAuditRecord.consulted_property_id :=
         params.(RegisterAuditLogParams.consulted_property_id);
       PropertyHistoryAuditRecord.consultation_timestamp := now;
       PropertyHistoryAuditRecord.applied_filters :=
         params.(RegisterAuditLogParams.applied_filters);
       PropertyHistoryAuditRecord.records_returned :=
         params.(RegisterAuditLogParams.records_returned);
       PropertyHistoryAuditRecord.exported :=
         params.(RegisterAuditLogParams.exported);
       PropertyHistoryAuditRecord.export_format :=
         params.(RegisterAuditLogParams.export_format) |} in
  {| propertyStore := s.(propertyStore);
     codigoSequencialStore := s.(codigoSequencialStore);
     propertyHistoryStore := s.(propertyHistoryStore);
     propertyAuditStore :=
       PropertyAuditStore.addAudit s.(propertyAuditStore) audit |}.

(** The four filters on change records, in the order of the source. *)
Definition filter_changes `{Runtime} (queryParams : HistoryQueryInput.t)
    (changes : list PropertyHistoryChangeRecord.t)
    : list PropertyHistoryChangeRecord.t :=
  let changes :=
    match queryParams.(HistoryQueryInput.start_date) with
    | Some start_date =>
        let startDate := Date_of_day start_date in
        filter
          (fun c => startDate <=? c.(PropertyHistoryChangeRecord.change_date))
          changes
    | None => changes
    end in
  let changes :=
    match queryParams.(HistoryQueryInput.end_date) with
    | Some end_date =>
        let endDate := setHours_23_59_59_999 (Date_of_day end_date) in
        filter
          (fun c => c.(PropertyHistoryChangeRecord.change_date) <=? endDate)
          changes
    | None => changes
    end in
  let changes :=
    match queryParams.(HistoryQueryInput.change_type) with
    | Some change_type =>
        if truthy (Some change_type)
           && negb (String.eqb change_type PROPERTY_CHANGE_TYPES.TODOS)
        then
          filter
            (fun c => String.eqb c.(PropertyHistoryChangeRecord.change_type)
                                 change_type)
            changes
        else changes
    | None => changes
    end in
  match queryParams.(HistoryQueryInput.responsible_user) with
  | Some responsible_user =>
      if truthy (Some responsible_user)
      then
        filter
          (fun c =>
             String.eqb
               (toLowerCase c.(PropertyHistoryChangeRecord.user_responsible))
               (toLowerCase responsible_user))
          changes
      else changes
  | None => changes
  end.

(** The two date filters on lifecycle events. *)
Definition filter_events `{Runtime} (queryParams : HistoryQueryInput.t)
    (events : list PropertyLifecycleEventRecord.t)
    : list PropertyLifecycleEventRecord.t :=
  let events :=
    match queryParams.(HistoryQueryInput.start_date) with
    | Some start_date =>
        let startDate := Date_of_day start_date in
        filter
          (fun e => startDate <=? e.(PropertyLifecycleEventRecord.event_date))
          events
    | None => events
    end in
  match queryParams.(HistoryQueryInput.end_date) with
  | Some end_date =>
      let endDate := setHours_23_59_59_999 (Date_of_day end_date) in
      filter
        (fun e => e.(PropertyLifecycleEventRecord.event_date) <=? endDate)
        events
  | None => events
  end.

(** [uuid] and [now] are read by [registerAuditLog]. *)
Definition propertyHistoryQuery `{Runtime} (s : State) (params : unknown)
    (uuid : string) (now : Z)
    : Outcome PropertyHistoryResponse.t * State :=
  match historyQuerySchema params with
  | None => (Throw (ServiceError "VALIDATION_ERROR" 400), s)
  | Some queryParams =>
      let property_id := queryParams.(HistoryQueryInput.property_id) in
      match PropertyStore.getById s.(propertyStore) property_id with
      | None => (Throw (ServiceError "NOT_FOUND" 404), s)
      | Some _ =>
          let changes :=
            filter_changes queryParams
              (PropertyHistoryStore.getChangesByPropertyId
                 s.(propertyHistoryStore) property_id) in
          let events :=
            filter_events queryParams
              (PropertyHistoryStore.getEventsByPropertyId
                 s.(propertyHistoryStore) property_id) in
          let allChanges :=
            PropertyHistoryStore.getChangesByPropertyId
              s.(propertyHistoryStore) property_id in
          let sortedChanges :=
            Array_sort
              (fun a b => a.(PropertyHistoryChangeRecord.change_date)
                          - b.(PropertyHistoryChangeRecord.change_date))
              allChanges in
          let summary :=
            {| PropertyHistoryResponse.total_changes :=
                 Z.of_nat (List.length changes);
               PropertyHistoryResponse.total_events :=
                 Z.of_nat (List.length events);
               PropertyHistoryResponse.first_change_date :=
                 if (0 <? List.length sortedChanges)%nat
                 then option_map PropertyHistoryChangeRecord.change_date
                        (nth_error sortedChanges 0)
                 else None;
               PropertyHistoryResponse.last_change_date :=
                 if (0 <? List.length sortedChanges)%nat
                 then option_map PropertyHistoryChangeRecord.change_date
                        (nth_error sortedChanges
                           (List.length sortedChanges - 1))
                 else None |} in
          let s' :=
            registerAuditLog s
              {| RegisterAuditLogParams.user_id := "system";
                 RegisterAuditLogParams.consulted_property_id := property_id;
                 RegisterAuditLogParams.applied_filters := Some queryParams;
                 RegisterAuditLogParams.records_returned :=
                   Z.of_nat (List.length changes)
                   + Z.of_nat (List.length events);
                 RegisterAuditLogParams.exported := false;
                 RegisterAuditLogParams.export_format := None |}
              uuid now in
          (Return {| PropertyHistoryResponse.changes := changes;
                     PropertyHistoryResponse.lifecycle_events := events;
                     PropertyHistoryResponse.summary := summary |},
           s')
      end
  end.

Module RegisterLifecycleEventParams.
Record t : Type := {
  property_id : string;
  event_type : string;
  event_description : string;
  related_contract_id : option string;
  related_tenant_id : option string;
  event_impact : string
}.
End RegisterLifecycleEventParams.

(** [x || null] on an optional string. *)
Definition or_null (o : option string) : option string :=
  if truthy o then o else None.

Definition registerLifecycleEvent (s : State)
    (params : RegisterLifecycleEventParams.t) (uuid : string) (now : Z)
    : PropertyLifecycleEventRecord.t * State :=
  let event :=
    {| PropertyLifecycleEventRecord.event_id := uuid;
       PropertyLifecycleEventRecord.property_id :=
         params.(RegisterLifecycleEventParams.property_id);
       PropertyLifecycleEventRecord.event_type :=
         params.(RegisterLifecycleEventParams.event_type);
       PropertyLifecycleEventRecord.event_date := now;
       PropertyLifecycleEventRecord.event_description :=
         params.(RegisterLifecycleEventParams.event_description);
       PropertyLifecycleEventRecord.related_contract_id :=
         or_null params.(RegisterLifecycleEventParams.related_contract_id);
       PropertyLifecycleEventRecord.related_tenant_id :=
         or_null params.(RegisterLifecycleEventParams.related_tenant_id);
       PropertyLifecycleEventRecord.event_impact :=
         params.(RegisterLifecycleEventParams.event_impact) |} in
  (event,
   {| propertyStore := s.(propertyStore);
      codigoSequencialStore := s.(codigoSequencialStore);
      propertyHistoryStore :=
        PropertyHistoryStore.addEvent s.(propertyHistoryStore) event;
      propertyAuditStore := s.(propertyAuditStore) |}).

Module RegisterPropertyChangeParams.
Record t : Type := {
  property_id : string;
  user_responsible : string;
  field_modified : string;
  previous_value : option string;
  new_value : string;
  change_reason : string;
  property_status : string;
  change_type : string
}.
End RegisterPropertyChangeParams.

Definition registerPropertyChange (s : State)
    (params : RegisterPropertyChangeParams.t) (uuid : string) (now : Z)
    : PropertyHistoryChangeRecord.t * State :=
  let change :=
    {| PropertyHistoryChangeRecord.change_id := uuid;
       PropertyHistoryChangeRecord.property_id :=
         params.(RegisterPropertyChangeParams.property_id);
       PropertyHistoryChangeRecord.change_date := now;
       PropertyHistoryChangeRecord.user_responsible :=
         params.(RegisterPropertyChangeParams.user_responsible);
       PropertyHistoryChangeRecord.field_modified :=
         params.(RegisterPropertyChangeParams.field_modified);
       PropertyHistoryChangeRecord.previous_value :=
         params.(RegisterPropertyChangeParams.previous_value);
       PropertyHistoryChangeRecord.new_value :=
         params.(RegisterPropertyChangeParams.new_value);
       PropertyHistoryChangeRecord.change_reason :=
         params.(RegisterPropertyChangeParams.change_reason);
       PropertyHistoryChangeRecord.property_status :=
         params.(RegisterPropertyChangeParams.property_status);
       PropertyHistoryChangeRecord.change_type :=
         params.(RegisterPropertyChangeParams.change_type) |} in
  (change,
   {| propertyStore := s.(propertyStore);
      codigoSequencialStore := s.(codigoSequencialStore);
      propertyHistoryStore :=
        PropertyHistoryStore.addChange s.(propertyHistoryStore) change;
      propertyAuditStore := s.(propertyAuditStore) |}).

(** ** Runs of the exported service operations

    An operation carries its arguments and what it reads from the clock
    and from [uuidv4()]. *)

Inductive Operation `{Runtime} : Type :=
| PropertyCreate (body : unknown) (now : Z) (uuid : string)
    (today seq_now : Z)
| PropertyGet (property_id : string)
| PropertyList
| PropertyUpdate (property_id : string) (body : unknown)
| PropertyHistoryQuery (params : unknown) (uuid : string) (now : Z)
| RegisterLifecycleEvent (params : RegisterLifecycleEventParams.t)
    (uuid : string) (now : Z)
| RegisterPropertyChange (params : RegisterPropertyChangeParams.t)
    (uuid : string) (now : Z).

(** The state an operation leaves behind, whether it returns or throws. *)
Definition exec `{Runtime} (s : State) (op : Operation) : State :=
  match op with
  | PropertyCreate body now uuid today seq_now =>
      snd (propertyCreate s body now uuid today seq_now)
  | PropertyGet _ => s
  | PropertyList => s
  | PropertyUpdate property_id body => snd (propertyUpdate s property_id body)
  | PropertyHistoryQuery params uuid now =>
      snd (propertyHistoryQuery s params uuid now)
  | RegisterLifecycleEvent params uuid now =>
      snd (registerLifecycleEvent s params uuid now)
  | RegisterPropertyChange params uuid now =>
      snd (registerPropertyChange s params uuid now)
  end.

Definition run `{Runtime} (s : State) (ops : list Operation) : State :=
  fold_left exec ops s.

Inductive reachable `{Runtime} : State -> Prop :=
| reachable_initial : reachable initial_state
| reachable_exec (s : State) (op : Operation) :
    reachable s -> reachable (exec s op).

(** The identifier drawn by an operation is not yet a key of the store
    the operation writes it to. *)
Definition fresh_uuid `{Runtime} (s : State) (op : Operation) : Prop :=
  match op with
  | PropertyCreate _ _ uuid _ _ => JsMap.get s.(propertyStore) uuid = None
  | PropertyHistoryQuery _ uuid _ =>
      JsMap.get s.(propertyAuditStore) uuid = None
  | RegisterLifecycleEvent _ uuid _ =>
      JsMap.get s.(propertyHistoryStore).(PropertyHistoryStore.events) uuid
      = None
  | RegisterPropertyChange _ uuid _ =>
      JsMap.get s.(propertyHistoryStore).(PropertyHistoryStore.changes) uuid
      = None
  | _ => True
  end.

Fixpoint fresh_run `{Runtime} (s : State) (ops : list Operation) : Prop :=
  match ops with
  | [] => True
  | op :: ops' => fresh_uuid s op /\ fresh_run (exec s op) ops'
  end.

(** Number of properties that the run [ops] from [s] creates with the
    date text [d] in their code. *)
Fixpoint created_on `{Runtime} (d : string) (s : State)
    (ops : list Operation) : Z :=
  match ops with
  | [] => 0
  | op :: ops' =>
      (match op with
       | PropertyCreate body now uuid today seq_now =>
           match fst (propertyCreate s body now uuid today seq_now) with
           | Return _ => if String.eqb (dateStr today) d then 1 else 0
           | Throw _ => 0
           end
       | _ => 0
       end) + created_on d (exec s op) ops'
  end.

(** ** Predicates of the specification *)

(** Two properties carry the same address: complete address,
    neighbourhood and city compared through [toLowerCase], state through
    [toUpperCase], postal code as it is. *)
Definition same_address `{Runtime} (p q : PropertyEntity.t) : bool :=
  String.eqb (toLowerCase p.(PropertyEntity.endereco_completo))
             (toLowerCase q.(PropertyEntity.endereco_completo))
  && String.eqb (toLowerCase p.(PropertyEntity.bairro))
                (toLowerCase q.(PropertyEntity.bairro))
  && String.eqb p.(PropertyEntity.cep) q.(PropertyEntity.cep)
  && String.eqb (toLowerCase p.(PropertyEntity.cidade))
                (toLowerCase q.(PropertyEntity.cidade))
  && String.eqb (toUpperCase p.(PropertyEntity.estado))
                (toUpperCase q.(PropertyEntity.estado)).

(** The address of an update body against a stored property. *)
Definition matches_update `{Runtime} (p : PropertyEntity.t)
    (params : UpdateInput.t) : bool :=
  String.eqb (toLowerCase p.(PropertyEntity.endereco_completo))
             (toLowerCase params.(UpdateInput.endereco_completo))
  && String.eqb (toLowerCase p.(PropertyEntity.bairro))
                (toLowerCase params.(UpdateInput.bairro))
  && String.eqb p.(PropertyEntity.cep) params.(UpdateInput.cep)
  && String.eqb (toLowerCase p.(PropertyEntity.cidade))
                (toLowerCase params.(UpdateInput.cidade))
  && String.eqb (toUpperCase p.(PropertyEntity.estado))
                (toUpperCase params.(UpdateInput.estado)).

(** The address of a create body against a stored property. *)
Definition matches_create `{Runtime} (p : PropertyEntity.t)
    (params : CreateInput.t) : bool :=
  String.eqb (toLowerCase p.(PropertyEntity.endereco_completo))
             (toLowerCase params.(CreateInput.endereco_completo))
  && String.eqb (toLowerCase p.(PropertyEntity.bairro))
                (toLowerCase params.(CreateInput.bairro))
  && String.eqb p.(PropertyEntity.cep) params.(CreateInput.cep)
  && String.eqb (toLowerCase p.(PropertyEntity.cidade))
                (toLowerCase params.(CreateInput.cidade))
  && String.eqb (toUpperCase p.(PropertyEntity.estado))
                (toUpperCase params.(CreateInput.estado)).

(** No two stored properties with different identifiers carry the same
    address, and no identifier is stored twice. *)
Definition unique_addresses `{Runtime} (s : State) : Prop :=
  NoDup (map PropertyEntity.property_id
           (PropertyStore.getAll s.(propertyStore)))
  /\ forall p q : PropertyEntity.t,
       In p (PropertyStore.getAll s.(propertyStore)) ->
       In q (PropertyStore.getAll s.(propertyStore)) ->
       p.(PropertyEntity.property_id) <> q.(PropertyEntity.property_id) ->
       same_address p q = false.

(** The property store as the services keep it: no key twice, every
    property filed under its own identifier, and no two entries under
    different keys with the same address. *)
Definition store_ok `{Runtime} (records : PropertyStore.t) : Prop :=
  JsMap.wf records
  /\ (forall k p, In (k, p) records -> p.(PropertyEntity.property_id) = k)
  /\ (forall k1 p1 k2 p2,
        In (k1, p1) records -> In (k2, p2) records -> k1 <> k2 ->
        same_address p1 p2 = false).

(** The last millisecond, in UTC, of the day with number [d]. *)
Definition end_of_day (d : Z) : Z := Date_of_day d + msPerDay - 1.

(** The change records stored for a property, in insertion order. *)
Definition changes_of (s : State) (property_id : string)
    : list PropertyHistoryChangeRecord.t :=
  filter
    (fun c => String.eqb c.(PropertyHistoryChangeRecord.property_id)
                         property_id)
    (JsMap.values s.(propertyHistoryStore).(PropertyHistoryStore.changes)).

Definition events_of (s : State) (property_id : string)
    : list PropertyLifecycleEventRecord.t :=
  filter
    (fun e => String.eqb e.(PropertyLifecycleEventRecord.property_id)
                         property_id)
    (JsMap.values s.(propertyHistoryStore).(PropertyHistoryStore.events)).

(** [m'] is [m] with entries appended at the end. *)
Definition log_extends {V : Type} (m m' : JsMap.t V) : Prop :=
  exists added, m' = (m ++ added)%list.

(** Identity and registration data of a property. *)
Definition same_registration (p p' : PropertyEntity.t) : Prop :=
  p'.(PropertyEntity.property_id) = p.(PropertyEntity.property_id)
  /\ p'.(PropertyEntity.codigo_propriedade)
     = p.(PropertyEntity.codigo_propriedade)
  /\ p'.(PropertyEntity.data_cadastro) = p.(PropertyEntity.data_cadastro)
  /\ p'.(PropertyEntity.usuario_cadastro)
     = p.(PropertyEntity.usuario_cadastro).

(** Every character of [s] passes the test [P]. *)
Fixpoint string_forall (P : ascii -> bool) (s : string) : bool :=
  match s with
  | EmptyString => true
  | String c rest => P c && string_forall P rest
  end.

Definition is_digit (c : ascii) : bool :=
  ((48 <=? N_of_ascii c) && (N_of_ascii c <=? 57))%N.

(** A text of decimal digits only. *)
Definition all_digits (s : string) : bool := string_forall is_digit s.

(** [P] holds of the [n] integers from [i] on. *)
Fixpoint check_range (P : Z -> bool) (n : nat) (i : Z) : bool :=
  match n with
  | O => true
  | S n' => P i && check_range P n' (i + 1)
  end.

(** No lock of the sequence store is held: the state between two calls
    of [getNextSequential]. *)
Definition no_lock_held (s : State) : Prop :=
  s.(codigoSequencialStore).(CodigoSequencialStore.locks) = [].

(** ** Postal codes: the schema of the back end, the input mask of the
    forms *)

Module PROPERTY_LIMITS.
Definition CEP_LENGTH : nat := 9.
End PROPERTY_LIMITS.

(** [\d{n}] at the head of [s]: the rest of [s] after [n] digits. *)
Fixpoint match_digits (n : nat) (s : string) : option string :=
  match n with
  | O => Some s
  | S n' =>
      match s with
      | String c rest => if is_digit c then match_digits n' rest else None
      | EmptyString => None
      end
  end.

(** [/^\d{5}-\d{3}$/.test(s)] *)
Definition cep_regex (s : string) : bool :=
  match match_digits 5 s with
  | Some (String c rest) =>
      Ascii.eqb c "-"
      && match match_digits 3 rest with
         | Some EmptyString => true
         | _ => false
         end
  | _ => false
  end.

(** [cepSchema.safeParse(s).success].  The length of the schema counts
    UTF-16 units and [String.length] bytes; they agree on every text the
    pattern accepts, and a text the pattern rejects is rejected either
    way. *)
Definition cepSchema (s : string) : bool :=
  (String.length s =? PROPERTY_LIMITS.CEP_LENGTH)%nat && cep_regex s.

(** [s.replace(/\D/g, '')] *)
Fixpoint keep_digits (s : string) : string :=
  match s with
  | EmptyString => EmptyString
  | String c rest =>
      if is_digit c then String c (keep_digits rest) else keep_digits rest
  end.

(** [s.slice(a, b)] for [0 <= a <= b]. *)
Definition slice (a b : nat) (s : string) : string := substring a (b - a) s.

(** The [onChange] handler of the CEP field of [PropertyForm] and
    [PropertyUpdateForm]: the value it passes on for the typed text. *)
Definition cepOnChange (input : string) : string :=
  let value := keep_digits input in
  if (5 <? String.length value)%nat
  then slice 0 5 value ++ "-" ++ slice 5 8 value
  else value.

(** [s] has no character [c]. *)
Definition without_char (c : ascii) (s : string) : bool :=
  string_forall (fun c' => negb (Ascii.eqb c' c)) s.

(** The number a text of decimal digits denotes. *)
Definition decimal_value (s : string) : option N :=
  option_map N.of_uint (NilEmpty.uint_of_string s).

(** ** Property codes and store invariants *)

(** The code [generatePropertyCode] builds from a date text and a
    sequence number. *)
Definition property_code (d : string) (n : Z) : string :=
  "PROP-" ++ d ++ "-" ++ padStart 3 "0" (String_of_number n).

(** The sequence numbers are not negative, every stored code was built
    from a date text and a number the sequence store has already given
    out for it, and no two entries carry the same code. *)
Definition codes_ok (s : State) : Prop :=
  (forall d,
     0 <= CodigoSequencialStore.getCurrentSequential
            s.(codigoSequencialStore) d)
  /\ (forall k p,
        In (k, p) s.(propertyStore) ->
        exists today n,
          p.(PropertyEntity.codigo_propriedade)
          = property_code (dateStr today) n
          /\ 1 <= n
             <= CodigoSequencialStore.getCurrentSequential
                  s.(codigoSequencialStore) (dateStr today))
  /\ (forall k1 p1 k2 p2,
        In (k1, p1) s.(propertyStore) -> In (k2, p2) s.(propertyStore) ->
        k1 <> k2 ->
        p1.(PropertyEntity.codigo_propriedade)
        <> p2.(PropertyEntity.codigo_propriedade)).

(** The audit store as [registerAuditLog] fills it. *)
Definition audits_ok (s : State) : Prop :=
  JsMap.wf s.(propertyAuditStore)
  /\ forall k a,
       In (k, a) s.(propertyAuditStore) ->
       a.(PropertyHistoryAuditRecord.audit_id) = k
       /\ a.(PropertyHistoryAuditRecord.user_id) = "system"
       /\ a.(PropertyHistoryAuditRecord.exported) = false
       /\ a.(PropertyHistoryAuditRecord.export_format) = None
       /\ 0 <= a.(PropertyHistoryAuditRecord.records_returned)
       /\ (exists q,
             a.(PropertyHistoryAuditRecord.applied_filters) = Some q
             /\ q.(HistoryQueryInput.property_id)
                = a.(PropertyHistoryAuditRecord.consulted_property_id))
       /\ PropertyStore.exists_ s.(propertyStore)
            a.(PropertyHistoryAuditRecord.consulted_property_id) = true.

(** The history store as the two register services fill it. *)
Definition history_ok (s : State) : Prop :=
  JsMap.wf s.(propertyHistoryStore).(PropertyHistoryStore.changes)
  /\ JsMap.wf s.(propertyHistoryStore).(PropertyHistoryStore.events)
  /\ (forall k c,
        In (k, c) s.(propertyHistoryStore).(PropertyHistoryStore.changes) ->
        c.(PropertyHistoryChangeRecord.change_id) = k)
  /\ (forall k e,
        In (k, e) s.(propertyHistoryStore).(PropertyHistoryStore.events) ->
        e.(PropertyLifecycleEventRecord.event_id) = k
        /\ e.(PropertyLifecycleEventRecord.related_contract_id) <> Some ""
        /\ e.(PropertyLifecycleEventRecord.related_tenant_id) <> Some "").

(** ** A concrete host and sample requests

    ASCII case mappings, local time three hours behind UTC, and schemas
    that accept a body of the expected shape; used to run the services on
    concrete inputs. *)

Module Sample.

Inductive body : Type :=
| Create (c : CreateInput.t)
| Update (u : UpdateInput.t)
| Query (q : HistoryQueryInput.t)
| Malformed.

(** Bits 0 to 4 of a letter code: between 1 and 26. *)
Definition letter_index (b0 b1 b2 b3 b4 : bool) : bool :=
  (b0 || b1 || b2 || b3 || b4)
  && negb (b4 && b3 && (b2 || (b1 && b0))).

(** 'A' to 'Z' are 0x41 to 0x5A, 'a' to 'z' are 0x61 to 0x7A. *)
Definition lower_ascii (c : ascii) : ascii :=
  match c with
  | Ascii b0 b1 b2 b3 b4 false true false =>
      if letter_index b0 b1 b2 b3 b4
      then Ascii b0 b1 b2 b3 b4 true true false
      else c
  | _ => c
  end.

Definition upper_ascii (c : ascii) : ascii :=
  match c with
  | Ascii b0 b1 b2 b3 b4 true true false =>
      if letter_index b0 b1 b2 b3 b4
      then Ascii b0 b1 b2 b3 b4 false true false
      else c
  | _ => c
  end.

Fixpoint map_string (f : ascii -> ascii) (s : string) : string :=
  match s with
  | EmptyString => EmptyString
  | String c rest => String (f c) (map_string f rest)
  end.

Definition rt : Runtime :=
  {| unknown := body;
     toLowerCase := map_string lower_ascii;
     toUpperCase := map_string upper_ascii;
     utcOffset := - 10800000;
     createSchema := fun b => match b with Create c => Some c | _ => None end;
     updateSchema := fun b => match b with Update u => Some u | _ => None end;
     historyQuerySchema :=
       fun b => match b with Query q => Some q | _ => None end |}.

(** The house of the source's examples, at street number [n]. *)
Definition casa (n : Z) : CreateInput.t :=
  {| CreateInput.tipo_propriedade := "Casa";
     CreateInput.endereco_completo :=
       "Rua das Flores, " ++ String_of_number n;
     CreateInput.cep := "01310-100";
     CreateInput.bairro := "Centro";
     CreateInput.cidade := "Campinas";
     CreateInput.estado := "SP";
     CreateInput.area_total := 150.5%float;
     CreateInput.quartos := Some 3%float;
     CreateInput.banheiros := Some 2%float;
     CreateInput.vagas_garagem := 2%float;
     CreateInput.valor_aluguel := 2500%float;
     CreateInput.valor_condominio := Some 350%float;
     CreateInput.valor_iptu := Some 1200%float;
     CreateInput.descricao := Some "Casa ampla com quintal";
     CreateInput.usuario_cadastro := "user123" |}.

(** The same house after a renovation: new rent, new status. *)
Definition casa_reformada (n : Z) : UpdateInput.t :=
  {| UpdateInput.tipo_propriedade := "Casa";
     UpdateInput.endereco_completo :=
       "Rua das Flores, " ++ String_of_number n;
     UpdateInput.cep := "01310-100";
     UpdateInput.bairro := "Centro";
     UpdateInput.cidade := "Campinas";
     UpdateInput.estado := "SP";
     UpdateInput.area_total := 180%float;
     UpdateInput.quartos := Some 4%float;
     UpdateInput.banheiros := Some 3%float;
     UpdateInput.vagas_garagem := 2%float;
     UpdateInput.valor_aluguel := 3000%float;
     UpdateInput.valor_condominio := Some 400%float;
     UpdateInput.valor_iptu := Some 1500%float;
     UpdateInput.descricao := Some "Casa reformada";
     UpdateInput.status := "Ocupada" |}.

Definition uuid_a : string := "550e8400-e29b-41d4-a716-446655440000".
Definition uuid_b : string := "550e8400-e29b-41d4-a716-446655440001".
Definition uuid_c : string := "550e8400-e29b-41d4-a716-446655440002".
Definition uuid_d : string := "550e8400-e29b-41d4-a716-446655440003".

(** 2025-01-28T12:00:00.000Z *)
Definition noon : Z := 1738065600000.

Definition create_op (n : Z) (uuid : string) : @Operation rt :=
  @PropertyCreate rt (Create (casa n)) noon uuid noon noon.

(** One house registered. *)
Definition one_house : State := @exec rt initial_state (create_op 123 uuid_a).

(** A rent change of [uuid_a] recorded at [t] by [user]. *)
Definition rent_change (user : string) : RegisterPropertyChangeParams.t :=
  {| RegisterPropertyChangeParams.property_id := uuid_a;
     RegisterPropertyChangeParams.user_responsible := user;
     RegisterPropertyChangeParams.field_modified := "valor_aluguel";
     RegisterPropertyChangeParams.previous_value := Some "2500.00";
     RegisterPropertyChangeParams.new_value := "2800.00";
     RegisterPropertyChangeParams.change_reason :=
       "Reajuste anual conforme contrato";
     RegisterPropertyChangeParams.property_status := "Ocupada";
     RegisterPropertyChangeParams.change_type :=
       "mudancas_valor_aluguel" |}.

Definition creation_event : RegisterLifecycleEventParams.t :=
  {| RegisterLifecycleEventParams.property_id := uuid_a;
     RegisterLifecycleEventParams.event_type :=
       "criacao_propriedade_sistema";
     RegisterLifecycleEventParams.event_description :=
       "Propriedade criada no sistema";
     RegisterLifecycleEventParams.related_contract_id := None;
     RegisterLifecycleEventParams.related_tenant_id := None;
     RegisterLifecycleEventParams.event_impact :=
       "Propriedade disponivel para locacao" |}.

(** One house with a creation event and two rent changes, the second a
    day after the first. *)
Definition history_ops : list (@Operation rt) :=
  [ @RegisterLifecycleEvent rt creation_event uuid_b noon;
    @RegisterPropertyChange rt (rent_change "user123") uuid_c
      (noon + 1000);
    @RegisterPropertyChange rt (rent_change "Maria") uuid_d
      (noon + msPerDay) ].

Definition with_history : State := @run rt one_house history_ops.

(** Day number of 2025-01-28. *)
Definition day_jan28 : Z := 20116.

Definition query (start_date end_date : option Z)
    (change_type responsible_user : option string) : body :=
  Query {| HistoryQueryInput.property_id := uuid_a;
           HistoryQueryInput.start_date := start_date;
           HistoryQueryInput.end_date := end_date;
           HistoryQueryInput.change_type := change_type;
           HistoryQueryInput.responsible_user := responsible_user |}.

(** Rent changes by user123 between 2025-01-28 and 2025-01-29. *)
Definition rent_query : body :=
  query (Some day_jan28) (Some (day_jan28 + 1))
    (Some "mudancas_valor_aluguel") (Some "USER123").

(** Everything from 2025-04-22 on. *)
Definition late_query : body :=
  query (Some (day_jan28 + 84)) None None None.

Definition audit_uuid : string := "7f3c2a10-5b7e-4c1d-9a58-0d2e6f4b8c11".

Definition uuid_e : string := "550e8400-e29b-41d4-a716-446655440004".

(** A query, an update of the house and one more rent change. *)
Definition later_ops : list (@Operation rt) :=
  [ @PropertyHistoryQuery rt rent_query audit_uuid (noon + 2 * msPerDay);
    @PropertyUpdate rt uuid_a (Update (casa_reformada 123));
    @RegisterPropertyChange rt (rent_change "user123") uuid_e
      (noon + 3 * msPerDay) ].

(** A property store filled to the record limit: houses at the numbers
    1 to 10000 of another street. *)
Definition full_store : PropertyStore.t :=
  map (fun n : nat =>
         let i := Z.of_nat n in
         let id := "id-" ++ String_of_number i in
         (id,
          {| PropertyEntity.property_id := id;
             PropertyEntity.codigo_propriedade :=
               "PROP-20250101-" ++ String_of_number i;
             PropertyEntity.tipo_propriedade := "Casa";
             PropertyEntity.endereco_completo :=
               "Rua do Limite, " ++ String_of_number i;
             PropertyEntity.cep := "01310-200";
             PropertyEntity.bairro := "Centro";
             PropertyEntity.cidade := "Campinas";
             PropertyEntity.estado := "SP";
             PropertyEntity.area_total := 100%float;
             PropertyEntity.quartos := None;
             PropertyEntity.banheiros := None;
             PropertyEntity.vagas_garagem := 0%float;
             PropertyEntity.valor_aluguel := 1000%float;
             PropertyEntity.valor_condominio := None;
             PropertyEntity.valor_iptu := None;
             PropertyEntity.descricao := None;
             PropertyEntity.status := "Disponível";
             PropertyEntity.data_cadastro := noon;
             PropertyEntity.usuario_cadastro := "user123" |}))
      (seq 1 (Z.to_nat PROPERTY_DEFAULTS.MAX_RECORDS)).

Definition full_state : State :=
  {| propertyStore := full_store;
     codigoSequencialStore := CodigoSequencialStore.empty;
     propertyHistoryStore := PropertyHistoryStore.empty;
     propertyAuditStore := JsMap.empty |}.

(** The houses at the numbers 1 to [n] registered one after the other,
    all at [noon]. *)
Definition houses (n : nat) : list (@Operation rt) :=
  map (fun i : nat =>
         create_op (Z.of_nat i) ("id-" ++ String_of_number (Z.of_nat i)))
      (seq 1 n).

(** Two houses, at numbers 123 and 456. *)
Definition two_houses : State :=
  @exec rt one_house (create_op 456 uuid_b).

(** A sequence store in which the lock of 2025-01-28 is held. *)
Definition locked_store : CodigoSequencialStore.t :=
  {| CodigoSequencialStore.records := JsMap.empty;
     CodigoSequencialStore.locks := [("20250128", true)] |}.

(** The house with its address in capital letters. *)
Definition casa_maiuscula : UpdateInput.t :=
  {| UpdateInput.tipo_propriedade := "Casa";
     UpdateInput.endereco_completo := "RUA DAS FLORES, 123";
     UpdateInput.cep := "01310-100";
     UpdateInput.bairro := "CENTRO";
     UpdateInput.cidade := "CAMPINAS";
     UpdateInput.estado := "sp";
     UpdateInput.area_total := 150.5%float;
     UpdateInput.quartos := Some 3%float;
     UpdateInput.banheiros := Some 2%float;
     UpdateInput.vagas_garagem := 2%float;
     UpdateInput.valor_aluguel := 2600%float;
     UpdateInput.valor_condominio := Some 350%float;
     UpdateInput.valor_iptu := Some 1200%float;
     UpdateInput.descricao := None;
     UpdateInput.status := "Ocupada" |}.

(** The history with a query made of it. *)
Definition queried : State :=
  @exec rt with_history
    (@PropertyHistoryQuery rt rent_query audit_uuid (noon + 2 * msPerDay)).

End Sample.

(** * Properties *)

(** ** Facts about [JsMap] *)

Section JsMapFacts.

Context {V : Type}.
Implicit Types (m : JsMap.t V) (k : string) (v : V).

Lemma JsMap_get_set_eq m k v : JsMap.get (JsMap.set m k v) k = Some v.
Proof.
  induction m as [|[k' v'] m IH]; simpl.
  - now rewrite String.eqb_refl.
  - destruct (String.eqb k' k) eqn:E; simpl.
    + now rewrite String.eqb_refl.
    + now rewrite E.
Qed.

Lemma JsMap_get_set_ne m k k' v :
  k <> k' -> JsMap.get (JsMap.set m k v) k' = JsMap.get m k'.
Proof.
  intros Hne. induction m as [|[k0 v0] m IH]; simpl.
  - apply String.eqb_neq in Hne. now rewrite Hne.
  - destruct (String.eqb k0 k) eqn:E; simpl.
    + apply String.eqb_eq in E. subst k0.
      apply String.eqb_neq in Hne. now rewrite Hne.
    + now rewrite IH.
Qed.

Lemma JsMap_get_None_keys m k :
  JsMap.get m k = None <-> ~ In k (JsMap.keys m).
Proof.
  induction m as [|[k' v'] m IH]; simpl.
  - tauto.
  - destruct (String.eqb k' k) eqn:E.
    + apply String.eqb_eq in E. split; [discriminate | tauto].
    + apply String.eqb_neq in E. rewrite IH. tauto.
Qed.

Lemma JsMap_set_fresh m k v :
  JsMap.get m k = None -> JsMap.set m k v = (m ++ [(k, v)])%list.
Proof.
  induction m as [|[k' v'] m IH]; simpl; intros Hget.
  - reflexivity.
  - destruct (String.eqb k' k); [discriminate|].
    now rewrite IH.
Qed.

Lemma JsMap_get_In m k v : JsMap.get m k = Some v -> In (k, v) m.
Proof.
  induction m as [|[k' v'] m IH]; simpl; intros Hget.
  - discriminate.
  - destruct (String.eqb k' k) eqn:E.
    + apply String.eqb_eq in E. left. congruence.
    + right. now apply IH.
Qed.

Lemma JsMap_In_get m k v :
  JsMap.wf m -> In (k, v) m -> JsMap.get m k = Some v.
Proof.
  unfold JsMap.wf, JsMap.keys.
  induction m as [|[k' v'] m IH]; simpl; intros Hwf Hin.
  - contradiction.
  - inversion Hwf as [|? ? Hnot Hwf']; subst.
    destruct Hin as [Heq|Hin].
    + inversion Heq; subst. now rewrite String.eqb_refl.
    + destruct (String.eqb k' k) eqn:E.
      * apply String.eqb_eq in E. subst k'.
        exfalso. apply Hnot. apply (in_map fst) in Hin. exact Hin.
      * now apply IH.
Qed.

Lemma JsMap_keys_set m k v :
  JsMap.keys (JsMap.set m k v)
  = if JsMap.has m k then JsMap.keys m else (JsMap.keys m ++ [k])%list.
Proof.
  unfold JsMap.has, JsMap.keys.
  induction m as [|[k0 v0] m IH]; simpl.
  - reflexivity.
  - destruct (String.eqb k0 k) eqn:E; simpl.
    + apply String.eqb_eq in E. now subst.
    + rewrite IH. now destruct (JsMap.get m k).
Qed.

Lemma JsMap_has_keys m k : JsMap.has m k = true <-> In k (JsMap.keys m).
Proof.
  unfold JsMap.has. destruct (JsMap.get m k) eqn:E.
  - split; [intros _|reflexivity].
    apply JsMap_get_In in E. apply (in_map fst) in E. exact E.
  - split; [discriminate|]. intros Hin.
    apply JsMap_get_None_keys in E. contradiction.
Qed.

Lemma JsMap_wf_set m k v : JsMap.wf m -> JsMap.wf (JsMap.set m k v).
Proof.
  unfold JsMap.wf. intros Hwf. rewrite JsMap_keys_set.
  destruct (JsMap.has m k) eqn:E; [exact Hwf|].
  apply NoDup_app; [exact Hwf | repeat constructor; simpl; tauto |].
  intros x Hin [<-|[]].
  apply JsMap_has_keys in Hin. congruence.
Qed.

Lemma JsMap_In_wf_set m k v k' v' :
  JsMap.wf m ->
  In (k', v') (JsMap.set m k v) ->
  (k' = k /\ v' = v) \/ (k' <> k /\ In (k', v') m).
Proof.
  intros Hwf Hin.
  pose proof (JsMap_wf_set m k v Hwf) as Hwf'.
  apply (JsMap_In_get _ _ _ Hwf') in Hin.
  destruct (string_dec k k') as [<-|Hne].
  - rewrite JsMap_get_set_eq in Hin. left. split; congruence.
  - rewrite JsMap_get_set_ne in Hin by exact Hne.
    right. split; [congruence | now apply JsMap_get_In].
Qed.

Lemma JsMap_has_set m k k' v :
  JsMap.has m k' = true -> JsMap.has (JsMap.set m k v) k' = true.
Proof.
  unfold JsMap.has. intros Hhas.
  destruct (string_dec k k') as [<-|Hne].
  - now rewrite JsMap_get_set_eq.
  - now rewrite JsMap_get_set_ne.
Qed.

Lemma JsMap_size_set_fresh m k v :
  JsMap.get m k = None ->
  JsMap.size (JsMap.set m k v) = JsMap.size m + 1.
Proof.
  intros Hget. rewrite JsMap_set_fresh by exact Hget.
  unfold JsMap.size. rewrite length_app. simpl. lia.
Qed.

Lemma JsMap_wf_empty : JsMap.wf (@JsMap.empty V).
Proof. constructor. Qed.

Lemma JsMap_In_values m v :
  In v (JsMap.values m) <-> exists k, In (k, v) m.
Proof.
  unfold JsMap.values. rewrite in_map_iff. split.
  - intros [[k v0] [Heq Hin]]. simpl in Heq. subst. now exists k.
  - intros [k Hin]. now exists (k, v).
Qed.

End JsMapFacts.

(** ** The address invariant of the property store *)

Section AddressInvariant.

Context {RT : Runtime}.

Lemma same_address_sym (p q : PropertyEntity.t) :
  same_address p q = same_address q p.
Proof.
  unfold same_address.
  rewrite (String.eqb_sym (toLowerCase (PropertyEntity.endereco_completo p))).
  rewrite (String.eqb_sym (toLowerCase (PropertyEntity.bairro p))).
  rewrite (String.eqb_sym (PropertyEntity.cep p)).
  rewrite (String.eqb_sym (toLowerCase (PropertyEntity.cidade p))).
  rewrite (String.eqb_sym (toUpperCase (PropertyEntity.estado p))).
  reflexivity.
Qed.

Lemma store_ok_empty : store_ok JsMap.empty.
Proof.
  split; [apply JsMap_wf_empty|]. split; intros; contradiction.
Qed.

Lemma store_ok_set (records : PropertyStore.t) (k : string)
    (v : PropertyEntity.t) :
  store_ok records ->
  v.(PropertyEntity.property_id) = k ->
  (forall k' p', In (k', p') records -> k' <> k ->
                 same_address p' v = false) ->
  store_ok (JsMap.set records k v).
Proof.
  intros (Hwf & Hid & Hpair) Hv Hnew.
  split; [now apply JsMap_wf_set|]. split.
  - intros k0 p Hin.
    apply JsMap_In_wf_set in Hin; [|exact Hwf].
    destruct Hin as [[-> ->]|[_ Hin]]; [exact Hv | eauto].
  - intros k1 p1 k2 p2 H1 H2 Hne.
    apply JsMap_In_wf_set in H1; [|exact Hwf].
    apply JsMap_In_wf_set in H2; [|exact Hwf].
    destruct H1 as [[-> ->]|[Hk1 H1]], H2 as [[-> ->]|[Hk2 H2]].
    + congruence.
    + rewrite same_address_sym. eauto.
    + eauto.
    + eauto.
Qed.

Lemma store_ok_unique (s : State) :
  store_ok s.(propertyStore) -> unique_addresses s.
Proof.
  intros (Hwf & Hid & Hpair). unfold unique_addresses, PropertyStore.getAll.
  split.
  - unfold JsMap.values. rewrite map_map.
    replace (map (fun x => PropertyEntity.property_id (snd x))
               (propertyStore s))
      with (JsMap.keys (propertyStore s)); [exact Hwf|].
    unfold JsMap.keys. apply map_ext_in.
    intros [k p] Hin. simpl. symmetry. now apply Hid.
  - intros p q Hp Hq Hne.
    apply JsMap_In_values in Hp. destruct Hp as [kp Hp].
    apply JsMap_In_values in Hq. destruct Hq as [kq Hq].
    apply (Hpair kp p kq q Hp Hq).
    rewrite <- (Hid _ _ Hp), <- (Hid _ _ Hq). exact Hne.
Qed.

Lemma existsByAddress_false (records : PropertyStore.t)
    (params : CreateInput.t) :
  PropertyStore.existsByAddress records
    params.(CreateInput.endereco_completo) params.(CreateInput.bairro)
    params.(CreateInput.cep) params.(CreateInput.cidade)
    params.(CreateInput.estado) = false ->
  forall k p, In (k, p) records -> matches_create p params = false.
Proof.
  unfold PropertyStore.existsByAddress. intros Hex k p Hin.
  destruct (matches_create p params) eqn:E; [|reflexivity].
  rewrite <- Hex. symmetry. apply existsb_exists.
  exists p. split; [|exact E].
  apply JsMap_In_values. now exists k.
Qed.

Lemma existsByAddress_true (records : PropertyStore.t)
    (params : CreateInput.t) (p : PropertyEntity.t) :
  In p (PropertyStore.getAll records) ->
  matches_create p params = true ->
  PropertyStore.existsByAddress records
    params.(CreateInput.endereco_completo) params.(CreateInput.bairro)
    params.(CreateInput.cep) params.(CreateInput.cidade)
    params.(CreateInput.estado) = true.
Proof.
  intros Hin Hm. unfold PropertyStore.existsByAddress.
  apply existsb_exists. exists p. split; [exact Hin | exact Hm].
Qed.

Lemma duplicateExists_false (s : State) (property_id : string)
    (params : UpdateInput.t) :
  duplicateExists s property_id params = false ->
  forall k p, In (k, p) s.(propertyStore) ->
              p.(PropertyEntity.property_id) <> property_id ->
              matches_update p params = false.
Proof.
  unfold duplicateExists. intros Hex k p Hin Hne.
  destruct (matches_update p params) eqn:E; [|reflexivity].
  rewrite <- Hex. symmetry. apply existsb_exists.
  exists p. split.
  - apply JsMap_In_values. now exists k.
  - apply String.eqb_neq in Hne. rewrite Hne. simpl.
    unfold matches_update in E.
    rewrite <- !andb_assoc in *. exact E.
Qed.

Lemma duplicateExists_true (s : State) (property_id : string)
    (params : UpdateInput.t) (p : PropertyEntity.t) :
  In p (PropertyStore.getAll s.(propertyStore)) ->
  p.(PropertyEntity.property_id) <> property_id ->
  matches_update p params = true ->
  duplicateExists s property_id params = true.
Proof.
  intros Hin Hne Hm. unfold duplicateExists.
  apply existsb_exists. exists p. split; [exact Hin|].
  apply String.eqb_neq in Hne. rewrite Hne. simpl.
  unfold matches_update in Hm.
  rewrite <- !andb_assoc in *. exact Hm.
Qed.

End AddressInvariant.

(** ** What each service does to the state *)

Section ServiceEffects.

Context {RT : Runtime}.

Lemma getNextSequential_Throw (st st' : CodigoSequencialStore.t)
    (dateRef : string) (now : Z) (e : Exception) :
  CodigoSequencialStore.getNextSequential st dateRef now = (Throw e, st') ->
  st' = st.
Proof.
  unfold CodigoSequencialStore.getNextSequential.
  destruct (CodigoSequencialStore.acquireLock _ _).
  - destruct (JsMap.get _ _); discriminate.
  - congruence.
Qed.

Lemma generatePropertyCode_Throw (st st' : CodigoSequencialStore.t)
    (today seq_now : Z) (e : Exception) :
  generatePropertyCode st today seq_now = (Throw e, st') -> st' = st.
Proof.
  unfold generatePropertyCode.
  destruct (CodigoSequencialStore.getNextSequential _ _ _) as [[n|e0] st0]
    eqn:E; [discriminate|].
  intros Heq. inversion Heq; subst.
  now apply getNextSequential_Throw in E.
Qed.

Lemma propertyCreate_Throw (s s' : State) (body : unknown) (now : Z)
    (uuid : string) (today seq_now : Z) (e : Exception) :
  propertyCreate s body now uuid today seq_now = (Throw e, s') -> s' = s.
Proof.
  unfold propertyCreate.
  destruct (createSchema body); [|congruence].
  destruct (checkDuplicateAddress _ _ _ _ _ _); [congruence|].
  destruct (_ <=? _); [congruence|].
  destruct (generatePropertyCode _ _ _) as [[c|e0] seqs] eqn:E;
    [discriminate|].
  apply generatePropertyCode_Throw in E. subst seqs.
  intros Heq. inversion Heq. now destruct s.
Qed.

Lemma propertyCreate_Return (s s' : State) (body : unknown) (now : Z)
    (uuid : string) (today seq_now : Z) (p : PropertyEntity.t) :
  propertyCreate s body now uuid today seq_now = (Return p, s') ->
  exists params,
    createSchema body = Some params
    /\ checkDuplicateAddress s
         params.(CreateInput.endereco_completo)
         params.(CreateInput.bairro) params.(CreateInput.cep)
         params.(CreateInput.cidade) params.(CreateInput.estado) = false
    /\ PropertyStore.count s.(propertyStore) < PROPERTY_DEFAULTS.MAX_RECORDS
    /\ generatePropertyCode s.(codigoSequencialStore) today seq_now
       = (Return p.(PropertyEntity.codigo_propriedade),
          s'.(codigoSequencialStore))
    /\ p.(PropertyEntity.property_id) = uuid
    /\ p.(PropertyEntity.data_cadastro) = now
    /\ p.(PropertyEntity.status) = PROPERTY_DEFAULTS.STATUS
    /\ (forall q, same_address q p = matches_create q params)
    /\ s'.(propertyStore) = PropertyStore.add s.(propertyStore) p
    /\ s'.(propertyHistoryStore) = s.(propertyHistoryStore)
    /\ s'.(propertyAuditStore) = s.(propertyAuditStore).
Proof.
  unfold propertyCreate.
  destruct (createSchema body) as [params|]; [|discriminate].
  destruct (checkDuplicateAddress _ _ _ _ _ _) eqn:Hdup; [discriminate|].
  destruct (_ <=? _) eqn:Hmax; [discriminate|].
  destruct (generatePropertyCode _ _ _) as [[c|e0] seqs] eqn:E;
    [|discriminate].
  intros Heq. inversion Heq; subst; clear Heq. simpl.
  exists params. apply Z.leb_gt in Hmax.
  repeat split; auto.
Qed.

Lemma propertyUpdate_Throw (s s' : State) (property_id : string)
    (body : unknown) (e : Exception) :
  propertyUpdate s property_id body = (Throw e, s') -> s' = s.
Proof.
  unfold propertyUpdate.
  destruct (updateSchema body); [|congruence].
  destruct (PropertyStore.getById _ _); [|congruence].
  destruct (duplicateExists _ _ _); [congruence|discriminate].
Qed.

Lemma propertyUpdate_Return (s s' : State) (property_id : string)
    (body : unknown) (p : PropertyEntity.t) :
  propertyUpdate s property_id body = (Return p, s') ->
  exists params existing,
    updateSchema body = Some params
    /\ PropertyStore.getById s.(propertyStore) property_id = Some existing
    /\ duplicateExists s property_id params = false
    /\ p.(PropertyEntity.property_id)
       = existing.(PropertyEntity.property_id)
    /\ p.(PropertyEntity.codigo_propriedade)
       = existing.(PropertyEntity.codigo_propriedade)
    /\ p.(PropertyEntity.data_cadastro)
       = existing.(PropertyEntity.data_cadastro)
    /\ p.(PropertyEntity.usuario_cadastro)
       = existing.(PropertyEntity.usuario_cadastro)
    /\ (forall q, same_address q p = matches_update q params)
    /\ s'.(propertyStore)
       = PropertyStore.update s.(propertyStore) property_id p
    /\ s'.(codigoSequencialStore) = s.(codigoSequencialStore)
    /\ s'.(propertyHistoryStore) = s.(propertyHistoryStore)
    /\ s'.(propertyAuditStore) = s.(propertyAuditStore).
Proof.
  unfold propertyUpdate.
  destruct (updateSchema body) as [params|]; [|discriminate].
  destruct (PropertyStore.getById _ _) as [existing|] eqn:Hget;
    [|discriminate].
  destruct (duplicateExists _ _ _) eqn:Hdup; [discriminate|].
  intros Heq. inversion Heq; subst; clear Heq. simpl.
  exists params, existing. repeat split; auto.
Qed.

Lemma propertyHistoryQuery_Throw (s s' : State) (params : unknown)
    (uuid : string) (now : Z) (e : Exception) :
  propertyHistoryQuery s params uuid now = (Throw e, s') -> s' = s.
Proof.
  unfold propertyHistoryQuery.
  destruct (historyQuerySchema params); [|congruence].
  destruct (PropertyStore.getById _ _); [discriminate|congruence].
Qed.

(** A history query touches the audit store only. *)
Lemma propertyHistoryQuery_frame (s : State) (params : unknown)
    (uuid : string) (now : Z) :
  let s' := snd (propertyHistoryQuery s params uuid now) in
  s'.(propertyStore) = s.(propertyStore)
  /\ s'.(codigoSequencialStore) = s.(codigoSequencialStore)
  /\ s'.(propertyHistoryStore) = s.(propertyHistoryStore).
Proof.
  unfold propertyHistoryQuery.
  destruct (historyQuerySchema params); [|simpl; auto].
  destruct (PropertyStore.getById _ _); simpl; auto.
Qed.

(** [exec] changes the property store through a successful create or
    update only. *)
Lemma exec_propertyStore (s : State) (op : Operation) :
  (exec s op).(propertyStore) = s.(propertyStore)
  \/ (exists body now uuid today seq_now p,
        op = PropertyCreate body now uuid today seq_now
        /\ propertyCreate s body now uuid today seq_now
           = (Return p, exec s op))
  \/ (exists property_id body p,
        op = PropertyUpdate property_id body
        /\ propertyUpdate s property_id body = (Return p, exec s op)).
Proof.
  destruct op as [body now uuid today seq_now| | |property_id body
                 |params uuid now|params uuid now|params uuid now];
    simpl; auto.
  - destruct (propertyCreate s body now uuid today seq_now) as [[p|e] s']
      eqn:E; simpl.
    + right. left. now exists body, now, uuid, today, seq_now, p.
    + left. apply propertyCreate_Throw in E. now subst.
  - destruct (propertyUpdate s property_id body) as [[p|e] s'] eqn:E; simpl.
    + right. right. now exists property_id, body, p.
    + left. apply propertyUpdate_Throw in E. now subst.
  - left. apply propertyHistoryQuery_frame.
Qed.

End ServiceEffects.

(** ** C1: address uniqueness *)

Section AddressUniqueness.

Context {RT : Runtime}.

Lemma propertyCreate_store_ok (s s' : State) (body : unknown) (now : Z)
    (uuid : string) (today seq_now : Z) (p : PropertyEntity.t) :
  store_ok s.(propertyStore) ->
  propertyCreate s body now uuid today seq_now = (Return p, s') ->
  store_ok s'.(propertyStore).
Proof.
  intros Hok Hrun.
  apply propertyCreate_Return in Hrun.
  destruct Hrun as (params & _ & Hdup & _ & _ & Hid & _ & _ & Hsame
                    & Hstore & _).
  rewrite Hstore. unfold PropertyStore.add.
  apply store_ok_set; [exact Hok | reflexivity |].
  intros k' p' Hin _. rewrite Hsame.
  now apply (existsByAddress_false _ _ Hdup k').
Qed.

Lemma propertyUpdate_store_ok (s s' : State) (property_id : string)
    (body : unknown) (p : PropertyEntity.t) :
  store_ok s.(propertyStore) ->
  propertyUpdate s property_id body = (Return p, s') ->
  store_ok s'.(propertyStore).
Proof.
  intros Hok Hrun.
  apply propertyUpdate_Return in Hrun.
  destruct Hrun as (params & existing & _ & Hget & Hdup & Hid & _ & _ & _
                    & Hsame & Hstore & _).
  rewrite Hstore. unfold PropertyStore.update.
  pose proof Hok as (_ & Hids & _).
  apply JsMap_get_In in Hget.
  apply store_ok_set; [exact Hok | |].
  - rewrite Hid. now apply Hids.
  - intros k' p' Hin Hne. rewrite Hsame.
    apply (duplicateExists_false _ _ _ Hdup k'); [exact Hin|].
    now rewrite (Hids _ _ Hin).
Qed.

Lemma exec_store_ok (s : State) (op : Operation) :
  store_ok s.(propertyStore) -> store_ok (exec s op).(propertyStore).
Proof.
  intros Hok.
  destruct (exec_propertyStore s op)
    as [Heq|[(body & now & uuid & today & seq_now & p & _ & Hrun)
            |(property_id & body & p & _ & Hrun)]].
  - now rewrite Heq.
  - eapply propertyCreate_store_ok; eauto.
  - eapply propertyUpdate_store_ok; eauto.
Qed.

Lemma reachable_store_ok (s : State) :
  reachable s -> store_ok s.(propertyStore).
Proof.
  induction 1 as [|s op _ IH].
  - apply store_ok_empty.
  - now apply exec_store_ok.
Qed.

Lemma reachable_run (s : State) (ops : list Operation) :
  reachable s -> reachable (run s ops).
Proof.
  revert s. induction ops as [|op ops IH]; intros s Hs; simpl.
  - exact Hs.
  - apply IH. now constructor.
Qed.


End AddressUniqueness.


(** ** Sorting *)

Section Sorting.

Context {A : Type}.
Variable cmp : A -> A -> Z.

Lemma Array_sort_insert_perm (x : A) (l : list A) :
  Permutation (x :: l) (Array_sort_insert cmp x l).
Proof.
  induction l as [|y l IH]; simpl.
  - apply Permutation_refl.
  - destruct (cmp x y <=? 0).
    + apply Permutation_refl.
    + eapply perm_trans; [apply perm_swap|]. now apply perm_skip.
Qed.

Lemma Array_sort_perm (l : list A) : Permutation l (Array_sort cmp l).
Proof.
  induction l as [|x l IH]; simpl.
  - constructor.
  - eapply perm_trans; [|apply Array_sort_insert_perm].
    now apply perm_skip.
Qed.

Lemma Array_sort_In (l : list A) (x : A) :
  In x (Array_sort cmp l) <-> In x l.
Proof.
  split; apply Permutation_in;
    [apply Permutation_sym|]; apply Array_sort_perm.
Qed.

Lemma Array_sort_length (l : list A) :
  List.length (Array_sort cmp l) = List.length l.
Proof. symmetry. apply Permutation_length, Array_sort_perm. Qed.

(** When the comparator is the difference of a key, the result is
    ordered by that key. *)
Variable key : A -> Z.
Hypothesis cmp_key : forall a b, cmp a b = key a - key b.

Let le_key (a b : A) : Prop := key a <= key b.

Lemma Array_sort_insert_sorted (x : A) (l : list A) :
  StronglySorted le_key l ->
  StronglySorted le_key (Array_sort_insert cmp x l).
Proof.
  induction 1 as [|y l Hs IH Hall]; simpl.
  - repeat constructor.
  - destruct (cmp x y <=? 0) eqn:E.
    + apply Z.leb_le in E. rewrite cmp_key in E.
      constructor; [now constructor|].
      constructor; [unfold le_key; lia|].
      eapply Forall_impl; [|exact Hall].
      unfold le_key. intros a Ha. lia.
    + apply Z.leb_gt in E. rewrite cmp_key in E.
      constructor; [exact IH|].
      eapply Permutation_Forall; [apply Array_sort_insert_perm|].
      constructor; [unfold le_key; lia | exact Hall].
Qed.

Lemma Array_sort_sorted (l : list A) :
  StronglySorted le_key (Array_sort cmp l).
Proof.
  induction l as [|x l IH]; simpl.
  - constructor.
  - now apply Array_sort_insert_sorted.
Qed.

Lemma StronglySorted_head_min (x : A) (l : list A) (y : A) :
  StronglySorted le_key (x :: l) -> In y (x :: l) -> key x <= key y.
Proof.
  intros Hs Hin. inversion Hs as [|? ? _ Hall]; subst.
  destruct Hin as [<-|Hin]; [lia|].
  rewrite Forall_forall in Hall. now apply Hall.
Qed.

Lemma StronglySorted_last_max (l : list A) (x y : A) :
  StronglySorted le_key l ->
  nth_error l (List.length l - 1) = Some x -> In y l -> key y <= key x.
Proof.
  induction 1 as [|z l Hs IH Hall]; simpl; intros Hnth Hin.
  - contradiction.
  - destruct l as [|z' l'].
    + simpl in Hnth. destruct Hin as [<-|[]].
      inversion Hnth; subst. lia.
    + replace (List.length (z' :: l') - 0)%nat
        with (S (List.length (z' :: l') - 1)) in Hnth by (simpl; lia).
      cbn [nth_error] in Hnth.
      destruct Hin as [<-|Hin].
      * rewrite Forall_forall in Hall. apply Hall.
        apply nth_error_In in Hnth. exact Hnth.
      * now apply IH.
Qed.

(** First element of the sorted array: a least key of the input. *)
Lemma Array_sort_first (l : list A) (x : A) :
  nth_error (Array_sort cmp l) 0 = Some x ->
  In x l /\ forall y, In y l -> key x <= key y.
Proof.
  intros Hnth. pose proof (Array_sort_sorted l) as Hs.
  destruct (Array_sort cmp l) as [|x0 l0] eqn:E; [discriminate|].
  simpl in Hnth. inversion Hnth; subst x0. split.
  - apply Array_sort_In. rewrite E. now left.
  - intros y Hy. apply (StronglySorted_head_min x l0 y Hs).
    rewrite <- E. now apply Array_sort_In.
Qed.

(** Last element of the sorted array: a greatest key of the input. *)
Lemma Array_sort_last (l : list A) (x : A) :
  nth_error (Array_sort cmp l) (List.length (Array_sort cmp l) - 1)
  = Some x ->
  In x l /\ forall y, In y l -> key y <= key x.
Proof.
  intros Hnth. split.
  - apply Array_sort_In. now apply nth_error_In in Hnth.
  - intros y Hy.
    apply (StronglySorted_last_max _ x y (Array_sort_sorted l) Hnth).
    now apply Array_sort_In.
Qed.

End Sorting.

(** ** C2, C9: history queries *)

Section HistoryQuery.

Context {RT : Runtime}.

(** The cut-off computed for [end_date] lies within that day. *)
Lemma setHours_within_day (d : Z) :
  Date_of_day d <= setHours_23_59_59_999 (Date_of_day d) <= end_of_day d.
Proof.
  unfold setHours_23_59_59_999, end_of_day, Date_of_day, msPerDay.
  generalize utcOffset. intros tz.
  pose proof (Z.div_mod (d * 86400000 + tz) 86400000 ltac:(lia)) as Hdm.
  pose proof (Z.mod_pos_bound (d * 86400000 + tz) 86400000 ltac:(lia))
    as Hb.
  assert (Hmod : (d * 86400000 + tz) mod 86400000 = tz mod 86400000).
  { rewrite Z.add_comm. apply Z.mod_add. lia. }
  pose proof (Z.div_mod tz 86400000 ltac:(lia)) as Hdm'.
  pose proof (Z.mod_pos_bound tz 86400000 ltac:(lia)) as Hb'.
  lia.
Qed.

Lemma getChangesByPropertyId_In (s : State) (property_id : string)
    (c : PropertyHistoryChangeRecord.t) :
  In c (PropertyHistoryStore.getChangesByPropertyId
          s.(propertyHistoryStore) property_id)
  <-> In c (changes_of s property_id).
Proof.
  unfold PropertyHistoryStore.getChangesByPropertyId, changes_of.
  apply Array_sort_In.
Qed.

Lemma getEventsByPropertyId_In (s : State) (property_id : string)
    (e : PropertyLifecycleEventRecord.t) :
  In e (PropertyHistoryStore.getEventsByPropertyId
          s.(propertyHistoryStore) property_id)
  <-> In e (events_of s property_id).
Proof.
  unfold PropertyHistoryStore.getEventsByPropertyId, events_of.
  apply Array_sort_In.
Qed.

Lemma changes_of_property (s : State) (property_id : string)
    (c : PropertyHistoryChangeRecord.t) :
  In c (changes_of s property_id) ->
  c.(PropertyHistoryChangeRecord.property_id) = property_id.
Proof.
  unfold changes_of. rewrite filter_In. intros [_ Heq].
  now apply String.eqb_eq.
Qed.

Lemma events_of_property (s : State) (property_id : string)
    (e : PropertyLifecycleEventRecord.t) :
  In e (events_of s property_id) ->
  e.(PropertyLifecycleEventRecord.property_id) = property_id.
Proof.
  unfold events_of. rewrite filter_In. intros [_ Heq].
  now apply String.eqb_eq.
Qed.

Lemma truthy_Some (x : string) : x <> "" -> truthy (Some x) = true.
Proof.
  intros Hne. simpl. apply String.eqb_neq in Hne. now rewrite Hne.
Qed.

Ltac filter_done :=
  match goal with
  | H : (_ <=? _) = true |- _ <= _ => apply Z.leb_le; exact H
  | H : String.eqb _ _ = true |- _ = _ => apply String.eqb_eq; exact H
  | Hne : ?x <> "", H : truthy (Some ?x) = false |- _ =>
      rewrite (truthy_Some x Hne) in H; discriminate
  | Hne : ?x <> PROPERTY_CHANGE_TYPES.TODOS,
    H : String.eqb ?x PROPERTY_CHANGE_TYPES.TODOS = true |- _ =>
      apply String.eqb_eq in H; contradiction
  end.

Lemma filter_changes_In (q : HistoryQueryInput.t)
    (l : list PropertyHistoryChangeRecord.t)
    (c : PropertyHistoryChangeRecord.t) :
  In c (filter_changes q l) ->
  In c l
  /\ (forall d, q.(HistoryQueryInput.start_date) = Some d ->
                Date_of_day d
                <= c.(PropertyHistoryChangeRecord.change_date))
  /\ (forall d, q.(HistoryQueryInput.end_date) = Some d ->
                c.(PropertyHistoryChangeRecord.change_date)
                <= setHours_23_59_59_999 (Date_of_day d))
  /\ (forall t, q.(HistoryQueryInput.change_type) = Some t ->
                t <> "" -> t <> PROPERTY_CHANGE_TYPES.TODOS ->
                c.(PropertyHistoryChangeRecord.change_type) = t)
  /\ (forall u, q.(HistoryQueryInput.responsible_user) = Some u ->
                u <> "" ->
                toLowerCase c.(PropertyHistoryChangeRecord.user_responsible)
                = toLowerCase u).
Proof.
  unfold filter_changes. intros Hin.
  destruct (HistoryQueryInput.start_date q) as [d1|],
           (HistoryQueryInput.end_date q) as [d2|],
           (HistoryQueryInput.change_type q) as [t|],
           (HistoryQueryInput.responsible_user q) as [u|];
    try (destruct (truthy (Some u)) eqn:Hu);
    try (destruct (truthy (Some t)) eqn:Ht;
         [destruct (String.eqb t PROPERTY_CHANGE_TYPES.TODOS) eqn:Htodos|]);
    simpl in Hin;
    repeat (apply filter_In in Hin; destruct Hin as [Hin ?]);
    (split; [exact Hin|]);
    repeat split; intros x Hx; try discriminate;
    inversion Hx; subst; intros;
    filter_done.
Qed.

Lemma filter_events_In (q : HistoryQueryInput.t)
    (l : list PropertyLifecycleEventRecord.t)
    (e : PropertyLifecycleEventRecord.t) :
  In e (filter_events q l) ->
  In e l
  /\ (forall d, q.(HistoryQueryInput.start_date) = Some d ->
                Date_of_day d
                <= e.(PropertyLifecycleEventRecord.event_date))
  /\ (forall d, q.(HistoryQueryInput.end_date) = Some d ->
                e.(PropertyLifecycleEventRecord.event_date)
                <= setHours_23_59_59_999 (Date_of_day d)).
Proof.
  unfold filter_events. intros Hin.
  destruct (HistoryQueryInput.end_date q) as [d|].
  - apply filter_In in Hin. destruct Hin as [Hin Hle].
    apply Z.leb_le in Hle.
    destruct (HistoryQueryInput.start_date q) as [d0|].
    + apply filter_In in Hin. destruct Hin as [Hin Hge].
      apply Z.leb_le in Hge.
      repeat split; auto; intros ? Heq; inversion Heq; subst; auto.
    + repeat split; auto; intros ? Heq; inversion Heq; subst; auto.
  - destruct (HistoryQueryInput.start_date q) as [d0|].
    + apply filter_In in Hin. destruct Hin as [Hin Hge].
      apply Z.leb_le in Hge.
      repeat split; auto; intros ? Heq; inversion Heq; subst; auto.
    + repeat split; auto; intros ? Heq; inversion Heq.
Qed.

End HistoryQuery.

Section HistoryQueryTheorems.

Context {RT : Runtime}.

(** C2.  On a valid query (the parameters pass the schema, the property
    exists, and a given [change_type] or [responsible_user] is not the
    empty text) [propertyHistoryQuery] returns, and: every returned change
    record is a stored change record of the requested property; its
    [change_date] is on or after midnight of [start_date] when that is
    given, and not later than the last millisecond of the [end_date] day
    when that is given (not later than the cut-off the code computes,
    which lies within that day); it has the requested [change_type] when
    one other than 'todos' is given; its [user_responsible] equals
    [responsible_user] up to [toLowerCase] when that is given.  Every
    returned lifecycle event is a stored event of the property within the
    same date bounds.  [total_changes] and [total_events] are the lengths
    of the two returned lists. *)
Theorem history_query_filters (s : State) (params : unknown)
    (queryParams : HistoryQueryInput.t) (existing : PropertyEntity.t)
    (uuid : string) (now : Z) :
  historyQuerySchema params = Some queryParams ->
  PropertyStore.getById s.(propertyStore)
    queryParams.(HistoryQueryInput.property_id) = Some existing ->
  queryParams.(HistoryQueryInput.change_type) <> Some "" ->
  queryParams.(HistoryQueryInput.responsible_user) <> Some "" ->
  exists response s',
    propertyHistoryQuery s params uuid now = (Return response, s')
    /\ (forall c,
          In c response.(PropertyHistoryResponse.changes) ->
          In c (changes_of s queryParams.(HistoryQueryInput.property_id))
          /\ c.(PropertyHistoryChangeRecord.property_id)
             = queryParams.(HistoryQueryInput.property_id)
          /\ (forall d,
                queryParams.(HistoryQueryInput.start_date) = Some d ->
                Date_of_day d <= c.(PropertyHistoryChangeRecord.change_date))
          /\ (forall d,
                queryParams.(HistoryQueryInput.end_date) = Some d ->
                c.(PropertyHistoryChangeRecord.change_date)
                <= setHours_23_59_59_999 (Date_of_day d)
                /\ c.(PropertyHistoryChangeRecord.change_date)
                   <= end_of_day d)
          /\ (forall t,
                queryParams.(HistoryQueryInput.change_type) = Some t ->
                t <> PROPERTY_CHANGE_TYPES.TODOS ->
                c.(PropertyHistoryChangeRecord.change_type) = t)
          /\ (forall u,
                queryParams.(HistoryQueryInput.responsible_user) = Some u ->
                toLowerCase c.(PropertyHistoryChangeRecord.user_responsible)
                = toLowerCase u))
    /\ (forall e,
          In e response.(PropertyHistoryResponse.lifecycle_events) ->
          In e (events_of s queryParams.(HistoryQueryInput.property_id))
          /\ e.(PropertyLifecycleEventRecord.property_id)
             = queryParams.(HistoryQueryInput.property_id)
          /\ (forall d,
                queryParams.(HistoryQueryInput.start_date) = Some d ->
                Date_of_day d
                <= e.(PropertyLifecycleEventRecord.event_date))
          /\ (forall d,
                queryParams.(HistoryQueryInput.end_date) = Some d ->
                e.(PropertyLifecycleEventRecord.event_date)
                <= setHours_23_59_59_999 (Date_of_day d)
                /\ e.(PropertyLifecycleEventRecord.event_date)
                   <= end_of_day d))
    /\ response.(PropertyHistoryResponse.summary)
         .(PropertyHistoryResponse.total_changes)
       = Z.of_nat (List.length response.(PropertyHistoryResponse.changes))
    /\ response.(PropertyHistoryResponse.summary)
         .(PropertyHistoryResponse.total_events)
       = Z.of_nat
           (List.length response.(PropertyHistoryResponse.lifecycle_events)).
Proof.
  intros Hparse Hget Htype Huser.
  unfold propertyHistoryQuery. rewrite Hparse, Hget.
  eexists. eexists. split; [reflexivity|]. simpl.
  split; [|split; [|split; reflexivity]].
  - intros c Hin. apply filter_changes_In in Hin.
    destruct Hin as (Hin & Hstart & Hend & Hty & Hus).
    apply getChangesByPropertyId_In in Hin.
    split; [exact Hin|]. split; [now apply changes_of_property in Hin|].
    split; [exact Hstart|]. split; [|split].
    + intros d Hd. specialize (Hend d Hd).
      pose proof (setHours_within_day d). lia.
    + intros t Ht Htodos. apply Hty; auto. congruence.
    + intros u Hu. apply Hus; auto. congruence.
  - intros e Hin. apply filter_events_In in Hin.
    destruct Hin as (Hin & Hstart & Hend).
    apply getEventsByPropertyId_In in Hin.
    split; [exact Hin|]. split; [now apply events_of_property in Hin|].
    split; [exact Hstart|].
    intros d Hd. specialize (Hend d Hd).
    pose proof (setHours_within_day d). lia.
Qed.

(** C9.  On a query that passes the schema for an existing property,
    [first_change_date] and [last_change_date] are taken over all change
    records stored for the property, whatever the filters: both are null
    when the property has no change record, and otherwise they are the
    [change_date] of stored change records of the property, the first not
    later and the last not earlier than the [change_date] of every change
    record of the property. *)
Theorem summary_dates_ignore_filters (s : State) (params : unknown)
    (queryParams : HistoryQueryInput.t) (existing : PropertyEntity.t)
    (uuid : string) (now : Z) :
  historyQuerySchema params = Some queryParams ->
  PropertyStore.getById s.(propertyStore)
    queryParams.(HistoryQueryInput.property_id) = Some existing ->
  exists response s',
    propertyHistoryQuery s params uuid now = (Return response, s')
    /\ let all := changes_of s queryParams.(HistoryQueryInput.property_id) in
       let summary := response.(PropertyHistoryResponse.summary) in
       (all = [] ->
        summary.(PropertyHistoryResponse.first_change_date) = None
        /\ summary.(PropertyHistoryResponse.last_change_date) = None)
       /\ (all <> [] ->
           exists first last,
             In first all /\ In last all
             /\ summary.(PropertyHistoryResponse.first_change_date)
                = Some first.(PropertyHistoryChangeRecord.change_date)
             /\ summary.(PropertyHistoryResponse.last_change_date)
                = Some last.(PropertyHistoryChangeRecord.change_date)
             /\ forall c, In c all ->
                  first.(PropertyHistoryChangeRecord.change_date)
                  <= c.(PropertyHistoryChangeRecord.change_date)
                  <= last.(PropertyHistoryChangeRecord.change_date)).
Proof.
  intros Hparse Hget.
  unfold propertyHistoryQuery. rewrite Hparse, Hget.
  eexists. eexists. split; [reflexivity|].
  cbv zeta.
  cbn [PropertyHistoryResponse.summary
       PropertyHistoryResponse.first_change_date
       PropertyHistoryResponse.last_change_date].
  set (id := HistoryQueryInput.property_id queryParams).
  set (sorted :=
         Array_sort
           (fun a b => PropertyHistoryChangeRecord.change_date a
                       - PropertyHistoryChangeRecord.change_date b)
           (PropertyHistoryStore.getChangesByPropertyId
              (propertyHistoryStore s) id)).
  assert (Hlen : List.length sorted = List.length (changes_of s id)).
  { unfold sorted, PropertyHistoryStore.getChangesByPropertyId, changes_of.
    now rewrite !Array_sort_length. }
  split.
  - intros Hnil. rewrite Hlen, Hnil. auto.
  - intros Hne.
    assert (Hpos : (0 < List.length sorted)%nat).
    { rewrite Hlen. destruct (changes_of s id); [congruence|simpl; lia]. }
    pose proof Hpos as Hpos'. apply Nat.ltb_lt in Hpos'. rewrite Hpos'.
    destruct (nth_error sorted 0) as [first|] eqn:Hfirst;
      [|apply nth_error_None in Hfirst; lia].
    destruct (nth_error sorted (List.length sorted - 1)) as [last|] eqn:Hlast;
      [|apply nth_error_None in Hlast; lia].
    unfold sorted in Hfirst, Hlast.
    apply (Array_sort_first _ PropertyHistoryChangeRecord.change_date)
      in Hfirst; [|reflexivity].
    apply (Array_sort_last _ PropertyHistoryChangeRecord.change_date)
      in Hlast; [|reflexivity].
    destruct Hfirst as [Hfin Hfmin], Hlast as [Hlin Hlmax].
    exists first, last. cbn [option_map].
    split; [now apply getChangesByPropertyId_In|].
    split; [now apply getChangesByPropertyId_In|].
    split; [reflexivity|]. split; [reflexivity|].
    intros c Hc. apply getChangesByPropertyId_In in Hc.
    split; [now apply Hfmin | now apply Hlmax].
Qed.

End HistoryQueryTheorems.

Lemma history_query_filters_witness :
  exists response s',
    @propertyHistoryQuery Sample.rt Sample.with_history Sample.rent_query
      Sample.audit_uuid (Sample.noon + 2 * msPerDay) = (Return response, s')
    /\ (forall c,
          In c response.(PropertyHistoryResponse.changes) ->
          c.(PropertyHistoryChangeRecord.property_id) = Sample.uuid_a
          /\ Date_of_day Sample.day_jan28
             <= c.(PropertyHistoryChangeRecord.change_date)
             <= end_of_day (Sample.day_jan28 + 1)
          /\ c.(PropertyHistoryChangeRecord.change_type)
             = "mudancas_valor_aluguel"
          /\ @toLowerCase Sample.rt
               c.(PropertyHistoryChangeRecord.user_responsible)
             = "user123")
    /\ response.(PropertyHistoryResponse.summary)
         .(PropertyHistoryResponse.total_changes)
       = Z.of_nat (List.length response.(PropertyHistoryResponse.changes)).
Proof.
  pose proof
    (fun queryParams existing =>
       @history_query_filters Sample.rt Sample.with_history
         Sample.rent_query queryParams existing Sample.audit_uuid
         (Sample.noon + 2 * msPerDay)) as H.
  edestruct H as (response & s' & Hrun & Hchanges & _ & Htotal & _).
  - reflexivity.
  - reflexivity.
  - discriminate.
  - discriminate.
  - exists response, s'. split; [exact Hrun|]. split; [|exact Htotal].
    intros c Hc.
    destruct (Hchanges c Hc) as (_ & Hid & Hstart & Hend & Htype & Huser).
    split; [exact Hid|]. split; [|split].
    + split; [now apply Hstart | now apply (Hend (Sample.day_jan28 + 1))].
    + apply Htype; [reflexivity | discriminate].
    + exact (Huser "USER123" eq_refl).
Defined.

Lemma summary_dates_ignore_filters_witness :
  exists response s',
    @propertyHistoryQuery Sample.rt Sample.with_history Sample.late_query
      Sample.audit_uuid (Sample.noon + 90 * msPerDay) = (Return response, s')
    /\ exists first last,
         In first (changes_of Sample.with_history Sample.uuid_a)
         /\ In last (changes_of Sample.with_history Sample.uuid_a)
         /\ response.(PropertyHistoryResponse.summary)
              .(PropertyHistoryResponse.first_change_date)
            = Some first.(PropertyHistoryChangeRecord.change_date)
         /\ response.(PropertyHistoryResponse.summary)
              .(PropertyHistoryResponse.last_change_date)
            = Some last.(PropertyHistoryChangeRecord.change_date).
Proof.
  pose proof
    (fun queryParams existing =>
       @summary_dates_ignore_filters Sample.rt Sample.with_history
         Sample.late_query queryParams existing Sample.audit_uuid
         (Sample.noon + 90 * msPerDay)) as H.
  edestruct H as (response & s' & Hrun & _ & Hsome).
  - reflexivity.
  - reflexivity.
  - exists response, s'. split; [exact Hrun|].
    destruct Hsome as (first & last & Hf & Hl & Hfd & Hld & _).
    + vm_compute. discriminate.
    + now exists first, last.
Defined.

(** The summary dates of a query whose filters leave no change record. *)
Example late_query_summary :
  exists response s',
    @propertyHistoryQuery Sample.rt Sample.with_history Sample.late_query
      Sample.audit_uuid (Sample.noon + 90 * msPerDay) = (Return response, s')
    /\ response.(PropertyHistoryResponse.changes) = []
    /\ response.(PropertyHistoryResponse.summary)
         .(PropertyHistoryResponse.first_change_date)
       = Some (Sample.noon + 1000)
    /\ response.(PropertyHistoryResponse.summary)
         .(PropertyHistoryResponse.last_change_date)
       = Some (Sample.noon + msPerDay).
Proof.
  eexists. eexists. split; [vm_compute; reflexivity|].
  repeat split.
Qed.

(** ** C3, C4, C5, C8: what is kept, what is appended *)

Section Persistence.

Context {RT : Runtime}.

Lemma log_extends_refl {V : Type} (m : JsMap.t V) : log_extends m m.
Proof. exists []. now rewrite app_nil_r. Qed.

Lemma log_extends_trans {V : Type} (m1 m2 m3 : JsMap.t V) :
  log_extends m1 m2 -> log_extends m2 m3 -> log_extends m1 m3.
Proof.
  intros [a1 ->] [a2 ->]. exists (a1 ++ a2)%list. now rewrite app_assoc.
Qed.

Lemma log_extends_set {V : Type} (m : JsMap.t V) (k : string) (v : V) :
  JsMap.get m k = None -> log_extends m (JsMap.set m k v).
Proof. intros Hget. exists [(k, v)]. now apply JsMap_set_fresh. Qed.

Lemma log_extends_get {V : Type} (m m' : JsMap.t V) (k : string) (v : V) :
  log_extends m m' -> JsMap.get m k = Some v -> JsMap.get m' k = Some v.
Proof.
  intros [added ->]. induction m as [|[k0 v0] m IH]; simpl.
  - discriminate.
  - destruct (String.eqb k0 k); [trivial | exact IH].
Qed.

(** One operation, drawing a fresh identifier, only appends to the
    change, event and audit maps. *)
Lemma exec_log_extends (s : State) (op : Operation) :
  fresh_uuid s op ->
  log_extends s.(propertyHistoryStore).(PropertyHistoryStore.changes)
    (exec s op).(propertyHistoryStore).(PropertyHistoryStore.changes)
  /\ log_extends s.(propertyHistoryStore).(PropertyHistoryStore.events)
       (exec s op).(propertyHistoryStore).(PropertyHistoryStore.events)
  /\ log_extends s.(propertyAuditStore) (exec s op).(propertyAuditStore).
Proof.
  destruct op as [body now uuid today seq_now| | |property_id body
                 |params uuid now|params uuid now|params uuid now];
    simpl; intros Hfresh.
  - destruct (propertyCreate s body now uuid today seq_now) as [[p|e] s']
      eqn:E; simpl.
    + apply propertyCreate_Return in E.
      destruct E as (_ & _ & _ & _ & _ & _ & _ & _ & _ & _ & -> & ->).
      repeat split; apply log_extends_refl.
    + apply propertyCreate_Throw in E. subst.
      repeat split; apply log_extends_refl.
  - repeat split; apply log_extends_refl.
  - repeat split; apply log_extends_refl.
  - destruct (propertyUpdate s property_id body) as [[p|e] s'] eqn:E; simpl.
    + apply propertyUpdate_Return in E.
      destruct E as (_ & _ & _ & _ & _ & _ & _ & _ & _ & _ & _ & _ & -> & ->).
      repeat split; apply log_extends_refl.
    + apply propertyUpdate_Throw in E. subst.
      repeat split; apply log_extends_refl.
  - unfold propertyHistoryQuery.
    destruct (historyQuerySchema params);
      [|simpl; repeat split; apply log_extends_refl].
    destruct (PropertyStore.getById _ _);
      [|simpl; repeat split; apply log_extends_refl].
    simpl. repeat split; try apply log_extends_refl.
    now apply log_extends_set.
  - repeat split; try apply log_extends_refl.
    now apply log_extends_set.
  - repeat split; try apply log_extends_refl.
    now apply log_extends_set.
Qed.

Lemma run_log_extends (s : State) (ops : list Operation) :
  fresh_run s ops ->
  log_extends s.(propertyHistoryStore).(PropertyHistoryStore.changes)
    (run s ops).(propertyHistoryStore).(PropertyHistoryStore.changes)
  /\ log_extends s.(propertyHistoryStore).(PropertyHistoryStore.events)
       (run s ops).(propertyHistoryStore).(PropertyHistoryStore.events)
  /\ log_extends s.(propertyAuditStore) (run s ops).(propertyAuditStore).
Proof.
  revert s. induction ops as [|op ops IH]; simpl; intros s Hfresh.
  - repeat split; apply log_extends_refl.
  - destruct Hfresh as [Hop Hrest].
    destruct (exec_log_extends s op Hop) as (Hc & He & Ha).
    destruct (IH _ Hrest) as (Hc' & He' & Ha').
    repeat split; eapply log_extends_trans; eauto.
Qed.

Lemma same_registration_refl (p : PropertyEntity.t) : same_registration p p.
Proof. repeat split. Qed.

Lemma same_registration_trans (p1 p2 p3 : PropertyEntity.t) :
  same_registration p1 p2 -> same_registration p2 p3 ->
  same_registration p1 p3.
Proof. unfold same_registration. intuition congruence. Qed.

(** One operation keeps every stored property under its key, with its
    registration data; it keeps the whole entity unless it is a
    [propertyUpdate] of that key. *)
Lemma exec_property_kept (s : State) (op : Operation) (k : string)
    (p : PropertyEntity.t) :
  fresh_uuid s op ->
  JsMap.get s.(propertyStore) k = Some p ->
  (exists p', JsMap.get (exec s op).(propertyStore) k = Some p'
              /\ same_registration p p')
  /\ ((forall body, op <> PropertyUpdate k body) ->
      JsMap.get (exec s op).(propertyStore) k = Some p).
Proof.
  intros Hfresh Hget.
  destruct (exec_propertyStore s op)
    as [Heq|[(body & now & uuid & today & seq_now & q & -> & Hrun)
            |(property_id & body & q & -> & Hrun)]].
  - rewrite Heq. split; [|now intros _].
    exists p. split; [exact Hget | apply same_registration_refl].
  - apply propertyCreate_Return in Hrun.
    destruct Hrun as (_ & _ & _ & _ & _ & Hid & _ & _ & _ & Hstore & _).
    rewrite Hstore. unfold PropertyStore.add. rewrite Hid.
    simpl in Hfresh.
    assert (Hne : uuid <> k) by congruence.
    rewrite JsMap_get_set_ne by exact Hne.
    split; [|now intros _].
    exists p. split; [exact Hget | apply same_registration_refl].
  - apply propertyUpdate_Return in Hrun.
    destruct Hrun as (_ & existing & _ & Hex & _ & H1 & H2 & H3 & H4 & _
                      & Hstore & _).
    rewrite Hstore. unfold PropertyStore.update.
    destruct (string_dec property_id k) as [->|Hne].
    + rewrite JsMap_get_set_eq. split.
      * exists q. split; [reflexivity|].
        unfold PropertyStore.getById in Hex.
        assert (existing = p) by congruence. subst existing.
        now repeat split.
      * intros Hnot. now destruct (Hnot body).
    + rewrite JsMap_get_set_ne by exact Hne.
      split; [|now intros _].
      exists p. split; [exact Hget | apply same_registration_refl].
Qed.

Lemma run_property_kept (s : State) (ops : list Operation) (k : string)
    (p : PropertyEntity.t) :
  fresh_run s ops ->
  JsMap.get s.(propertyStore) k = Some p ->
  exists p', JsMap.get (run s ops).(propertyStore) k = Some p'
             /\ same_registration p p'.
Proof.
  revert s p. induction ops as [|op ops IH]; simpl; intros s p Hfresh Hget.
  - exists p. split; [exact Hget | apply same_registration_refl].
  - destruct Hfresh as [Hop Hrest].
    destruct (exec_property_kept s op k p Hop Hget) as [(p1 & Hget1 & Hreg1) _].
    destruct (IH _ p1 Hrest Hget1) as (p2 & Hget2 & Hreg2).
    exists p2. split; [exact Hget2|].
    eapply same_registration_trans; eauto.
Qed.

(** Without any assumption on the identifiers drawn, a key of the
    property store stays a key. *)
Lemma exec_property_has (s : State) (op : Operation) (k : string) :
  JsMap.has s.(propertyStore) k = true ->
  JsMap.has (exec s op).(propertyStore) k = true.
Proof.
  intros Hhas.
  destruct (exec_propertyStore s op)
    as [Heq|[(body & now & uuid & today & seq_now & q & _ & Hrun)
            |(property_id & body & q & _ & Hrun)]].
  - now rewrite Heq.
  - apply propertyCreate_Return in Hrun.
    destruct Hrun as (_ & _ & _ & _ & _ & _ & _ & _ & _ & Hstore & _).
    rewrite Hstore. now apply JsMap_has_set.
  - apply propertyUpdate_Return in Hrun.
    destruct Hrun as (_ & _ & _ & _ & _ & _ & _ & _ & _ & _ & Hstore & _).
    rewrite Hstore. now apply JsMap_has_set.
Qed.

End Persistence.

Section PersistenceTheorems.

Context {RT : Runtime}.

(** C3 (amended).  Every call of [propertyHistoryQuery] that returns,
    that is, whose parameters pass the schema and name an existing
    property, appends exactly one audit record, under the identifier
    drawn for it: the record carries user 'system', the consulted
    property, the validated parameters as applied filters,
    [records_returned] equal to the number of change records plus the
    number of lifecycle events returned, [exported] false and
    [export_format] null.  A call that throws leaves the audit store as it
    was. *)
Theorem history_query_audit (s : State) (params : unknown) (uuid : string)
    (now : Z) :
  (forall queryParams existing,
     historyQuerySchema params = Some queryParams ->
     PropertyStore.getById s.(propertyStore)
       queryParams.(HistoryQueryInput.property_id) = Some existing ->
     PropertyAuditStore.getAuditById s.(propertyAuditStore) uuid = None ->
     exists response s' audit,
       propertyHistoryQuery s params uuid now = (Return response, s')
       /\ s'.(propertyAuditStore)
          = (s.(propertyAuditStore) ++ [(uuid, audit)])%list
       /\ PropertyAuditStore.count s'.(propertyAuditStore)
          = PropertyAuditStore.count s.(propertyAuditStore) + 1
       /\ PropertyAuditStore.getAuditById s'.(propertyAuditStore) uuid
          = Some audit
       /\ audit.(PropertyHistoryAuditRecord.audit_id) = uuid
       /\ audit.(PropertyHistoryAuditRecord.user_id) = "system"
       /\ audit.(PropertyHistoryAuditRecord.consulted_property_id)
          = queryParams.(HistoryQueryInput.property_id)
       /\ audit.(PropertyHistoryAuditRecord.consultation_timestamp) = now
       /\ audit.(PropertyHistoryAuditRecord.applied_filters)
          = Some queryParams
       /\ audit.(PropertyHistoryAuditRecord.records_returned)
          = Z.of_nat (List.length response.(PropertyHistoryResponse.changes))
            + Z.of_nat
                (List.length
                   response.(PropertyHistoryResponse.lifecycle_events))
       /\ audit.(PropertyHistoryAuditRecord.exported) = false
       /\ audit.(PropertyHistoryAuditRecord.export_format) = None)
  /\ (forall e s',
        propertyHistoryQuery s params uuid now = (Throw e, s') ->
        s'.(propertyAuditStore) = s.(propertyAuditStore)).
Proof.
  split.
  - intros queryParams existing Hparse Hget Hfresh.
    unfold propertyHistoryQuery. rewrite Hparse, Hget.
    eexists. eexists. eexists. split; [reflexivity|].
    unfold PropertyAuditStore.getAuditById in *.
    cbn [propertyAuditStore registerAuditLog PropertyAuditStore.addAudit
         PropertyHistoryAuditRecord.audit_id].
    split; [now apply JsMap_set_fresh|].
    split; [now apply JsMap_size_set_fresh|].
    split; [apply JsMap_get_set_eq|].
    simpl. repeat split.
  - intros e s' Hrun. apply propertyHistoryQuery_Throw in Hrun. now subst.
Qed.

(** C4.  The history log is append-only.  Along every run of service
    operations that draw fresh identifiers, the change map and the event
    map only grow at the end, so every change record and lifecycle event
    stored before the run is stored after it, under the same identifier
    and with the same content.  [registerPropertyChange] and
    [registerLifecycleEvent] each append exactly one record, keyed by the
    identifier drawn, and leave the other map alone; a history query
    leaves both maps alone. *)
Theorem history_append_only (s : State) (ops : list Operation) :
  fresh_run s ops ->
  log_extends s.(propertyHistoryStore).(PropertyHistoryStore.changes)
    (run s ops).(propertyHistoryStore).(PropertyHistoryStore.changes)
  /\ log_extends s.(propertyHistoryStore).(PropertyHistoryStore.events)
       (run s ops).(propertyHistoryStore).(PropertyHistoryStore.events)
  /\ (forall id c,
        PropertyHistoryStore.getChangeById s.(propertyHistoryStore) id
        = Some c ->
        PropertyHistoryStore.getChangeById (run s ops).(propertyHistoryStore)
          id = Some c)
  /\ (forall id e,
        PropertyHistoryStore.getEventById s.(propertyHistoryStore) id
        = Some e ->
        PropertyHistoryStore.getEventById (run s ops).(propertyHistoryStore)
          id = Some e)
  /\ (forall params uuid now,
        PropertyHistoryStore.getChangeById s.(propertyHistoryStore) uuid
        = None ->
        let '(change, s') := registerPropertyChange s params uuid now in
        change.(PropertyHistoryChangeRecord.change_id) = uuid
        /\ s'.(propertyHistoryStore).(PropertyHistoryStore.changes)
           = (s.(propertyHistoryStore).(PropertyHistoryStore.changes)
              ++ [(uuid, change)])%list
        /\ s'.(propertyHistoryStore).(PropertyHistoryStore.events)
           = s.(propertyHistoryStore).(PropertyHistoryStore.events))
  /\ (forall params uuid now,
        PropertyHistoryStore.getEventById s.(propertyHistoryStore) uuid
        = None ->
        let '(event, s') := registerLifecycleEvent s params uuid now in
        event.(PropertyLifecycleEventRecord.event_id) = uuid
        /\ s'.(propertyHistoryStore).(PropertyHistoryStore.events)
           = (s.(propertyHistoryStore).(PropertyHistoryStore.events)
              ++ [(uuid, event)])%list
        /\ s'.(propertyHistoryStore).(PropertyHistoryStore.changes)
           = s.(propertyHistoryStore).(PropertyHistoryStore.changes))
  /\ (forall params uuid now,
        (snd (propertyHistoryQuery s params uuid now)).(propertyHistoryStore)
        = s.(propertyHistoryStore)).
Proof.
  intros Hfresh.
  destruct (run_log_extends s ops Hfresh) as (Hc & He & _).
  split; [exact Hc|]. split; [exact He|].
  split; [|split; [|split; [|split]]].
  - intros id c. now apply log_extends_get.
  - intros id e. now apply log_extends_get.
  - intros params uuid now Hnone. simpl.
    split; [reflexivity|]. split; [now apply JsMap_set_fresh | reflexivity].
  - intros params uuid now Hnone. simpl.
    split; [reflexivity|]. split; [now apply JsMap_set_fresh | reflexivity].
  - intros params uuid now. apply propertyHistoryQuery_frame.
Qed.

(** C5 (amended).  Change records, lifecycle events and audit records are
    created once and never changed or removed: along every run of
    exported service operations that draw fresh identifiers, each of them
    stays stored under its identifier with the same content.  A property
    is never removed and keeps its [property_id], [codigo_propriedade],
    [data_cadastro] and [usuario_cadastro]; every operation other than a
    [propertyUpdate] of that property leaves the whole entity as it is. *)
Theorem entities_persist (s : State) (ops : list Operation) :
  fresh_run s ops ->
  (forall id c,
     PropertyHistoryStore.getChangeById s.(propertyHistoryStore) id
     = Some c ->
     PropertyHistoryStore.getChangeById (run s ops).(propertyHistoryStore)
       id = Some c)
  /\ (forall id e,
        PropertyHistoryStore.getEventById s.(propertyHistoryStore) id
        = Some e ->
        PropertyHistoryStore.getEventById (run s ops).(propertyHistoryStore)
          id = Some e)
  /\ (forall id a,
        PropertyAuditStore.getAuditById s.(propertyAuditStore) id = Some a ->
        PropertyAuditStore.getAuditById (run s ops).(propertyAuditStore) id
        = Some a)
  /\ (forall id p,
        PropertyStore.getById s.(propertyStore) id = Some p ->
        exists p',
          PropertyStore.getById (run s ops).(propertyStore) id = Some p'
          /\ same_registration p p')
  /\ (forall op id p,
        fresh_uuid s op ->
        PropertyStore.getById s.(propertyStore) id = Some p ->
        (forall body, op <> PropertyUpdate id body) ->
        PropertyStore.getById (exec s op).(propertyStore) id = Some p).
Proof.
  intros Hfresh.
  destruct (run_log_extends s ops Hfresh) as (Hc & He & Ha).
  split; [|split; [|split; [|split]]].
  - intros id c. now apply log_extends_get.
  - intros id e. now apply log_extends_get.
  - intros id a. now apply log_extends_get.
  - intros id p. now apply run_property_kept.
  - intros op id p Hop Hget Hnot.
    now apply (exec_property_kept s op id p Hop Hget).
Qed.

(** C8.  No property is ever removed: along every run of exported service
    operations, whatever identifiers they draw, an identifier that the
    property store holds stays in the property store. *)
Theorem property_never_removed (s : State) (ops : list Operation)
    (property_id : string) :
  PropertyStore.exists_ s.(propertyStore) property_id = true ->
  PropertyStore.exists_ (run s ops).(propertyStore) property_id = true.
Proof.
  unfold PropertyStore.exists_.
  revert s. induction ops as [|op ops IH]; simpl; intros s Hhas.
  - exact Hhas.
  - apply IH. now apply exec_property_has.
Qed.

End PersistenceTheorems.

Lemma history_query_audit_witness :
  exists response s' audit,
    @propertyHistoryQuery Sample.rt Sample.with_history Sample.rent_query
      Sample.audit_uuid (Sample.noon + 2 * msPerDay) = (Return response, s')
    /\ s'.(propertyAuditStore) = [(Sample.audit_uuid, audit)]
    /\ audit.(PropertyHistoryAuditRecord.user_id) = "system"
    /\ audit.(PropertyHistoryAuditRecord.records_returned)
       = Z.of_nat (List.length response.(PropertyHistoryResponse.changes))
         + Z.of_nat
             (List.length response.(PropertyHistoryResponse.lifecycle_events))
    /\ audit.(PropertyHistoryAuditRecord.exported) = false
    /\ audit.(PropertyHistoryAuditRecord.export_format) = None.
Proof.
  destruct (@history_query_audit Sample.rt Sample.with_history
              Sample.rent_query Sample.audit_uuid
              (Sample.noon + 2 * msPerDay)) as [Hreturns _].
  edestruct Hreturns
    as (response & s' & audit & Hrun & Hstore & _ & _ & _ & Huser & _ & _ & _
        & Hcount & Hexp & Hfmt).
  - reflexivity.
  - reflexivity.
  - reflexivity.
  - exists response, s', audit. repeat split; assumption.
Defined.

(** A history query for a property that does not exist throws NOT_FOUND
    and appends no audit record. *)
Lemma history_query_audit_counterexample :
  @propertyHistoryQuery Sample.rt initial_state
    (Sample.query None None None None) Sample.audit_uuid Sample.noon
  = (Throw (ServiceError "NOT_FOUND" 404), initial_state)
  /\ ~ (exists audit,
          (snd (@propertyHistoryQuery Sample.rt initial_state
                  (Sample.query None None None None) Sample.audit_uuid
                  Sample.noon)).(propertyAuditStore)
          = (initial_state.(propertyAuditStore)
             ++ [(Sample.audit_uuid, audit)])%list).
Proof.
  split; [reflexivity|].
  intros [audit Heq]. vm_compute in Heq. discriminate.
Qed.

Lemma history_append_only_witness :
  log_extends
    Sample.with_history.(propertyHistoryStore).(PropertyHistoryStore.changes)
    (@run Sample.rt Sample.with_history Sample.later_ops)
      .(propertyHistoryStore).(PropertyHistoryStore.changes)
  /\ forall id c,
       PropertyHistoryStore.getChangeById
         Sample.with_history.(propertyHistoryStore) id = Some c ->
       PropertyHistoryStore.getChangeById
         (@run Sample.rt Sample.with_history Sample.later_ops)
           .(propertyHistoryStore) id = Some c.
Proof.
  assert (Hfresh : @fresh_run Sample.rt Sample.with_history Sample.later_ops)
    by (vm_compute; auto).
  destruct (@history_append_only Sample.rt Sample.with_history
              Sample.later_ops Hfresh) as (Hext & _ & Hkept & _).
  split; [exact Hext | exact Hkept].
Defined.

Lemma entities_persist_witness :
  (forall id e,
     PropertyHistoryStore.getEventById
       Sample.with_history.(propertyHistoryStore) id = Some e ->
     PropertyHistoryStore.getEventById
       (@run Sample.rt Sample.with_history Sample.later_ops)
         .(propertyHistoryStore) id = Some e)
  /\ (forall id p,
        PropertyStore.getById Sample.with_history.(propertyStore) id
        = Some p ->
        exists p',
          PropertyStore.getById
            (@run Sample.rt Sample.with_history Sample.later_ops)
              .(propertyStore) id = Some p'
          /\ same_registration p p').
Proof.
  assert (Hfresh : @fresh_run Sample.rt Sample.with_history Sample.later_ops)
    by (vm_compute; auto).
  destruct (@entities_persist Sample.rt Sample.with_history
              Sample.later_ops Hfresh) as (_ & Hevents & _ & Hprops & _).
  split; [exact Hevents | exact Hprops].
Defined.

(** [propertyUpdate] replaces the stored property: after the update of
    the registered house, the entity stored under its identifier is not
    the one stored before (its status went from 'Disponível' to
    'Ocupada'). *)
Lemma entities_persist_counterexample :
  exists p p',
    PropertyStore.getById Sample.one_house.(propertyStore) Sample.uuid_a
    = Some p
    /\ @propertyUpdate Sample.rt Sample.one_house Sample.uuid_a
         (Sample.Update (Sample.casa_reformada 123))
       = (Return p',
          @exec Sample.rt Sample.one_house
            (@PropertyUpdate Sample.rt Sample.uuid_a
               (Sample.Update (Sample.casa_reformada 123))))
    /\ PropertyStore.getById
         (@exec Sample.rt Sample.one_house
            (@PropertyUpdate Sample.rt Sample.uuid_a
               (Sample.Update (Sample.casa_reformada 123)))).(propertyStore)
         Sample.uuid_a = Some p'
    /\ p.(PropertyEntity.status) = "Disponível"
    /\ p'.(PropertyEntity.status) = "Ocupada"
    /\ p' <> p.
Proof.
  eexists. eexists.
  split; [vm_compute; reflexivity|].
  split; [vm_compute; reflexivity|].
  split; [vm_compute; reflexivity|].
  split; [reflexivity|]. split; [reflexivity|].
  intros Heq. apply (f_equal PropertyEntity.status) in Heq.
  vm_compute in Heq. discriminate.
Qed.

Lemma property_never_removed_witness :
  PropertyStore.exists_
    (@run Sample.rt Sample.one_house
       (Sample.history_ops ++ Sample.later_ops)%list).(propertyStore)
    Sample.uuid_a = true.
Proof.
  apply (@property_never_removed Sample.rt Sample.one_house
           (Sample.history_ops ++ Sample.later_ops)%list Sample.uuid_a).
  reflexivity.
Defined.

(** ** C7, C10: the checks of [propertyCreate], the frame of
    [propertyUpdate] *)

Section CreateAndUpdate.

Context {RT : Runtime}.

Lemma existsByAddress_none (records : PropertyStore.t)
    (params : CreateInput.t) :
  (forall q, In q (PropertyStore.getAll records) ->
             matches_create q params = false) ->
  PropertyStore.existsByAddress records
    params.(CreateInput.endereco_completo) params.(CreateInput.bairro)
    params.(CreateInput.cep) params.(CreateInput.cidade)
    params.(CreateInput.estado) = false.
Proof.
  intros Hall.
  destruct (PropertyStore.existsByAddress _ _ _ _ _ _) eqn:E; [|reflexivity].
  unfold PropertyStore.existsByAddress in E.
  apply existsb_exists in E. destruct E as (q & Hin & Hq).
  specialize (Hall q Hin). unfold matches_create in Hall. congruence.
Qed.

(** C7.  [propertyCreate] checks validation first, the duplicate address
    second and the record limit third: it throws VALIDATION_ERROR (400)
    when the body fails the create schema; otherwise DUPLICATE_ADDRESS
    (409) when a stored property has the address of the body; otherwise
    MAX_RECORDS_REACHED (507) when the store holds at least 10000
    properties.  In each of these cases, and whenever it throws, the
    state is the one before the call. *)
Theorem propertyCreate_checks (s : State) (body : unknown) (now : Z)
    (uuid : string) (today seq_now : Z) :
  (createSchema body = None ->
   propertyCreate s body now uuid today seq_now
   = (Throw (ServiceError "VALIDATION_ERROR" 400), s))
  /\ (forall params q,
        createSchema body = Some params ->
        In q (PropertyStore.getAll s.(propertyStore)) ->
        matches_create q params = true ->
        propertyCreate s body now uuid today seq_now
        = (Throw (ServiceError "DUPLICATE_ADDRESS" 409), s))
  /\ (forall params,
        createSchema body = Some params ->
        (forall q, In q (PropertyStore.getAll s.(propertyStore)) ->
                   matches_create q params = false) ->
        10000 <= PropertyStore.count s.(propertyStore) ->
        propertyCreate s body now uuid today seq_now
        = (Throw (ServiceError "MAX_RECORDS_REACHED" 507), s))
  /\ (forall e s',
        propertyCreate s body now uuid today seq_now = (Throw e, s') ->
        s' = s).
Proof.
  split; [|split; [|split]].
  - intros Hparse. unfold propertyCreate. now rewrite Hparse.
  - intros params q Hparse Hin Hmatch.
    unfold propertyCreate, checkDuplicateAddress. rewrite Hparse.
    now rewrite (existsByAddress_true _ _ q Hin Hmatch).
  - intros params Hparse Hnone Hcount.
    unfold propertyCreate, checkDuplicateAddress. rewrite Hparse.
    rewrite (existsByAddress_none _ _ Hnone).
    unfold PROPERTY_DEFAULTS.MAX_RECORDS.
    apply Z.leb_le in Hcount. now rewrite Hcount.
  - intros e s'. apply propertyCreate_Throw.
Qed.

Lemma duplicateExists_none (s : State) (property_id : string)
    (params : UpdateInput.t) :
  (forall q, In q (PropertyStore.getAll s.(propertyStore)) ->
             q.(PropertyEntity.property_id) <> property_id ->
             matches_update q params = false) ->
  duplicateExists s property_id params = false.
Proof.
  intros Hall.
  destruct (duplicateExists s property_id params) eqn:E; [|reflexivity].
  unfold duplicateExists in E.
  apply existsb_exists in E. destruct E as (q & Hin & Hq).
  rewrite <- !andb_assoc in Hq. apply andb_true_iff in Hq.
  destruct Hq as [Hne Hq]. apply negb_true_iff, String.eqb_neq in Hne.
  specialize (Hall q Hin Hne). unfold matches_update in Hall.
  rewrite <- !andb_assoc in Hall. congruence.
Qed.

(** C10.  For an existing property and a body that passes the update
    schema and whose address no other property has, [propertyUpdate]
    returns the entity it stores under the identifier: that entity has
    the [property_id], [codigo_propriedade], [data_cadastro] and
    [usuario_cadastro] of the existing one, and each of its other fields
    is the one supplied in the body. *)
Theorem propertyUpdate_frame (s : State) (property_id : string)
    (body : unknown) (params : UpdateInput.t) (existing : PropertyEntity.t) :
  updateSchema body = Some params ->
  PropertyStore.getById s.(propertyStore) property_id = Some existing ->
  (forall q, In q (PropertyStore.getAll s.(propertyStore)) ->
             q.(PropertyEntity.property_id) <> property_id ->
             matches_update q params = false) ->
  exists updated s',
    propertyUpdate s property_id body = (Return updated, s')
    /\ PropertyStore.getById s'.(propertyStore) property_id = Some updated
    /\ updated.(PropertyEntity.property_id)
       = existing.(PropertyEntity.property_id)
    /\ updated.(PropertyEntity.codigo_propriedade)
       = existing.(PropertyEntity.codigo_propriedade)
    /\ updated.(PropertyEntity.data_cadastro)
       = existing.(PropertyEntity.data_cadastro)
    /\ updated.(PropertyEntity.usuario_cadastro)
       = existing.(PropertyEntity.usuario_cadastro)
    /\ updated.(PropertyEntity.tipo_propriedade)
       = params.(UpdateInput.tipo_propriedade)
    /\ updated.(PropertyEntity.endereco_completo)
       = params.(UpdateInput.endereco_completo)
    /\ updated.(PropertyEntity.cep) = params.(UpdateInput.cep)
    /\ updated.(PropertyEntity.bairro) = params.(UpdateInput.bairro)
    /\ updated.(PropertyEntity.cidade) = params.(UpdateInput.cidade)
    /\ updated.(PropertyEntity.estado) = params.(UpdateInput.estado)
    /\ updated.(PropertyEntity.area_total) = params.(UpdateInput.area_total)
    /\ updated.(PropertyEntity.quartos) = params.(UpdateInput.quartos)
    /\ updated.(PropertyEntity.banheiros) = params.(UpdateInput.banheiros)
    /\ updated.(PropertyEntity.vagas_garagem)
       = params.(UpdateInput.vagas_garagem)
    /\ updated.(PropertyEntity.valor_aluguel)
       = params.(UpdateInput.valor_aluguel)
    /\ updated.(PropertyEntity.valor_condominio)
       = params.(UpdateInput.valor_condominio)
    /\ updated.(PropertyEntity.valor_iptu) = params.(UpdateInput.valor_iptu)
    /\ updated.(PropertyEntity.descricao) = params.(UpdateInput.descricao)
    /\ updated.(PropertyEntity.status) = params.(UpdateInput.status).
Proof.
  intros Hparse Hget Hnone.
  unfold propertyUpdate.
  rewrite Hparse, Hget, (duplicateExists_none _ _ _ Hnone).
  eexists. eexists. split; [reflexivity|].
  split; [apply JsMap_get_set_eq|].
  simpl. repeat split.
Qed.

End CreateAndUpdate.

Lemma propertyCreate_checks_witness :
  @propertyCreate Sample.rt Sample.one_house Sample.Malformed Sample.noon
    Sample.uuid_b Sample.noon Sample.noon
  = (Throw (ServiceError "VALIDATION_ERROR" 400), Sample.one_house)
  /\ @propertyCreate Sample.rt Sample.one_house
       (Sample.Create (Sample.casa 123)) Sample.noon Sample.uuid_b
       Sample.noon Sample.noon
     = (Throw (ServiceError "DUPLICATE_ADDRESS" 409), Sample.one_house)
  /\ @propertyCreate Sample.rt Sample.full_state
       (Sample.Create (Sample.casa 123)) Sample.noon Sample.uuid_b
       Sample.noon Sample.noon
     = (Throw (ServiceError "MAX_RECORDS_REACHED" 507), Sample.full_state).
Proof.
  split; [|split].
  - apply (@propertyCreate_checks Sample.rt Sample.one_house Sample.Malformed).
    reflexivity.
  - destruct (@propertyCreate_checks Sample.rt Sample.one_house
                (Sample.Create (Sample.casa 123)) Sample.noon Sample.uuid_b
                Sample.noon Sample.noon) as (_ & Hdup & _).
    eapply (Hdup (Sample.casa 123)).
    + reflexivity.
    + cbv. left. reflexivity.
    + vm_compute. reflexivity.
  - destruct (@propertyCreate_checks Sample.rt Sample.full_state
                (Sample.Create (Sample.casa 123)) Sample.noon Sample.uuid_b
                Sample.noon Sample.noon) as (_ & _ & Hmax & _).
    apply (Hmax (Sample.casa 123)).
    + reflexivity.
    + intros q Hin.
      assert (Hall :
        forallb (fun q => negb (@matches_create Sample.rt q (Sample.casa 123)))
          (PropertyStore.getAll (propertyStore Sample.full_state)) = true)
        by (vm_compute; reflexivity).
      rewrite forallb_forall in Hall. specialize (Hall q Hin).
      destruct (matches_create q (Sample.casa 123));
        [discriminate Hall | reflexivity].
    + vm_compute. discriminate.
Defined.

Lemma propertyUpdate_frame_witness :
  exists updated s',
    @propertyUpdate Sample.rt Sample.two_houses Sample.uuid_a
      (Sample.Update (Sample.casa_reformada 123)) = (Return updated, s')
    /\ PropertyStore.getById s'.(propertyStore) Sample.uuid_a = Some updated
    /\ updated.(PropertyEntity.property_id) = Sample.uuid_a
    /\ updated.(PropertyEntity.codigo_propriedade) = "PROP-20250128-001"
    /\ updated.(PropertyEntity.data_cadastro) = Sample.noon
    /\ updated.(PropertyEntity.usuario_cadastro) = "user123"
    /\ updated.(PropertyEntity.status) = "Ocupada".
Proof.
  pose proof
    (fun existing =>
       @propertyUpdate_frame Sample.rt Sample.two_houses Sample.uuid_a
         (Sample.Update (Sample.casa_reformada 123))
         (Sample.casa_reformada 123) existing eq_refl) as H.
  edestruct H
    as (updated & s' & Hrun & Hget & Hid & Hcod & Hdata & Huser & Hrest).
  - cbv. reflexivity.
  - intros q Hin Hne.
    assert (Hall :
      forallb
        (fun q =>
           String.eqb q.(PropertyEntity.property_id) Sample.uuid_a
           || negb (@matches_update Sample.rt q (Sample.casa_reformada 123)))
        (PropertyStore.getAll (propertyStore Sample.two_houses)) = true)
      by (vm_compute; reflexivity).
    rewrite forallb_forall in Hall. specialize (Hall q Hin).
    apply String.eqb_neq in Hne. rewrite Hne in Hall.
    destruct (matches_update q (Sample.casa_reformada 123));
      [discriminate Hall | reflexivity].
  - exists updated, s'.
    split; [exact Hrun|]. split; [exact Hget|].
    split; [exact Hid|]. split; [exact Hcod|].
    split; [exact Hdata|]. split; [exact Huser|].
    apply Hrest.
Defined.

(** ** C6: property codes *)

Section StringFacts.

Lemma string_forall_app (P : ascii -> bool) (a b : string) :
  string_forall P (a ++ b) = string_forall P a && string_forall P b.
Proof.
  induction a as [|c a IH]; simpl; [reflexivity|].
  now rewrite IH, andb_assoc.
Qed.

Lemma string_forall_impl (P Q : ascii -> bool) (s : string) :
  (forall c, P c = true -> Q c = true) ->
  string_forall P s = true -> string_forall Q s = true.
Proof.
  intros Himp. induction s as [|c s IH]; simpl; [trivial|].
  rewrite !andb_true_iff. intros [Hc Hs]. auto.
Qed.

Lemma split_first_app (sep : ascii) (a rest : string) :
  string_forall (fun c => negb (Ascii.eqb c sep)) a = true ->
  split_first sep (a ++ String sep rest) = a.
Proof.
  induction a as [|c a IH]; simpl.
  - now rewrite Ascii.eqb_refl.
  - rewrite andb_true_iff. intros [Hc Ha].
    apply negb_true_iff in Hc. rewrite Hc. now rewrite IH.
Qed.

Lemma remove_all_app (c : ascii) (a b : string) :
  remove_all c (a ++ b) = remove_all c a ++ remove_all c b.
Proof.
  induction a as [|c' a IH]; simpl; [reflexivity|].
  destruct (Ascii.eqb c' c); simpl; now rewrite IH.
Qed.

Lemma remove_all_none (c : ascii) (s : string) :
  string_forall (fun c' => negb (Ascii.eqb c' c)) s = true ->
  remove_all c s = s.
Proof.
  induction s as [|c' s IH]; simpl; [reflexivity|].
  rewrite andb_true_iff. intros [Hc Hs].
  apply negb_true_iff in Hc. rewrite Hc. now rewrite IH.
Qed.

Lemma length_append (a b : string) :
  String.length (a ++ b) = (String.length a + String.length b)%nat.
Proof. induction a as [|c a IH]; simpl; [reflexivity | now rewrite IH]. Qed.

Lemma is_digit_not (c sep : ascii) :
  is_digit sep = false -> is_digit c = true -> negb (Ascii.eqb c sep) = true.
Proof.
  intros Hsep Hc. apply negb_true_iff. apply Ascii.eqb_neq.
  intros ->. congruence.
Qed.

Lemma all_digits_without (sep : ascii) (s : string) :
  is_digit sep = false -> all_digits s = true ->
  string_forall (fun c => negb (Ascii.eqb c sep)) s = true.
Proof.
  intros Hsep. apply string_forall_impl. intros c. now apply is_digit_not.
Qed.

Lemma string_of_uint_digits (d : Decimal.uint) :
  all_digits (NilEmpty.string_of_uint d) = true.
Proof. induction d; simpl; auto. Qed.

Lemma String_of_number_digits (n : Z) : all_digits (String_of_number n) = true.
Proof.
  unfold String_of_number, NilZero.string_of_uint.
  destruct (N.to_uint (Z.to_N n)); try reflexivity;
    apply (string_of_uint_digits (_ _)).
Qed.

Lemma repeat_fill_zero (n : nat) (cur : string) :
  all_digits cur = true ->
  all_digits (repeat_fill n "0" cur) = true
  /\ String.length (repeat_fill n "0" cur) = n.
Proof.
  unfold all_digits.
  revert cur. induction n as [|n IH]; intros cur Hcur; [auto|].
  destruct cur as [|c rest].
  - destruct (IH EmptyString eq_refl) as [Hd Hl].
    cbn [repeat_fill string_forall String.length].
    rewrite Hd, Hl. auto.
  - cbn [string_forall] in Hcur.
    apply andb_true_iff in Hcur. destruct Hcur as [Hc Hrest].
    destruct (IH rest Hrest) as [Hd Hl].
    cbn [repeat_fill string_forall String.length].
    rewrite Hc, Hd, Hl. auto.
Qed.

Lemma padStart_zero_digits (width : nat) (s : string) :
  all_digits s = true -> all_digits (padStart width "0" s) = true.
Proof.
  intros Hs. unfold padStart.
  destruct (width <=? String.length s)%nat; [exact Hs|].
  unfold all_digits. rewrite string_forall_app.
  destruct (repeat_fill_zero (width - String.length s) "0" eq_refl) as [Hd _].
  unfold all_digits in Hd, Hs. now rewrite Hd, Hs.
Qed.

Lemma padStart_zero_length (width : nat) (s : string) :
  String.length (padStart width "0" s)
  = Nat.max width (String.length s).
Proof.
  unfold padStart.
  destruct (width <=? String.length s)%nat eqn:E.
  - apply Nat.leb_le in E. lia.
  - apply Nat.leb_gt in E. rewrite length_append.
    destruct (repeat_fill_zero (width - String.length s) "0" eq_refl)
      as [_ Hl].
    rewrite Hl. lia.
Qed.

Lemma pad_number_digits (width : nat) (n : Z) :
  all_digits (pad_number width n) = true.
Proof. apply padStart_zero_digits, String_of_number_digits. Qed.

Lemma check_range_spec (P : Z -> bool) (n : nat) (i j : Z) :
  check_range P n i = true -> i <= j < i + Z.of_nat n -> P j = true.
Proof.
  revert i. induction n as [|n IH]; simpl; intros i Hchk Hj; [lia|].
  apply andb_true_iff in Hchk. destruct Hchk as [Hi Hrest].
  destruct (Z.eq_dec i j) as [->|Hne]; [exact Hi|].
  apply (IH (i + 1)); [exact Hrest | lia].
Qed.

(** Decimal texts of the numbers below 10000: at most four characters,
    and at most two and three below 100 and 1000. *)
Lemma String_of_number_length (n : Z) :
  0 <= n < 10000 ->
  (String.length (String_of_number n) <= 4)%nat
  /\ (n < 1000 -> (String.length (String_of_number n) <= 3)%nat)
  /\ (n < 100 -> (String.length (String_of_number n) <= 2)%nat).
Proof.
  intros Hn.
  assert (Hchk :
    check_range
      (fun n =>
         let len := String.length (String_of_number n) in
         (len <=? 4)%nat && implb (n <? 1000) (len <=? 3)%nat
         && implb (n <? 100) (len <=? 2)%nat)
      (Z.to_nat 10000) 0 = true) by (vm_compute; reflexivity).
  apply (check_range_spec _ _ _ n) in Hchk; [|rewrite Z2Nat.id; lia].
  cbv zeta in Hchk. rewrite !andb_true_iff in Hchk.
  destruct Hchk as [[H4 H3] H2].
  split; [now apply Nat.leb_le|]. split; intros Hlt.
  - apply Z.ltb_lt in Hlt. rewrite Hlt in H3. now apply Nat.leb_le.
  - apply Z.ltb_lt in Hlt. rewrite Hlt in H2. now apply Nat.leb_le.
Qed.

End StringFacts.

Section DateText.

Lemma append_assoc3 (a b c : string) : (a ++ b) ++ c = a ++ (b ++ c).
Proof. induction a as [|x a IH]; simpl; [reflexivity | now rewrite IH]. Qed.

(** Day of the year, counted from March 1st, of a day of a 400-year
    era. *)
Lemma day_of_year_range (doe : Z) :
  0 <= doe < 146097 ->
  let yoe := (doe - doe / 1460 + doe / 36524 - doe / 146096) / 365 in
  0 <= doe - (365 * yoe + yoe / 4 - yoe / 100) <= 365.
Proof. intros Hdoe. cbv zeta. Z.div_mod_to_equations. lia. Qed.

Lemma month_day_range (doy : Z) :
  0 <= doy <= 365 ->
  let mp := (5 * doy + 2) / 153 in
  let d := doy - (153 * mp + 2) / 5 + 1 in
  let m := if mp <? 10 then mp + 3 else mp - 9 in
  1 <= m <= 12 /\ 1 <= d <= 31.
Proof.
  intros Hdoy. cbv zeta.
  destruct (Z.ltb_spec ((5 * doy + 2) / 153) 10);
    (Z.div_mod_to_equations; lia).
Qed.

(** Month and day of a calendar date are in range. *)
Lemma civil_from_days_range (days : Z) :
  let '(_, m, d) := civil_from_days days in
  1 <= m <= 12 /\ 1 <= d <= 31.
Proof.
  unfold civil_from_days.
  set (z := days + 719468).
  set (doe := z - z / 146097 * 146097).
  assert (Hdoe : 0 <= doe < 146097).
  { unfold doe.
    pose proof (Z.div_mod z 146097 ltac:(lia)).
    pose proof (Z.mod_pos_bound z 146097 ltac:(lia)). lia. }
  cbv zeta.
  apply month_day_range. now apply day_of_year_range.
Qed.

(** The date text of a code: the four digits of the year, the two of the
    month and the two of the day of the UTC calendar date of [today], for
    the years 0 to 9999. *)
Lemma dateStr_digits (today : Z) :
  let '(y, m, d) := civil_from_days (today / msPerDay) in
  0 <= y <= 9999 ->
  dateStr today = pad_number 4 y ++ pad_number 2 m ++ pad_number 2 d
  /\ String.length (dateStr today) = 8%nat
  /\ all_digits (dateStr today) = true.
Proof.
  pose proof (civil_from_days_range (today / msPerDay)) as Hrange.
  unfold dateStr, toISOString.
  destruct (civil_from_days (today / msPerDay)) as [[y m] d].
  destruct Hrange as [Hm Hd]. intros Hy.
  unfold iso_year.
  replace ((0 <=? y) && (y <=? 9999)) with true
    by (symmetry; apply andb_true_iff; split; apply Z.leb_le; lia).
  set (rest := pad_number 2 (today mod msPerDay / 3600000) ++ _).
  assert (Hnot : forall sep s,
             is_digit sep = false -> all_digits s = true ->
             string_forall (fun c => negb (Ascii.eqb c sep)) s = true)
    by (intros; now apply all_digits_without).
  pose proof (pad_number_digits 4 y) as Hdy.
  pose proof (pad_number_digits 2 m) as Hdm.
  pose proof (pad_number_digits 2 d) as Hdd.
  replace (pad_number 4 y ++ "-" ++ pad_number 2 m ++ "-" ++ pad_number 2 d
           ++ "T" ++ rest)
    with ((pad_number 4 y ++ "-" ++ pad_number 2 m ++ "-" ++ pad_number 2 d)
          ++ String "T" rest)
    by (now rewrite !append_assoc3).
  rewrite split_first_app.
  2:{ rewrite !string_forall_app, !andb_true_iff.
      repeat split; try reflexivity; now apply Hnot. }
  rewrite !remove_all_app.
  rewrite !(remove_all_none "-" (pad_number _ _)) by (now apply Hnot).
  change (remove_all "-" "-") with "". simpl append.
  split; [reflexivity|]. split.
  - rewrite !length_append. unfold pad_number.
    rewrite !padStart_zero_length.
    destruct (String_of_number_length y ltac:(lia)) as (H4 & _ & _).
    destruct (String_of_number_length m ltac:(lia)) as (_ & _ & H2m).
    destruct (String_of_number_length d ltac:(lia)) as (_ & _ & H2d).
    specialize (H2m ltac:(lia)). specialize (H2d ltac:(lia)). lia.
  - unfold all_digits in *. rewrite !string_forall_app.
    now rewrite Hdy, Hdm, Hdd.
Qed.

End DateText.

Section PropertyCodes.

Context {RT : Runtime}.

(** With no lock held, [getNextSequential] returns the successor of the
    current number of the date, records it, and releases the lock. *)
Lemma getNextSequential_unlocked (st : CodigoSequencialStore.t)
    (dateRef : string) (now : Z) :
  st.(CodigoSequencialStore.locks) = [] ->
  exists st',
    CodigoSequencialStore.getNextSequential st dateRef now
    = (Return (CodigoSequencialStore.getCurrentSequential st dateRef + 1),
       st')
    /\ st'.(CodigoSequencialStore.locks) = []
    /\ (forall d,
          CodigoSequencialStore.getCurrentSequential st' d
          = CodigoSequencialStore.getCurrentSequential st d
            + (if String.eqb dateRef d then 1 else 0)).
Proof.
  intros Hlocks.
  unfold CodigoSequencialStore.getNextSequential,
    CodigoSequencialStore.acquireLock,
    CodigoSequencialStore.getCurrentSequential,
    CodigoSequencialStore.releaseLock.
  rewrite Hlocks. cbn [CodigoSequencialStore.acquireLock_loop JsMap.get
                       JsMap.set JsMap.delete].
  rewrite String.eqb_refl.
  destruct (JsMap.get (CodigoSequencialStore.records st) dateRef)
    as [existing|] eqn:Hget;
    eexists; (split; [reflexivity|]); (split; [reflexivity|]);
    intros d; cbn [CodigoSequencialStore.records];
    destruct (String.eqb dateRef d) eqn:E.
  - apply String.eqb_eq in E. subst d.
    rewrite JsMap_get_set_eq, Hget. reflexivity.
  - apply String.eqb_neq in E. rewrite JsMap_get_set_ne by exact E. lia.
  - apply String.eqb_eq in E. subst d.
    rewrite JsMap_get_set_eq, Hget. reflexivity.
  - apply String.eqb_neq in E. rewrite JsMap_get_set_ne by exact E. lia.
Qed.

Lemma generatePropertyCode_unlocked (st : CodigoSequencialStore.t)
    (today seq_now : Z) :
  st.(CodigoSequencialStore.locks) = [] ->
  exists st',
    generatePropertyCode st today seq_now
    = (Return
         ("PROP-" ++ dateStr today ++ "-"
          ++ padStart 3 "0"
               (String_of_number
                  (CodigoSequencialStore.getCurrentSequential st
                     (dateStr today) + 1))),
       st')
    /\ st'.(CodigoSequencialStore.locks) = []
    /\ (forall d,
          CodigoSequencialStore.getCurrentSequential st' d
          = CodigoSequencialStore.getCurrentSequential st d
            + (if String.eqb (dateStr today) d then 1 else 0)).
Proof.
  intros Hlocks.
  destruct (getNextSequential_unlocked st (dateStr today) seq_now Hlocks)
    as (st' & Hrun & Hlocks' & Hcur).
  exists st'. unfold generatePropertyCode. rewrite Hrun. auto.
Qed.

(** One operation: no lock is left held, and the number of a date grows
    by one exactly when the operation creates a property with that
    date. *)
Lemma exec_sequential (s : State) (op : Operation) (d : string) :
  no_lock_held s ->
  no_lock_held (exec s op)
  /\ CodigoSequencialStore.getCurrentSequential
       (exec s op).(codigoSequencialStore) d
     = CodigoSequencialStore.getCurrentSequential s.(codigoSequencialStore) d
       + created_on d s [op].
Proof.
  unfold no_lock_held. intros Hlocks.
  destruct op as [body now uuid today seq_now| | |property_id body
                 |params uuid now|params uuid now|params uuid now];
    cbn [exec created_on]; try (split; [exact Hlocks | lia]).
  - unfold propertyCreate.
    destruct (createSchema body) as [params|];
      [|cbn [fst snd]; split; [exact Hlocks | lia]].
    destruct (checkDuplicateAddress _ _ _ _ _ _);
      [cbn [fst snd]; split; [exact Hlocks | lia]|].
    destruct (_ <=? _); [cbn [fst snd]; split; [exact Hlocks | lia]|].
    destruct (generatePropertyCode_unlocked (codigoSequencialStore s)
                today seq_now Hlocks) as (st' & Hrun & Hlocks' & Hcur).
    rewrite Hrun. cbn [fst snd codigoSequencialStore].
    split; [exact Hlocks'|]. rewrite Hcur. lia.
  - destruct (propertyUpdate s property_id body) as [[p|e] s'] eqn:E;
      cbn [snd].
    + apply propertyUpdate_Return in E.
      destruct E as (_ & _ & _ & _ & _ & _ & _ & _ & _ & _ & _ & -> & _).
      split; [exact Hlocks | lia].
    + apply propertyUpdate_Throw in E. subst. split; [exact Hlocks | lia].
  - destruct (propertyHistoryQuery_frame s params uuid now) as (_ & -> & _).
    split; [exact Hlocks | lia].
  - cbn. split; [exact Hlocks | lia].
  - cbn. split; [exact Hlocks | lia].
Qed.

Lemma run_sequential (s : State) (ops : list Operation) (d : string) :
  no_lock_held s ->
  no_lock_held (run s ops)
  /\ CodigoSequencialStore.getCurrentSequential
       (run s ops).(codigoSequencialStore) d
     = CodigoSequencialStore.getCurrentSequential s.(codigoSequencialStore) d
       + created_on d s ops.
Proof.
  revert s. induction ops as [|op ops IH]; intros s Hlocks.
  - simpl. split; [exact Hlocks | lia].
  - destruct (exec_sequential s op d Hlocks) as [Hlocks1 Hcur1].
    destruct (IH _ Hlocks1) as [Hlocks2 Hcur2].
    change (run s (op :: ops)) with (run (exec s op) ops).
    split; [exact Hlocks2|].
    rewrite Hcur2, Hcur1. cbn [created_on]. lia.
Qed.

Lemma created_on_nonneg (d : string) (s : State) (ops : list Operation) :
  0 <= created_on d s ops.
Proof.
  revert s. induction ops as [|op ops IH]; intros s; cbn [created_on];
    [lia|].
  specialize (IH (exec s op)).
  destruct op; try lia.
  destruct (fst _); [|lia]. destruct (String.eqb _ _); lia.
Qed.

(** After any run from the empty stores no lock is held, so a body that
    passes the three checks of [propertyCreate] creates a property. *)
Lemma propertyCreate_returns (ops : list Operation) (body : unknown)
    (params : CreateInput.t) (now : Z) (uuid : string) (today seq_now : Z) :
  let s := run initial_state ops in
  createSchema body = Some params ->
  (forall q, In q (PropertyStore.getAll s.(propertyStore)) ->
             matches_create q params = false) ->
  PropertyStore.count s.(propertyStore) < PROPERTY_DEFAULTS.MAX_RECORDS ->
  exists p s',
    propertyCreate s body now uuid today seq_now = (Return p, s')
    /\ PropertyStore.getById s'.(propertyStore) uuid = Some p.
Proof.
  intros s Hparse Hnone Hcount.
  assert (Hinit : no_lock_held initial_state) by reflexivity.
  destruct (run_sequential initial_state ops "" Hinit) as [Hlocks _].
  fold s in Hlocks.
  destruct (generatePropertyCode_unlocked _ today seq_now Hlocks)
    as (st' & Hgen & _).
  unfold propertyCreate, checkDuplicateAddress.
  rewrite Hparse, (existsByAddress_none _ _ Hnone).
  apply Z.leb_gt in Hcount. rewrite Hcount, Hgen.
  eexists. eexists. split; [reflexivity|].
  apply JsMap_get_set_eq.
Qed.


End PropertyCodes.



(** ** Sample evaluations *)

Example toISOString_sample :
  toISOString 1738065600123 = "2025-01-28T12:00:00.123Z".
Proof. vm_compute. reflexivity. Qed.

Example toISOString_epoch : toISOString 0 = "1970-01-01T00:00:00.000Z".
Proof. vm_compute. reflexivity. Qed.

Example toISOString_leap_day :
  toISOString 1709251199999 = "2024-02-29T23:59:59.999Z".
Proof. vm_compute. reflexivity. Qed.

Example dateStr_sample : dateStr Sample.noon = "20250128".
Proof. vm_compute. reflexivity. Qed.

Example first_code :
  option_map PropertyEntity.codigo_propriedade
    (PropertyStore.getById Sample.one_house.(propertyStore) Sample.uuid_a)
  = Some "PROP-20250128-001".
Proof. vm_compute. reflexivity. Qed.

(** With local time three hours behind UTC, the cut-off for the end date
    2025-01-28 is 2025-01-28T02:59:59.999Z. *)
Example end_date_cut_off :
  toISOString
    (@setHours_23_59_59_999 Sample.rt (Date_of_day Sample.day_jan28))
  = "2025-01-28T02:59:59.999Z".
Proof. vm_compute. reflexivity. Qed.

(** A held lock makes [getNextSequential] give up after its fifty
    attempts. *)
Example lock_timeout :
  fst (CodigoSequencialStore.getNextSequential
         {| CodigoSequencialStore.records := JsMap.empty;
            CodigoSequencialStore.locks := [("20250128", true)] |}
         "20250128" Sample.noon)
  = Throw (Error
      "Lock timeout: Sistema ocupado, tente novamente em alguns segundos").
Proof. vm_compute. reflexivity. Qed.

Example padStart_samples :
  padStart 3 "0" "7" = "007" /\ padStart 3 "0" "1234" = "1234"
  /\ padStart 5 "ab" "x" = "ababx".
Proof. repeat split. Qed.

(** * Further properties of the stores and services *)

(** * Further properties of the stores and services *)

(** ** Stores *)

Section StoreFacts.

Context {V : Type}.
Implicit Types (m : JsMap.t V) (k : string) (v : V).

Lemma JsMap_get_delete_eq m k : JsMap.get (JsMap.delete m k) k = None.
Proof.
  induction m as [|[k' v'] m IH]; simpl; [reflexivity|].
  destruct (String.eqb k' k) eqn:E; [exact IH|].
  simpl. now rewrite E.
Qed.

Lemma JsMap_get_delete_ne m k k' :
  k <> k' -> JsMap.get (JsMap.delete m k) k' = JsMap.get m k'.
Proof.
  intros Hne. induction m as [|[k0 v0] m IH]; simpl; [reflexivity|].
  destruct (String.eqb k0 k) eqn:E; simpl.
  - apply String.eqb_eq in E. subst k0.
    apply String.eqb_neq in Hne. now rewrite Hne.
  - now rewrite IH.
Qed.

Lemma JsMap_size_set m k v :
  JsMap.size (JsMap.set m k v)
  = JsMap.size m + (if JsMap.has m k then 0 else 1).
Proof.
  unfold JsMap.size, JsMap.has.
  induction m as [|[k0 v0] m IH]; simpl List.length; simpl JsMap.get.
  - reflexivity.
  - simpl JsMap.set. destruct (String.eqb k0 k); simpl List.length; [lia|].
    destruct (JsMap.get m k); lia.
Qed.

Lemma JsMap_set_set m k v v' :
  JsMap.set (JsMap.set m k v) k v' = JsMap.set m k v'.
Proof.
  induction m as [|[k0 v0] m IH]; simpl.
  - now rewrite String.eqb_refl.
  - destruct (String.eqb k0 k) eqn:E; simpl.
    + now rewrite String.eqb_refl.
    + now rewrite E, IH.
Qed.

Lemma JsMap_keys_set_present m k v :
  JsMap.has m k = true -> JsMap.keys (JsMap.set m k v) = JsMap.keys m.
Proof. intros Hhas. now rewrite JsMap_keys_set, Hhas. Qed.

End StoreFacts.

(** X1.  [PropertyStore.add] followed by [getById]: the record added is the
    one found under its identifier, every other identifier is found as
    before, no identifier is lost, and the count grows by one exactly when
    the identifier is new (an identifier already there has its record
    replaced). *)
Theorem store_add_lookup (records : PropertyStore.t)
    (record : PropertyEntity.t) :
  let records' := PropertyStore.add records record in
  PropertyStore.getById records' record.(PropertyEntity.property_id)
  = Some record
  /\ (forall id, id <> record.(PropertyEntity.property_id) ->
        PropertyStore.getById records' id = PropertyStore.getById records id)
  /\ (forall id, PropertyStore.exists_ records id = true ->
        PropertyStore.exists_ records' id = true)
  /\ PropertyStore.count records'
     = PropertyStore.count records
       + (if PropertyStore.exists_ records
               record.(PropertyEntity.property_id)
          then 0 else 1).
Proof.
  unfold PropertyStore.add, PropertyStore.getById, PropertyStore.exists_,
    PropertyStore.count.
  split; [apply JsMap_get_set_eq|]. split; [|split].
  - intros id Hne. apply JsMap_get_set_ne. congruence.
  - intros id. apply JsMap_has_set.
  - apply JsMap_size_set.
Qed.


(** X3.  [getNextSequential] for a date whose lock is held: after its
    fifty attempts it throws the lock timeout and leaves the store as it
    was, the lock still held. *)
Theorem next_sequential_locked (st : CodigoSequencialStore.t)
    (dateRef : string) (now : Z) :
  JsMap.get st.(CodigoSequencialStore.locks) dateRef = Some true ->
  CodigoSequencialStore.getNextSequential st dateRef now
  = (Throw (Error
       "Lock timeout: Sistema ocupado, tente novamente em alguns segundos"),
     st).
Proof.
  intros Hheld.
  unfold CodigoSequencialStore.getNextSequential,
    CodigoSequencialStore.acquireLock.
  assert (Hloop : forall attempts,
    CodigoSequencialStore.acquireLock_loop attempts
      (CodigoSequencialStore.locks st) dateRef = None).
  { induction attempts as [|n IH]; simpl; [reflexivity|].
    now rewrite Hheld. }
  now rewrite Hloop.
Qed.

Lemma StronglySorted_weaken {A : Type} (R R' : A -> A -> Prop) (l : list A) :
  (forall a b, R a b -> R' a b) -> StronglySorted R l -> StronglySorted R' l.
Proof.
  intros Himp. induction 1 as [|x l Hs IH Hall]; constructor; [exact IH|].
  eapply Forall_impl; [|exact Hall]. intros b. apply Himp.
Qed.

(** Sorting by the comparator [key b - key a] puts the greatest key first. *)
Lemma Array_sort_descending {A : Type} (key : A -> Z) (l : list A) :
  StronglySorted (fun a b => key b <= key a)
    (Array_sort (fun a b => key b - key a) l).
Proof.
  apply (StronglySorted_weaken (fun a b => - key a <= - key b));
    [intros a b; lia|].
  apply (Array_sort_sorted _ (fun a => - key a)). intros a b. lia.
Qed.

(** X4.  [getChangesByPropertyId] and [getEventsByPropertyId] return the
    records stored for the property, each as often as it is stored and
    nothing else, ordered from the newest to the oldest. *)
Theorem history_lists_newest_first (st : PropertyHistoryStore.t)
    (property_id : string) :
  (let changes :=
     PropertyHistoryStore.getChangesByPropertyId st property_id in
   Permutation changes
     (filter
        (fun c => String.eqb c.(PropertyHistoryChangeRecord.property_id)
                             property_id)
        (JsMap.values st.(PropertyHistoryStore.changes)))
   /\ StronglySorted
        (fun a b => b.(PropertyHistoryChangeRecord.change_date)
                    <= a.(PropertyHistoryChangeRecord.change_date))
        changes)
  /\ (let events :=
        PropertyHistoryStore.getEventsByPropertyId st property_id in
      Permutation events
        (filter
           (fun e => String.eqb e.(PropertyLifecycleEventRecord.property_id)
                                property_id)
           (JsMap.values st.(PropertyHistoryStore.events)))
      /\ StronglySorted
           (fun a b => b.(PropertyLifecycleEventRecord.event_date)
                       <= a.(PropertyLifecycleEventRecord.event_date))
           events).
Proof.
  unfold PropertyHistoryStore.getChangesByPropertyId,
    PropertyHistoryStore.getEventsByPropertyId.
  split; split.
  - apply Permutation_sym, Array_sort_perm.
  - apply (Array_sort_descending PropertyHistoryChangeRecord.change_date).
  - apply Permutation_sym, Array_sort_perm.
  - apply (Array_sort_descending PropertyLifecycleEventRecord.event_date).
Qed.

(** X5.  [getAuditsByPropertyId] and [getAuditsByUserId] return the audit
    records of the property, respectively of the user, each as often as it
    is stored and nothing else, ordered from the newest consultation to
    the oldest. *)
Theorem audit_lists_newest_first (audits : PropertyAuditStore.t)
    (property_id user_id : string) :
  (let l := PropertyAuditStore.getAuditsByPropertyId audits property_id in
   Permutation l
     (filter
        (fun a =>
           String.eqb a.(PropertyHistoryAuditRecord.consulted_property_id)
                      property_id)
        (JsMap.values audits))
   /\ StronglySorted
        (fun a b => b.(PropertyHistoryAuditRecord.consultation_timestamp)
                    <= a.(PropertyHistoryAuditRecord.consultation_timestamp))
        l)
  /\ (let l := PropertyAuditStore.getAuditsByUserId audits user_id in
      Permutation l
        (filter
           (fun a => String.eqb a.(PropertyHistoryAuditRecord.user_id)
                                user_id)
           (JsMap.values audits))
      /\ StronglySorted
           (fun a b =>
              b.(PropertyHistoryAuditRecord.consultation_timestamp)
              <= a.(PropertyHistoryAuditRecord.consultation_timestamp))
           l).
Proof.
  unfold PropertyAuditStore.getAuditsByPropertyId,
    PropertyAuditStore.getAuditsByUserId.
  split; split.
  - apply Permutation_sym, Array_sort_perm.
  - apply (Array_sort_descending
             PropertyHistoryAuditRecord.consultation_timestamp).
  - apply Permutation_sym, Array_sort_perm.
  - apply (Array_sort_descending
             PropertyHistoryAuditRecord.consultation_timestamp).
Qed.

(** ** Property services *)

Section PropertyServices.

Context {RT : Runtime}.

(** X6.  [propertyGet] finds what the other services stored: it throws
    NOT_FOUND (404) for an identifier the store does not hold, returns the
    entity a successful [propertyCreate] has just returned under the
    identifier drawn for it, and returns the updated entity after a
    successful [propertyUpdate]. *)
Theorem propertyGet_round_trip (s : State) :
  (forall id,
     PropertyStore.exists_ s.(propertyStore) id = false ->
     propertyGet s id = Throw (ServiceError "NOT_FOUND" 404))
  /\ (forall body now uuid today seq_now p s',
        propertyCreate s body now uuid today seq_now = (Return p, s') ->
        propertyGet s' uuid = Return p)
  /\ (forall id body p s',
        propertyUpdate s id body = (Return p, s') ->
        propertyGet s' id = Return p).
Proof.
  unfold propertyGet, PropertyStore.getById. split; [|split].
  - intros id. unfold PropertyStore.exists_, JsMap.has.
    destruct (JsMap.get (propertyStore s) id); [discriminate | reflexivity].
  - intros body now uuid today seq_now p s' Hrun.
    apply propertyCreate_Return in Hrun.
    destruct Hrun as (_ & _ & _ & _ & _ & Hid & _ & _ & _ & -> & _).
    unfold PropertyStore.add. now rewrite Hid, JsMap_get_set_eq.
  - intros id body p s' Hrun.
    apply propertyUpdate_Return in Hrun.
    destruct Hrun as (_ & _ & _ & _ & _ & _ & _ & _ & _ & _ & -> & _).
    unfold PropertyStore.update. now rewrite JsMap_get_set_eq.
Qed.

Lemma propertyList_ids (s : State) :
  map PropertyListResponse.property_id (propertyList s)
  = map PropertyEntity.property_id (PropertyStore.getAll s.(propertyStore)).
Proof. unfold propertyList. rewrite map_map. reflexivity. Qed.

Lemma values_set_same_id (m : PropertyStore.t) (k : string)
    (e v : PropertyEntity.t) :
  JsMap.get m k = Some e ->
  v.(PropertyEntity.property_id) = e.(PropertyEntity.property_id) ->
  map PropertyEntity.property_id (JsMap.values (JsMap.set m k v))
  = map PropertyEntity.property_id (JsMap.values m).
Proof.
  intros Hget Hid. induction m as [|[k0 v0] m IH]; simpl in *.
  - discriminate.
  - destruct (String.eqb k0 k); simpl.
    + inversion Hget; subst. now rewrite Hid.
    + now rewrite IH.
Qed.

(** X7.  [propertyList] lists the stored properties in the order in which
    their identifiers were first stored, one entry each.  A property
    created under a fresh identifier is listed last; an update leaves the
    listed identifiers and their order as they were. *)
Theorem propertyList_order (s : State) :
  map PropertyListResponse.property_id (propertyList s)
  = map PropertyEntity.property_id (PropertyStore.getAll s.(propertyStore))
  /\ Z.of_nat (List.length (propertyList s))
     = PropertyStore.count s.(propertyStore)
  /\ (forall body now uuid today seq_now p s',
        PropertyStore.getById s.(propertyStore) uuid = None ->
        propertyCreate s body now uuid today seq_now = (Return p, s') ->
        map PropertyListResponse.property_id (propertyList s')
        = (map PropertyListResponse.property_id (propertyList s)
           ++ [uuid])%list)
  /\ (forall id body p s',
        propertyUpdate s id body = (Return p, s') ->
        map PropertyListResponse.property_id (propertyList s')
        = map PropertyListResponse.property_id (propertyList s)).
Proof.
  split; [apply propertyList_ids|]. split; [|split].
  - unfold propertyList, PropertyStore.getAll, PropertyStore.count,
      JsMap.values, JsMap.size.
    now rewrite !length_map.
  - intros body now uuid today seq_now p s' Hfresh Hrun.
    apply propertyCreate_Return in Hrun.
    destruct Hrun as (_ & _ & _ & _ & _ & Hid & _ & _ & _ & Hstore & _).
    rewrite !propertyList_ids, Hstore.
    unfold PropertyStore.add, PropertyStore.getAll, JsMap.values.
    rewrite Hid, (JsMap_set_fresh _ _ _ Hfresh), !map_app. simpl.
    now rewrite Hid.
  - intros id body p s' Hrun.
    apply propertyUpdate_Return in Hrun.
    destruct Hrun as (_ & existing & _ & Hget & _ & Hid & _ & _ & _ & _
                      & Hstore & _).
    rewrite !propertyList_ids, Hstore.
    now apply (values_set_same_id _ _ existing).
Qed.

(** X8.  [propertyUpdate] checks in the order validation, existence,
    duplicate address: it throws VALIDATION_ERROR (400) when the body
    fails the update schema, even for an unknown identifier; otherwise
    NOT_FOUND (404) when the store does not hold the identifier; and
    whenever it throws, the error is one of VALIDATION_ERROR, NOT_FOUND
    and DUPLICATE_ADDRESS and the state is the one before the call. *)
Theorem propertyUpdate_checks (s : State) (property_id : string)
    (body : unknown) :
  (updateSchema body = None ->
   propertyUpdate s property_id body
   = (Throw (ServiceError "VALIDATION_ERROR" 400), s))
  /\ (forall params,
        updateSchema body = Some params ->
        PropertyStore.getById s.(propertyStore) property_id = None ->
        propertyUpdate s property_id body
        = (Throw (ServiceError "NOT_FOUND" 404), s))
  /\ (forall e s',
        propertyUpdate s property_id body = (Throw e, s') ->
        s' = s
        /\ (e = ServiceError "VALIDATION_ERROR" 400
            \/ e = ServiceError "NOT_FOUND" 404
            \/ e = ServiceError "DUPLICATE_ADDRESS" 409)).
Proof.
  unfold propertyUpdate. split; [|split].
  - intros Hparse. now rewrite Hparse.
  - intros params Hparse Hget. now rewrite Hparse, Hget.
  - intros e s'.
    destruct (updateSchema body) as [params|];
      [|intros Heq; inversion Heq; auto].
    destruct (PropertyStore.getById _ _) as [existing|];
      [|intros Heq; inversion Heq; auto].
    destruct (duplicateExists _ _ _); intros Heq; inversion Heq; auto.
Qed.

Lemma matches_update_same_address (q existing : PropertyEntity.t)
    (params : UpdateInput.t) :
  matches_update existing params = true ->
  matches_update q params = same_address q existing.
Proof.
  unfold matches_update, same_address.
  rewrite !andb_true_iff, !String.eqb_eq.
  intros [[[[-> ->] ->] ->] ->]. reflexivity.
Qed.


(** X10.  [propertyUpdate] is idempotent: in a reachable state, repeating
    an update that succeeded succeeds again, returns the same entity and
    leaves the state it had produced. *)
Theorem propertyUpdate_idempotent (s s' : State) (property_id : string)
    (body : unknown) (p : PropertyEntity.t) :
  reachable s ->
  propertyUpdate s property_id body = (Return p, s') ->
  propertyUpdate s' property_id body = (Return p, s').
Proof.
  intros Hreach Hrun.
  destruct (reachable_store_ok s Hreach) as (Hwf & Hids & Hpair).
  unfold propertyUpdate in Hrun |- *.
  destruct (updateSchema body) as [params|]; [|discriminate].
  destruct (PropertyStore.getById (propertyStore s) property_id)
    as [existing|] eqn:Hget; [|discriminate].
  destruct (duplicateExists s property_id params) eqn:Hdup; [discriminate|].
  inversion Hrun; subst p s'; clear Hrun.
  cbn [propertyStore].
  unfold PropertyStore.getById, PropertyStore.update in *.
  rewrite JsMap_get_set_eq.
  rewrite duplicateExists_none.
  - cbn. now rewrite JsMap_set_set.
  - intros q Hin Hne. cbn [propertyStore] in Hin.
    apply JsMap_In_values in Hin. destruct Hin as [kq Hin].
    apply JsMap_In_wf_set in Hin; [|exact Hwf].
    destruct Hin as [[-> ->]|[Hk Hin]].
    + exfalso. apply Hne. cbn. apply Hids. now apply JsMap_get_In.
    + now apply (duplicateExists_false s property_id params Hdup kq).
Qed.


Lemma reachable_no_lock_held (s : State) : reachable s -> no_lock_held s.
Proof.
  induction 1 as [|s op _ IH]; [reflexivity|].
  now apply (exec_sequential s op "").
Qed.

(** X12.  In a reachable state no lock of the sequence store is held, so
    [propertyCreate] never runs into the lock timeout: when it throws, the
    error is VALIDATION_ERROR (400), DUPLICATE_ADDRESS (409) or
    MAX_RECORDS_REACHED (507). *)
Theorem propertyCreate_failures (s : State) :
  reachable s ->
  no_lock_held s
  /\ forall body now uuid today seq_now e s',
       propertyCreate s body now uuid today seq_now = (Throw e, s') ->
       e = ServiceError "VALIDATION_ERROR" 400
       \/ e = ServiceError "DUPLICATE_ADDRESS" 409
       \/ e = ServiceError "MAX_RECORDS_REACHED" 507.
Proof.
  intros Hreach. pose proof (reachable_no_lock_held s Hreach) as Hlocks.
  split; [exact Hlocks|].
  intros body now uuid today seq_now e s'. unfold propertyCreate.
  destruct (createSchema body) as [params|];
    [|intros Heq; inversion Heq; auto].
  destruct (checkDuplicateAddress _ _ _ _ _ _);
    [intros Heq; inversion Heq; auto|].
  destruct (_ <=? _); [intros Heq; inversion Heq; auto|].
  destruct (generatePropertyCode_unlocked (codigoSequencialStore s)
              today seq_now Hlocks) as (st' & Hgen & _).
  rewrite Hgen. discriminate.
Qed.

End PropertyServices.

(** ** Property codes are unique *)

Section CodeText.

Lemma remove_all_without (c : ascii) (s : string) :
  without_char c (remove_all c s) = true.
Proof.
  unfold without_char. induction s as [|c' s IH]; simpl; [reflexivity|].
  destruct (Ascii.eqb c' c) eqn:E; [exact IH|].
  simpl. now rewrite E, IH.
Qed.

Lemma dateStr_without_hyphen (today : Z) :
  without_char "-" (dateStr today) = true.
Proof. apply remove_all_without. Qed.

(** A text is cut at its first [c] in one way only. *)
Lemma split_unique (c : ascii) (a a' x x' : string) :
  without_char c a = true -> without_char c a' = true ->
  a ++ String c x = a' ++ String c x' -> a = a' /\ x = x'.
Proof.
  unfold without_char. revert a'.
  induction a as [|y a IH]; intros [|y' a']; simpl;
    rewrite ?andb_true_iff; intros Ha Ha' Heq.
  - inversion Heq. auto.
  - inversion Heq; subst. destruct Ha' as [Hy _].
    rewrite Ascii.eqb_refl in Hy. discriminate.
  - inversion Heq; subst. destruct Ha as [Hy _].
    rewrite Ascii.eqb_refl in Hy. discriminate.
  - inversion Heq; subst. destruct Ha as [_ Ha], Ha' as [_ Ha'].
    destruct (IH a' Ha Ha' H1) as [-> ->]. auto.
Qed.

Lemma decimal_value_zero (s : string) :
  decimal_value (String "0" s) = decimal_value s.
Proof.
  unfold decimal_value. simpl.
  destruct (NilEmpty.uint_of_string s); reflexivity.
Qed.

Lemma decimal_value_fill (n : nat) (cur s : string) :
  string_forall (Ascii.eqb "0") cur = true ->
  decimal_value (repeat_fill n "0" cur ++ s) = decimal_value s.
Proof.
  revert cur. induction n as [|n IH]; intros cur Hcur; [reflexivity|].
  destruct cur as [|c rest].
  - cbn [repeat_fill append]. rewrite decimal_value_zero. now apply IH.
  - cbn [string_forall] in Hcur. apply andb_true_iff in Hcur.
    destruct Hcur as [Hc Hrest]. apply Ascii.eqb_eq in Hc. subst c.
    cbn [repeat_fill append]. rewrite decimal_value_zero. now apply IH.
Qed.

Lemma decimal_value_String_of_number (n : Z) :
  decimal_value (String_of_number n) = Some (Z.to_N n).
Proof.
  unfold String_of_number, decimal_value, NilZero.string_of_uint.
  pose proof (DecimalN.Unsigned.of_to (Z.to_N n)) as Hof.
  destruct (N.to_uint (Z.to_N n)) eqn:E;
    try (rewrite NilEmpty.usu; cbn [option_map]; f_equal; exact Hof).
  cbn in Hof. now rewrite <- Hof.
Qed.

(** The sequence number can be read back from its padded text. *)
Lemma decimal_value_padStart (width : nat) (n : Z) :
  decimal_value (padStart width "0" (String_of_number n)) = Some (Z.to_N n).
Proof.
  unfold padStart.
  destruct (width <=? String.length (String_of_number n))%nat.
  - apply decimal_value_String_of_number.
  - rewrite decimal_value_fill by reflexivity.
    apply decimal_value_String_of_number.
Qed.

Lemma property_code_injective (d d' : string) (n n' : Z) :
  without_char "-" d = true -> without_char "-" d' = true ->
  0 <= n -> 0 <= n' ->
  property_code d n = property_code d' n' -> d = d' /\ n = n'.
Proof.
  intros Hd Hd' Hn Hn' Heq. unfold property_code in Heq.
  cbn [append] in Heq. inversion Heq as [Hrest]. clear Heq.
  apply (split_unique "-" d d') in Hrest; [|assumption..].
  destruct Hrest as [-> Hpad]. split; [reflexivity|].
  apply (f_equal decimal_value) in Hpad.
  rewrite !decimal_value_padStart in Hpad.
  inversion Hpad as [HN]. apply (f_equal Z.of_N) in HN.
  rewrite !Z2N.id in HN by assumption. exact HN.
Qed.

End CodeText.

Section CodeUniqueness.

Context {RT : Runtime}.

Lemma exec_current_grows (s : State) (op : Operation) (d : string) :
  no_lock_held s ->
  CodigoSequencialStore.getCurrentSequential s.(codigoSequencialStore) d
  <= CodigoSequencialStore.getCurrentSequential
       (exec s op).(codigoSequencialStore) d.
Proof.
  intros Hlocks.
  destruct (exec_sequential s op d Hlocks) as [_ Hcur].
  pose proof (created_on_nonneg d s [op]). lia.
Qed.

Lemma codes_ok_initial : codes_ok initial_state.
Proof.
  split; [|split].
  - intros d. vm_compute. discriminate.
  - intros k p [].
  - intros k1 p1 k2 p2 [].
Qed.

Lemma exec_codes_ok (s : State) (op : Operation) :
  reachable s -> codes_ok s -> codes_ok (exec s op).
Proof.
  intros Hreach (Hpos & Hform & Hdist).
  pose proof (reachable_no_lock_held s Hreach) as Hlocks.
  pose proof (reachable_store_ok s Hreach) as (Hwf & Hids & _).
  assert (Hgrow := fun d => exec_current_grows s op d Hlocks).
  split; [intros d; specialize (Hpos d); specialize (Hgrow d); lia|].
  destruct (exec_propertyStore s op)
    as [Heq|[(body & now & uuid & today & seq_now & p & -> & Hrun)
            |(property_id & body & p & -> & Hrun)]].
  - rewrite Heq. split; [|exact Hdist].
    intros k p Hin. destruct (Hform k p Hin) as (today & n & Hcode & Hn).
    exists today, n. split; [exact Hcode|].
    specialize (Hgrow (dateStr today)). lia.
  - set (s' := exec s (PropertyCreate body now uuid today seq_now)) in *.
    clearbody s'.
    pose proof Hrun as Hret. apply propertyCreate_Return in Hret.
    destruct Hret as (_ & _ & _ & _ & Hgen & _ & _ & _ & _ & Hstore & _).
    destruct (generatePropertyCode_unlocked (codigoSequencialStore s)
                today seq_now Hlocks) as (st' & Hgen' & _ & Hcur).
    rewrite Hgen' in Hgen. injection Hgen as Hcode Hst.
    fold (property_code (dateStr today)
            (CodigoSequencialStore.getCurrentSequential
               (codigoSequencialStore s) (dateStr today) + 1)) in Hcode.
    assert (Hnew : forall k' p', In (k', p') (propertyStore s) ->
              PropertyEntity.codigo_propriedade p'
              <> PropertyEntity.codigo_propriedade p).
    { intros k' p' Hin Heq.
      destruct (Hform k' p' Hin) as (today' & n' & Hcode' & Hn').
      rewrite Hcode', <- Hcode in Heq.
      apply property_code_injective in Heq;
        [|apply dateStr_without_hyphen|apply dateStr_without_hyphen|lia|].
      - destruct Heq as [Hd Hn]. rewrite Hd in Hn'. lia.
      - specialize (Hpos (dateStr today)). lia. }
    rewrite Hstore. unfold PropertyStore.add. split.
    + intros k q Hin. apply JsMap_In_wf_set in Hin; [|exact Hwf].
      destruct Hin as [[-> ->]|[_ Hin]].
      * exists today, (CodigoSequencialStore.getCurrentSequential
                         (codigoSequencialStore s) (dateStr today) + 1).
        split; [now rewrite <- Hcode|].
        rewrite <- Hst, Hcur, String.eqb_refl.
        specialize (Hpos (dateStr today)). lia.
      * destruct (Hform k q Hin) as (today' & n' & Hcode' & Hn').
        exists today', n'. split; [exact Hcode'|].
        rewrite <- Hst, Hcur. destruct (String.eqb _ _); lia.
    + intros k1 p1 k2 p2 H1 H2 Hne.
      apply JsMap_In_wf_set in H1; [|exact Hwf].
      apply JsMap_In_wf_set in H2; [|exact Hwf].
      destruct H1 as [[-> ->]|[Hk1 H1]], H2 as [[-> ->]|[Hk2 H2]].
      * congruence.
      * intros Heq. now apply (Hnew k2 p2 H2).
      * now apply (Hnew k1 p1 H1).
      * now apply (Hdist k1 p1 k2 p2).
  - set (s' := exec s (PropertyUpdate property_id body)) in *.
    clearbody s'.
    pose proof Hrun as Hret. apply propertyUpdate_Return in Hret.
    destruct Hret as (_ & existing & _ & Hget & _ & _ & Hcod & _ & _ & _
                      & Hstore & Hseq & _).
    rewrite Hstore, Hseq. unfold PropertyStore.update.
    apply JsMap_get_In in Hget. split.
    + intros k q Hin. apply JsMap_In_wf_set in Hin; [|exact Hwf].
      destruct Hin as [[-> ->]|[_ Hin]].
      * rewrite Hcod. now apply (Hform property_id existing).
      * now apply (Hform k q).
    + intros k1 p1 k2 p2 H1 H2 Hne.
      apply JsMap_In_wf_set in H1; [|exact Hwf].
      apply JsMap_In_wf_set in H2; [|exact Hwf].
      destruct H1 as [[-> ->]|[Hk1 H1]], H2 as [[-> ->]|[Hk2 H2]].
      * congruence.
      * rewrite Hcod. apply (Hdist property_id existing k2 p2); auto.
      * rewrite Hcod. apply (Hdist k1 p1 property_id existing); auto.
      * now apply (Hdist k1 p1 k2 p2).
Qed.

Lemma reachable_codes_ok (s : State) : reachable s -> codes_ok s.
Proof.
  induction 1 as [|s op Hreach IH].
  - apply codes_ok_initial.
  - now apply exec_codes_ok.
Qed.

(** X13.  Property codes are unique: in every reachable state two stored
    properties with different identifiers have different
    [codigo_propriedade], and every stored code is PROP-, a date text, a
    hyphen and a sequence number between 1 and the current number of that
    date. *)
Theorem property_codes_unique (s : State) :
  reachable s ->
  (forall p q,
     In p (PropertyStore.getAll s.(propertyStore)) ->
     In q (PropertyStore.getAll s.(propertyStore)) ->
     p.(PropertyEntity.property_id) <> q.(PropertyEntity.property_id) ->
     p.(PropertyEntity.codigo_propriedade)
     <> q.(PropertyEntity.codigo_propriedade))
  /\ (forall p,
        In p (PropertyStore.getAll s.(propertyStore)) ->
        exists today n,
          p.(PropertyEntity.codigo_propriedade)
          = property_code (dateStr today) n
          /\ 1 <= n
             <= CodigoSequencialStore.getCurrentSequential
                  s.(codigoSequencialStore) (dateStr today)).
Proof.
  intros Hreach.
  destruct (reachable_codes_ok s Hreach) as (_ & Hform & Hdist).
  destruct (reachable_store_ok s Hreach) as (_ & Hids & _).
  unfold PropertyStore.getAll. split.
  - intros p q Hp Hq Hne.
    apply JsMap_In_values in Hp. destruct Hp as [kp Hp].
    apply JsMap_In_values in Hq. destruct Hq as [kq Hq].
    apply (Hdist kp p kq q Hp Hq).
    now rewrite <- (Hids _ _ Hp), <- (Hids _ _ Hq).
  - intros p Hp. apply JsMap_In_values in Hp. destruct Hp as [kp Hp].
    now apply (Hform kp).
Qed.

End CodeUniqueness.

(** ** History services *)

Section HistoryServices.

Context {RT : Runtime}.

Lemma filter_changes_complete (q : HistoryQueryInput.t)
    (l : list PropertyHistoryChangeRecord.t)
    (c : PropertyHistoryChangeRecord.t) :
  In c l ->
  (forall d, q.(HistoryQueryInput.start_date) = Some d ->
             Date_of_day d <= c.(PropertyHistoryChangeRecord.change_date)) ->
  (forall d, q.(HistoryQueryInput.end_date) = Some d ->
             c.(PropertyHistoryChangeRecord.change_date)
             <= setHours_23_59_59_999 (Date_of_day d)) ->
  (forall t, q.(HistoryQueryInput.change_type) = Some t ->
             t <> "" -> t <> PROPERTY_CHANGE_TYPES.TODOS ->
             c.(PropertyHistoryChangeRecord.change_type) = t) ->
  (forall u, q.(HistoryQueryInput.responsible_user) = Some u ->
             u <> "" ->
             toLowerCase c.(PropertyHistoryChangeRecord.user_responsible)
             = toLowerCase u) ->
  In c (filter_changes q l).
Proof.
  intros Hin Hstart Hend Htype Huser. unfold filter_changes.
  assert (H1 : In c
    match HistoryQueryInput.start_date q with
    | Some start_date =>
        filter (fun c => Date_of_day start_date
                         <=? PropertyHistoryChangeRecord.change_date c) l
    | None => l
    end).
  { destruct (HistoryQueryInput.start_date q) as [d|]; [|exact Hin].
    apply filter_In. split; [exact Hin|]. apply Z.leb_le. now apply Hstart. }
  clear Hin. revert H1. generalize
    (match HistoryQueryInput.start_date q with
     | Some start_date =>
         filter (fun c => Date_of_day start_date
                          <=? PropertyHistoryChangeRecord.change_date c) l
     | None => l
     end). intros l1 H1.
  assert (H2 : In c
    match HistoryQueryInput.end_date q with
    | Some end_date =>
        filter (fun c => PropertyHistoryChangeRecord.change_date c
                         <=? setHours_23_59_59_999 (Date_of_day end_date)) l1
    | None => l1
    end).
  { destruct (HistoryQueryInput.end_date q) as [d|]; [|exact H1].
    apply filter_In. split; [exact H1|]. apply Z.leb_le. now apply Hend. }
  clear H1. revert H2. generalize
    (match HistoryQueryInput.end_date q with
     | Some end_date =>
         filter (fun c => PropertyHistoryChangeRecord.change_date c
                          <=? setHours_23_59_59_999 (Date_of_day end_date))
           l1
     | None => l1
     end). intros l2 H2.
  assert (H3 : In c
    match HistoryQueryInput.change_type q with
    | Some change_type =>
        if truthy (Some change_type)
           && negb (String.eqb change_type PROPERTY_CHANGE_TYPES.TODOS)
        then filter
               (fun c => String.eqb
                           (PropertyHistoryChangeRecord.change_type c)
                           change_type) l2
        else l2
    | None => l2
    end).
  { destruct (HistoryQueryInput.change_type q) as [t|]; [|exact H2].
    destruct (truthy (Some t)) eqn:Ht; [|exact H2].
    destruct (String.eqb t PROPERTY_CHANGE_TYPES.TODOS) eqn:Htodos;
      [exact H2|].
    cbn [andb negb]. apply filter_In. split; [exact H2|].
    apply String.eqb_eq. apply Htype; [reflexivity| |now apply String.eqb_neq].
    intros ->. discriminate Ht. }
  clear H2. revert H3. generalize
    (match HistoryQueryInput.change_type q with
     | Some change_type =>
         if truthy (Some change_type)
            && negb (String.eqb change_type PROPERTY_CHANGE_TYPES.TODOS)
         then filter
                (fun c => String.eqb
                            (PropertyHistoryChangeRecord.change_type c)
                            change_type) l2
         else l2
     | None => l2
     end). intros l3 H3.
  destruct (HistoryQueryInput.responsible_user q) as [u|]; [|exact H3].
  destruct (truthy (Some u)) eqn:Hu; [|exact H3].
  apply filter_In. split; [exact H3|].
  apply String.eqb_eq. apply Huser; [reflexivity|].
  intros ->. discriminate Hu.
Qed.

Lemma filter_events_complete (q : HistoryQueryInput.t)
    (l : list PropertyLifecycleEventRecord.t)
    (e : PropertyLifecycleEventRecord.t) :
  In e l ->
  (forall d, q.(HistoryQueryInput.start_date) = Some d ->
             Date_of_day d <= e.(PropertyLifecycleEventRecord.event_date)) ->
  (forall d, q.(HistoryQueryInput.end_date) = Some d ->
             e.(PropertyLifecycleEventRecord.event_date)
             <= setHours_23_59_59_999 (Date_of_day d)) ->
  In e (filter_events q l).
Proof.
  intros Hin Hstart Hend. unfold filter_events.
  destruct (HistoryQueryInput.start_date q) as [d1|],
           (HistoryQueryInput.end_date q) as [d2|];
    rewrite ?filter_In, ?Z.leb_le; auto.
Qed.


Lemma StronglySorted_filter {A : Type} (R : A -> A -> Prop)
    (f : A -> bool) (l : list A) :
  StronglySorted R l -> StronglySorted R (filter f l).
Proof.
  induction 1 as [|x l Hs IH Hall]; simpl; [constructor|].
  destruct (f x); [|exact IH].
  constructor; [exact IH|].
  rewrite Forall_forall in *. intros y Hy. apply filter_In in Hy.
  now apply Hall.
Qed.

Lemma filter_changes_sorted (R : PropertyHistoryChangeRecord.t ->
                                 PropertyHistoryChangeRecord.t -> Prop)
    (q : HistoryQueryInput.t) (l : list PropertyHistoryChangeRecord.t) :
  StronglySorted R l -> StronglySorted R (filter_changes q l).
Proof.
  intros Hs. unfold filter_changes.
  destruct (HistoryQueryInput.start_date q),
           (HistoryQueryInput.end_date q),
           (HistoryQueryInput.change_type q) as [t|],
           (HistoryQueryInput.responsible_user q) as [u|];
    try destruct (truthy (Some u));
    try destruct (truthy (Some t) && _);
    repeat apply StronglySorted_filter; exact Hs.
Qed.

Lemma filter_events_sorted (R : PropertyLifecycleEventRecord.t ->
                                PropertyLifecycleEventRecord.t -> Prop)
    (q : HistoryQueryInput.t) (l : list PropertyLifecycleEventRecord.t) :
  StronglySorted R l -> StronglySorted R (filter_events q l).
Proof.
  intros Hs. unfold filter_events.
  destruct (HistoryQueryInput.start_date q),
           (HistoryQueryInput.end_date q);
    repeat apply StronglySorted_filter; exact Hs.
Qed.

(** X15.  The answer of a history query is ordered: whatever the filters,
    the change records come from the newest [change_date] to the oldest,
    and the lifecycle events from the newest [event_date] to the
    oldest. *)
Theorem history_query_newest_first (s : State) (params : unknown)
    (uuid : string) (now : Z) (response : PropertyHistoryResponse.t)
    (s' : State) :
  propertyHistoryQuery s params uuid now = (Return response, s') ->
  StronglySorted
    (fun a b => b.(PropertyHistoryChangeRecord.change_date)
                <= a.(PropertyHistoryChangeRecord.change_date))
    response.(PropertyHistoryResponse.changes)
  /\ StronglySorted
       (fun a b => b.(PropertyLifecycleEventRecord.event_date)
                   <= a.(PropertyLifecycleEventRecord.event_date))
       response.(PropertyHistoryResponse.lifecycle_events).
Proof.
  unfold propertyHistoryQuery.
  destruct (historyQuerySchema params) as [q|]; [|discriminate].
  destruct (PropertyStore.getById _ _); [|discriminate].
  intros Heq. inversion Heq; subst; clear Heq.
  cbn [PropertyHistoryResponse.changes
       PropertyHistoryResponse.lifecycle_events]. split.
  - apply filter_changes_sorted.
    apply (Array_sort_descending PropertyHistoryChangeRecord.change_date).
  - apply filter_events_sorted.
    apply (Array_sort_descending PropertyLifecycleEventRecord.event_date).
Qed.

End HistoryServices.

Section HistoryComposition.

Context {RT : Runtime}.

(** X16.  The change type 'todos' filters nothing: a query with
    [change_type] 'todos' gives the same outcome as the query with the
    same other parameters and no [change_type]. *)
Theorem todos_is_no_filter (s : State) (params params' : unknown)
    (q : HistoryQueryInput.t) (uuid uuid' : string) (now now' : Z) :
  historyQuerySchema params = Some q ->
  q.(HistoryQueryInput.change_type) = Some PROPERTY_CHANGE_TYPES.TODOS ->
  historyQuerySchema params'
  = Some {| HistoryQueryInput.property_id :=
              q.(HistoryQueryInput.property_id);
            HistoryQueryInput.start_date := q.(HistoryQueryInput.start_date);
            HistoryQueryInput.end_date := q.(HistoryQueryInput.end_date);
            HistoryQueryInput.change_type := None;
            HistoryQueryInput.responsible_user :=
              q.(HistoryQueryInput.responsible_user) |} ->
  fst (propertyHistoryQuery s params uuid now)
  = fst (propertyHistoryQuery s params' uuid' now').
Proof.
  intros Hparse Htodos Hparse'.
  unfold propertyHistoryQuery. rewrite Hparse, Hparse'.
  cbn [HistoryQueryInput.property_id].
  destruct (PropertyStore.getById _ _); [|reflexivity].
  cbn [fst]. unfold filter_changes, filter_events.
  cbn [HistoryQueryInput.start_date HistoryQueryInput.end_date
       HistoryQueryInput.change_type HistoryQueryInput.responsible_user].
  rewrite Htodos. reflexivity.
Qed.

Lemma propertyHistoryQuery_reads (s1 s2 : State) (params : unknown)
    (uuid1 uuid2 : string) (now1 now2 : Z) :
  s1.(propertyStore) = s2.(propertyStore) ->
  s1.(propertyHistoryStore) = s2.(propertyHistoryStore) ->
  fst (propertyHistoryQuery s1 params uuid1 now1)
  = fst (propertyHistoryQuery s2 params uuid2 now2).
Proof.
  intros Hp Hh. unfold propertyHistoryQuery. rewrite Hp, Hh.
  destruct (historyQuerySchema params); [|reflexivity].
  destruct (PropertyStore.getById _ _); reflexivity.
Qed.


(** X18.  [propertyHistoryQuery] checks validation first and existence
    second: it throws VALIDATION_ERROR (400) when the parameters fail the
    schema, otherwise NOT_FOUND (404) when the store does not hold the
    property; it throws nothing else, and a call that throws leaves the
    whole state as it was. *)
Theorem propertyHistoryQuery_checks (s : State) (params : unknown)
    (uuid : string) (now : Z) :
  (historyQuerySchema params = None ->
   propertyHistoryQuery s params uuid now
   = (Throw (ServiceError "VALIDATION_ERROR" 400), s))
  /\ (forall queryParams,
        historyQuerySchema params = Some queryParams ->
        PropertyStore.getById s.(propertyStore)
          queryParams.(HistoryQueryInput.property_id) = None ->
        propertyHistoryQuery s params uuid now
        = (Throw (ServiceError "NOT_FOUND" 404), s))
  /\ (forall e s',
        propertyHistoryQuery s params uuid now = (Throw e, s') ->
        s' = s
        /\ (e = ServiceError "VALIDATION_ERROR" 400
            \/ e = ServiceError "NOT_FOUND" 404)).
Proof.
  unfold propertyHistoryQuery. split; [|split].
  - intros Hparse. now rewrite Hparse.
  - intros q Hparse Hget. now rewrite Hparse, Hget.
  - intros e s'.
    destruct (historyQuerySchema params) as [q|];
      [|intros Heq; inversion Heq; auto].
    destruct (PropertyStore.getById _ _);
      intros Heq; inversion Heq; auto.
Qed.

Lemma JsMap_set_In_values {V : Type} (m : JsMap.t V) (k : string) (v : V) :
  In v (JsMap.values (JsMap.set m k v)).
Proof.
  apply JsMap_In_values. exists k. apply JsMap_get_In, JsMap_get_set_eq.
Qed.

(** X19.  What is registered is found: the change record returned by
    [registerPropertyChange] is the one [getChangeById] finds under the
    identifier drawn, and [getChangesByPropertyId] lists it for its
    property; likewise for [registerLifecycleEvent], [getEventById] and
    [getEventsByPropertyId].  Neither service looks at the property
    store: the record is stored whether or not the property exists, and
    the property store is left as it was. *)
Theorem registered_records_found (s : State) :
  (forall params uuid now,
     let '(change, s') := registerPropertyChange s params uuid now in
     PropertyHistoryStore.getChangeById s'.(propertyHistoryStore) uuid
     = Some change
     /\ In change
          (PropertyHistoryStore.getChangesByPropertyId
             s'.(propertyHistoryStore)
             params.(RegisterPropertyChangeParams.property_id))
     /\ change.(PropertyHistoryChangeRecord.change_date) = now
     /\ s'.(propertyStore) = s.(propertyStore))
  /\ (forall params uuid now,
        let '(event, s') := registerLifecycleEvent s params uuid now in
        PropertyHistoryStore.getEventById s'.(propertyHistoryStore) uuid
        = Some event
        /\ In event
             (PropertyHistoryStore.getEventsByPropertyId
                s'.(propertyHistoryStore)
                params.(RegisterLifecycleEventParams.property_id))
        /\ event.(PropertyLifecycleEventRecord.event_date) = now
        /\ s'.(propertyStore) = s.(propertyStore)).
Proof.
  split; intros params uuid now;
    cbn [registerPropertyChange registerLifecycleEvent propertyHistoryStore
         propertyStore];
    unfold PropertyHistoryStore.getChangeById,
      PropertyHistoryStore.getEventById,
      PropertyHistoryStore.getChangesByPropertyId,
      PropertyHistoryStore.getEventsByPropertyId,
      PropertyHistoryStore.addChange, PropertyHistoryStore.addEvent;
    cbn [PropertyHistoryStore.changes PropertyHistoryStore.events
         PropertyHistoryChangeRecord.change_id
         PropertyLifecycleEventRecord.event_id].
  - split; [apply JsMap_get_set_eq|]. split; [|split; reflexivity].
    apply Array_sort_In, filter_In. split; [apply JsMap_set_In_values|].
    cbn. apply String.eqb_refl.
  - split; [apply JsMap_get_set_eq|]. split; [|split; reflexivity].
    apply Array_sort_In, filter_In. split; [apply JsMap_set_In_values|].
    cbn. apply String.eqb_refl.
Qed.

Lemma propertyCreate_history_frame (s : State) (body : unknown) (now : Z)
    (uuid : string) (today seq_now : Z) :
  let s' := snd (propertyCreate s body now uuid today seq_now) in
  s'.(propertyHistoryStore) = s.(propertyHistoryStore)
  /\ s'.(propertyAuditStore) = s.(propertyAuditStore).
Proof.
  destruct (propertyCreate s body now uuid today seq_now) as [[p|e] s']
    eqn:E; cbn [snd].
  - apply propertyCreate_Return in E.
    now destruct E as (_ & _ & _ & _ & _ & _ & _ & _ & _ & _ & -> & ->).
  - apply propertyCreate_Throw in E. now subst.
Qed.

Lemma propertyUpdate_history_frame (s : State) (property_id : string)
    (body : unknown) :
  let s' := snd (propertyUpdate s property_id body) in
  s'.(propertyHistoryStore) = s.(propertyHistoryStore)
  /\ s'.(propertyAuditStore) = s.(propertyAuditStore).
Proof.
  destruct (propertyUpdate s property_id body) as [[p|e] s'] eqn:E;
    cbn [snd].
  - apply propertyUpdate_Return in E.
    now destruct E
      as (_ & _ & _ & _ & _ & _ & _ & _ & _ & _ & _ & _ & -> & ->).
  - apply propertyUpdate_Throw in E. now subst.
Qed.

(** X20.  The property services keep no history: [propertyCreate] and
    [propertyUpdate] write neither a change record nor a lifecycle event
    nor an audit record, whether they return or throw; a history query
    that returned before a [propertyUpdate] returns the same answer after
    it. *)
Theorem property_services_write_no_history (s : State) :
  (forall body now uuid today seq_now,
     let s' := snd (propertyCreate s body now uuid today seq_now) in
     s'.(propertyHistoryStore) = s.(propertyHistoryStore)
     /\ s'.(propertyAuditStore) = s.(propertyAuditStore))
  /\ (forall property_id body,
        let s' := snd (propertyUpdate s property_id body) in
        s'.(propertyHistoryStore) = s.(propertyHistoryStore)
        /\ s'.(propertyAuditStore) = s.(propertyAuditStore)
        /\ forall params uuid now response s1,
             propertyHistoryQuery s params uuid now = (Return response, s1) ->
             fst (propertyHistoryQuery s' params uuid now) = Return response).
Proof.
  split.
  - intros. apply propertyCreate_history_frame.
  - intros property_id body s'.
    destruct (propertyUpdate_history_frame s property_id body) as [Hh Ha].
    fold s' in Hh, Ha. split; [exact Hh|]. split; [exact Ha|].
    intros params uuid now response s1.
    unfold propertyHistoryQuery. rewrite Hh.
    destruct (historyQuerySchema params) as [q|]; [|discriminate].
    destruct (PropertyStore.getById (propertyStore s) _) as [existing|]
      eqn:Hget; [|discriminate].
    intros Heq. inversion Heq; subst; clear Heq.
    assert (Hhas : PropertyStore.exists_ (propertyStore s')
                     (HistoryQueryInput.property_id q) = true).
    { apply (exec_property_has s (PropertyUpdate property_id body)).
      unfold JsMap.has. unfold PropertyStore.getById in Hget.
      now rewrite Hget. }
    unfold PropertyStore.exists_, JsMap.has in Hhas.
    unfold PropertyStore.getById.
    destruct (JsMap.get (propertyStore s') _); [reflexivity|discriminate].
Qed.

End HistoryComposition.

(** ** Invariants of the history and audit stores *)

Section StoreInvariants.

Context {RT : Runtime}.

Lemma exec_audits_ok (s : State) (op : Operation) :
  audits_ok s -> audits_ok (exec s op).
Proof.
  intros [Hwf Hall].
  assert (Hkeep : forall k a,
            In (k, a) (propertyAuditStore s) ->
            PropertyStore.exists_ (propertyStore (exec s op))
              (PropertyHistoryAuditRecord.consulted_property_id a) = true).
  { intros k a Hin. apply exec_property_has. now apply (Hall k a). }
  assert (Hsame : propertyAuditStore (exec s op) = propertyAuditStore s ->
                  audits_ok (exec s op)).
  { intros Heq. unfold audits_ok. rewrite Heq. split; [exact Hwf|].
    intros k a Hin.
    destruct (Hall k a Hin) as (H1 & H2 & H3 & H4 & H5 & H6 & _).
    repeat (split; [assumption|]). now apply (Hkeep k a). }
  destruct op as [body now uuid today seq_now| | |property_id body
                 |params uuid now|params uuid now|params uuid now];
    try (apply Hsame; reflexivity).
  - apply Hsame. apply propertyCreate_history_frame.
  - apply Hsame. apply propertyUpdate_history_frame.
  - revert Hkeep Hsame. cbn [exec]. unfold propertyHistoryQuery.
    destruct (historyQuerySchema params) as [q|];
      [|intros _ Hsame; now apply Hsame].
    destruct (PropertyStore.getById (propertyStore s)
                (HistoryQueryInput.property_id q)) as [existing|] eqn:Hget;
      [|intros _ Hsame; now apply Hsame].
    intros _ _. cbn [snd]. unfold audits_ok, registerAuditLog.
    cbn [propertyAuditStore propertyStore]. unfold PropertyAuditStore.addAudit.
    cbn [PropertyHistoryAuditRecord.audit_id].
    split; [now apply JsMap_wf_set|].
    intros k a Hin. apply JsMap_In_wf_set in Hin; [|exact Hwf].
    destruct Hin as [[-> ->]|[_ Hin]]; [|now apply (Hall k a)].
    cbn. repeat split; try lia.
    + now exists q.
    + unfold PropertyStore.exists_, JsMap.has.
      unfold PropertyStore.getById in Hget. now rewrite Hget.
Qed.

Lemma exec_history_ok (s : State) (op : Operation) :
  history_ok s -> history_ok (exec s op).
Proof.
  intros (Hwc & Hwe & Hc & He).
  assert (Hsame : propertyHistoryStore (exec s op) = propertyHistoryStore s ->
                  history_ok (exec s op)).
  { intros Heq. unfold history_ok. rewrite Heq. auto. }
  destruct op as [body now uuid today seq_now| | |property_id body
                 |params uuid now|params uuid now|params uuid now];
    try (apply Hsame; reflexivity).
  - apply Hsame. apply propertyCreate_history_frame.
  - apply Hsame. apply propertyUpdate_history_frame.
  - apply Hsame. apply propertyHistoryQuery_frame.
  - unfold history_ok. cbn. split; [exact Hwc|].
    split; [now apply JsMap_wf_set|]. split; [exact Hc|].
    intros k e Hin. apply JsMap_In_wf_set in Hin; [|exact Hwe].
    destruct Hin as [[-> ->]|[_ Hin]]; [|now apply (He k e)].
    cbn. split; [reflexivity|]. unfold or_null.
    split.
    + destruct (RegisterLifecycleEventParams.related_contract_id params)
        as [x|]; cbn; [|discriminate].
      destruct (String.eqb x "") eqn:E; cbn; [discriminate|].
      apply String.eqb_neq in E. congruence.
    + destruct (RegisterLifecycleEventParams.related_tenant_id params)
        as [x|]; cbn; [|discriminate].
      destruct (String.eqb x "") eqn:E; cbn; [discriminate|].
      apply String.eqb_neq in E. congruence.
  - unfold history_ok. cbn. split; [now apply JsMap_wf_set|].
    split; [exact Hwe|]. split; [|exact He].
    intros k c Hin. apply JsMap_In_wf_set in Hin; [|exact Hwc].
    destruct Hin as [[-> ->]|[_ Hin]]; [reflexivity | now apply (Hc k c)].
Qed.

(** X21.  Every audit record of a reachable state was written by a
    history query that returned: it is filed under its own [audit_id],
    names the user 'system', is not an export ([exported] false,
    [export_format] null), counts no negative number of records, carries
    the filters of its query, whose property is the consulted one, and
    that property is still in the property store. *)
Theorem audit_records_sound (s : State) :
  reachable s ->
  forall a,
    In a (JsMap.values s.(propertyAuditStore)) ->
    PropertyAuditStore.getAuditById s.(propertyAuditStore)
      a.(PropertyHistoryAuditRecord.audit_id) = Some a
    /\ a.(PropertyHistoryAuditRecord.user_id) = "system"
    /\ a.(PropertyHistoryAuditRecord.exported) = false
    /\ a.(PropertyHistoryAuditRecord.export_format) = None
    /\ 0 <= a.(PropertyHistoryAuditRecord.records_returned)
    /\ (exists q,
          a.(PropertyHistoryAuditRecord.applied_filters) = Some q
          /\ q.(HistoryQueryInput.property_id)
             = a.(PropertyHistoryAuditRecord.consulted_property_id))
    /\ PropertyStore.exists_ s.(propertyStore)
         a.(PropertyHistoryAuditRecord.consulted_property_id) = true.
Proof.
  intros Hreach.
  assert (Hok : audits_ok s).
  { induction Hreach as [|s op _ IH]; [|now apply exec_audits_ok].
    split; [apply JsMap_wf_empty | intros k a []]. }
  destruct Hok as [Hwf Hall]. intros a Hin.
  apply JsMap_In_values in Hin. destruct Hin as [k Hin].
  destruct (Hall k a Hin) as (Hid & Hrest).
  split; [|exact Hrest].
  rewrite Hid. now apply JsMap_In_get.
Qed.

(** X22.  In every reachable state each change record is found under its
    own [change_id] and each lifecycle event under its own [event_id],
    and a lifecycle event never carries an empty text as related contract
    or tenant: an empty one was stored as null. *)
Theorem history_records_sound (s : State) :
  reachable s ->
  (forall c,
     In c (JsMap.values
             s.(propertyHistoryStore).(PropertyHistoryStore.changes)) ->
     PropertyHistoryStore.getChangeById s.(propertyHistoryStore)
       c.(PropertyHistoryChangeRecord.change_id) = Some c)
  /\ (forall e,
        In e (JsMap.values
                s.(propertyHistoryStore).(PropertyHistoryStore.events)) ->
        PropertyHistoryStore.getEventById s.(propertyHistoryStore)
          e.(PropertyLifecycleEventRecord.event_id) = Some e
        /\ e.(PropertyLifecycleEventRecord.related_contract_id) <> Some ""
        /\ e.(PropertyLifecycleEventRecord.related_tenant_id) <> Some "").
Proof.
  intros Hreach.
  assert (Hok : history_ok s).
  { induction Hreach as [|s op _ IH]; [|now apply exec_history_ok].
    split; [apply JsMap_wf_empty|]. split; [apply JsMap_wf_empty|].
    split; intros k x []. }
  destruct Hok as (Hwc & Hwe & Hc & He). split.
  - intros c Hin. apply JsMap_In_values in Hin. destruct Hin as [k Hin].
    unfold PropertyHistoryStore.getChangeById.
    rewrite (Hc k c Hin). now apply JsMap_In_get.
  - intros e Hin. apply JsMap_In_values in Hin. destruct Hin as [k Hin].
    destruct (He k e Hin) as (Hid & Hrest). split; [|exact Hrest].
    unfold PropertyHistoryStore.getEventById.
    rewrite Hid. now apply JsMap_In_get.
Qed.

End StoreInvariants.

(** ** Postal codes *)

Section PostalCodes.

Lemma match_digits_Some (n : nat) (s rest : string) :
  match_digits n s = Some rest ->
  exists a, s = a ++ rest /\ String.length a = n /\ all_digits a = true.
Proof.
  revert s. induction n as [|n IH]; intros s; simpl.
  - intros Heq. inversion Heq. now exists "".
  - destruct s as [|c s']; [discriminate|].
    destruct (is_digit c) eqn:Hc; [|discriminate].
    intros Hm. destruct (IH s' Hm) as (a & -> & Hlen & Hd).
    exists (String c a). simpl. rewrite Hlen.
    unfold all_digits in *. simpl. now rewrite Hc, Hd.
Qed.

Lemma match_digits_app (a rest : string) :
  all_digits a = true ->
  match_digits (String.length a) (a ++ rest) = Some rest.
Proof.
  unfold all_digits. induction a as [|c a IH]; simpl; [reflexivity|].
  rewrite andb_true_iff. intros [Hc Ha]. now rewrite Hc, IH.
Qed.

Lemma cep_regex_iff (s : string) :
  cep_regex s = true
  <-> exists a b,
        s = a ++ "-" ++ b
        /\ String.length a = 5%nat /\ String.length b = 3%nat
        /\ all_digits a = true /\ all_digits b = true.
Proof.
  unfold cep_regex. split.
  - destruct (match_digits 5 s) as [[|c rest]|] eqn:E5; try discriminate.
    rewrite andb_true_iff. intros [Hc H3].
    apply Ascii.eqb_eq in Hc. subst c.
    destruct (match_digits 3 rest) as [[|]|] eqn:E3; try discriminate.
    apply match_digits_Some in E5. destruct E5 as (a & -> & Hla & Hda).
    apply match_digits_Some in E3. destruct E3 as (b & -> & Hlb & Hdb).
    exists a, b.
    replace (b ++ "") with b by (clear; induction b; simpl; congruence).
    auto.
  - intros (a & b & -> & Hla & Hlb & Hda & Hdb).
    rewrite <- Hla, (match_digits_app a _ Hda).
    cbn [append]. rewrite Ascii.eqb_refl. cbn [andb].
    replace b with (b ++ "") at 1
      by (clear; induction b; simpl; congruence).
    now rewrite <- Hlb, (match_digits_app b _ Hdb).
Qed.

Lemma cep_regex_length (s : string) :
  cep_regex s = true -> String.length s = 9%nat.
Proof.
  intros H. apply cep_regex_iff in H.
  destruct H as (a & b & -> & Hla & Hlb & _).
  rewrite !length_append, Hla, Hlb. reflexivity.
Qed.

Lemma cepSchema_regex (s : string) : cepSchema s = cep_regex s.
Proof.
  unfold cepSchema, PROPERTY_LIMITS.CEP_LENGTH.
  destruct (cep_regex s) eqn:E; [|apply andb_false_r].
  rewrite (cep_regex_length s E). reflexivity.
Qed.

(** X23.  The CEP schema accepts exactly the texts made of five digits, a
    hyphen and three digits; its length check never decides anything,
    since every text the pattern accepts has nine characters. *)
Theorem cepSchema_accepts (s : string) :
  (cepSchema s = true
   <-> exists a b,
         s = a ++ "-" ++ b
         /\ String.length a = 5%nat /\ String.length b = 3%nat
         /\ all_digits a = true /\ all_digits b = true)
  /\ cepSchema s = cep_regex s.
Proof.
  split; [|apply cepSchema_regex].
  rewrite cepSchema_regex. apply cep_regex_iff.
Qed.

Lemma keep_digits_all_digits (s : string) :
  all_digits (keep_digits s) = true.
Proof.
  unfold all_digits. induction s as [|c s IH]; simpl; [reflexivity|].
  destruct (is_digit c) eqn:Hc; [|exact IH]. simpl. now rewrite Hc, IH.
Qed.

Lemma keep_digits_id (s : string) :
  all_digits s = true -> keep_digits s = s.
Proof.
  unfold all_digits. induction s as [|c s IH]; simpl; [reflexivity|].
  rewrite andb_true_iff. intros [Hc Hs]. now rewrite Hc, IH.
Qed.

Lemma keep_digits_app (a b : string) :
  keep_digits (a ++ b) = keep_digits a ++ keep_digits b.
Proof.
  induction a as [|c a IH]; simpl; [reflexivity|].
  destruct (is_digit c); simpl; now rewrite IH.
Qed.

Lemma substring_add (n m : nat) (s : string) :
  substring 0 (n + m) s = substring 0 n s ++ substring n m s.
Proof.
  revert s. induction n as [|n IH]; intros s.
  - destruct s; reflexivity.
  - destruct s as [|c s]; [reflexivity|]. simpl. now rewrite IH.
Qed.

Lemma substring_length (a m : nat) (s : string) :
  String.length (substring a m s)
  = Nat.min m (String.length s - a).
Proof.
  revert a m. induction s as [|c s IH]; intros a m.
  - destruct a, m; reflexivity.
  - destruct a as [|a].
    + destruct m as [|m]; [reflexivity|]. simpl. rewrite IH.
      now rewrite Nat.sub_0_r.
    + simpl. apply IH.
Qed.

Lemma substring_all_digits (a m : nat) (s : string) :
  all_digits s = true -> all_digits (substring a m s) = true.
Proof.
  unfold all_digits. revert a m.
  induction s as [|c s IH]; intros a m Hs.
  - destruct a, m; reflexivity.
  - simpl in Hs. apply andb_true_iff in Hs. destruct Hs as [Hc Hs].
    destruct a as [|a].
    + destruct m as [|m]; [reflexivity|]. simpl. now rewrite Hc, IH.
    + simpl. now apply IH.
Qed.

Lemma substring_app_head (a b : string) :
  substring 0 (String.length a) (a ++ b) = a.
Proof.
  induction a as [|c a IH]; simpl.
  - destruct b; reflexivity.
  - now rewrite IH.
Qed.

Lemma substring_app_tail (a b : string) (m : nat) :
  substring (String.length a) m (a ++ b) = substring 0 m b.
Proof. induction a as [|c a IH]; simpl; [reflexivity | exact IH]. Qed.

Lemma substring_all (m : nat) (s : string) :
  (String.length s <= m)%nat -> substring 0 m s = s.
Proof.
  revert m. induction s as [|c s IH]; intros m Hm.
  - destruct m; reflexivity.
  - destruct m as [|m]; [simpl in Hm; lia|].
    simpl. rewrite IH; [reflexivity | simpl in Hm; lia].
Qed.

(** X24.  The input mask of the CEP field: whatever is typed, the value
    passed on has at most nine characters and its digits are the first
    eight digits typed; masking a masked value changes nothing; and as
    soon as eight digits have been typed the value is one the CEP schema
    accepts. *)
Theorem cepOnChange_mask (input : string) :
  (8 <= String.length (keep_digits input) ->
   cepSchema (cepOnChange input) = true)%nat
  /\ cepOnChange (cepOnChange input) = cepOnChange input
  /\ (String.length (cepOnChange input) <= 9)%nat
  /\ keep_digits (cepOnChange input)
     = slice 0 8 (keep_digits input).
Proof.
  unfold cepOnChange, slice. cbn [Nat.sub].
  set (value := keep_digits input).
  assert (Hd : all_digits value = true) by apply keep_digits_all_digits.
  set (a := substring 0 5 value).
  set (b := substring 5 3 value).
  assert (Hda : all_digits a = true) by now apply substring_all_digits.
  assert (Hdb : all_digits b = true) by now apply substring_all_digits.
  assert (Hlb : String.length b = Nat.min 3 (String.length value - 5))
    by apply substring_length.
  assert (Hla : String.length a = Nat.min 5 (String.length value))
    by (unfold a; rewrite substring_length; now rewrite Nat.sub_0_r).
  assert (Hkeep : keep_digits (a ++ "-" ++ b) = a ++ b).
  { rewrite keep_digits_app. cbn [append keep_digits].
    change (is_digit "-") with false. cbn iota.
    now rewrite !keep_digits_id. }
  assert (Hfirst8 : a ++ b = substring 0 8 value)
    by (symmetry; apply (substring_add 5 3)).
  destruct (5 <? String.length value)%nat eqn:Hlong.
  - apply Nat.ltb_lt in Hlong.
    assert (Hla5 : String.length a = 5%nat) by lia.
    split; [|split; [|split]].
    + intros H8. rewrite cepSchema_regex. apply cep_regex_iff.
      exists a, b. repeat split; auto. lia.
    + rewrite Hkeep.
      assert (Hab : (5 <? String.length (a ++ b))%nat = true).
      { apply Nat.ltb_lt. rewrite length_append. lia. }
      rewrite Hab. f_equal.
      * rewrite <- Hla5 at 1. apply substring_app_head.
      * f_equal. rewrite <- Hla5 at 1. rewrite substring_app_tail.
        apply substring_all. lia.
    + rewrite !length_append. simpl. lia.
    + rewrite Hkeep. exact Hfirst8.
  - apply Nat.ltb_ge in Hlong.
    split; [intros H8; unfold value in *; lia|].
    split; [|split].
    + rewrite (keep_digits_id value Hd).
      apply Nat.ltb_ge in Hlong. now rewrite Hlong.
    + lia.
    + rewrite (keep_digits_id value Hd). symmetry.
      apply substring_all. lia.
Qed.

End PostalCodes.

(** ** The properties above on the sample requests *)


Lemma next_sequential_locked_witness :
  CodigoSequencialStore.getNextSequential Sample.locked_store "20250128"
    Sample.noon
  = (Throw (Error
       "Lock timeout: Sistema ocupado, tente novamente em alguns segundos"),
     Sample.locked_store).
Proof. apply next_sequential_locked. reflexivity. Defined.

Lemma propertyGet_round_trip_witness :
  propertyGet Sample.one_house Sample.uuid_b
  = Throw (ServiceError "NOT_FOUND" 404)
  /\ (exists p s',
        @propertyCreate Sample.rt Sample.one_house
          (Sample.Create (Sample.casa 456)) Sample.noon Sample.uuid_b
          Sample.noon Sample.noon = (Return p, s')
        /\ propertyGet s' Sample.uuid_b = Return p)
  /\ (exists p s',
        @propertyUpdate Sample.rt Sample.one_house Sample.uuid_a
          (Sample.Update (Sample.casa_reformada 123)) = (Return p, s')
        /\ propertyGet s' Sample.uuid_a = Return p).
Proof.
  destruct (@propertyGet_round_trip Sample.rt Sample.one_house)
    as (Hmissing & Hcreate & Hupdate).
  split; [apply Hmissing; reflexivity|]. split.
  - eexists. eexists. split; [vm_compute; reflexivity|].
    eapply (Hcreate (Sample.Create (Sample.casa 456)) Sample.noon
              Sample.uuid_b Sample.noon Sample.noon).
    vm_compute. reflexivity.
  - eexists. eexists. split; [vm_compute; reflexivity|].
    eapply (Hupdate Sample.uuid_a
              (Sample.Update (Sample.casa_reformada 123))).
    vm_compute. reflexivity.
Defined.

Lemma propertyList_order_witness :
  (exists p s',
     @propertyCreate Sample.rt Sample.one_house
       (Sample.Create (Sample.casa 456)) Sample.noon Sample.uuid_b
       Sample.noon Sample.noon = (Return p, s')
     /\ map PropertyListResponse.property_id (propertyList s')
        = (map PropertyListResponse.property_id
             (propertyList Sample.one_house)
           ++ [Sample.uuid_b])%list)
  /\ (exists p s',
        @propertyUpdate Sample.rt Sample.two_houses Sample.uuid_a
          (Sample.Update (Sample.casa_reformada 123)) = (Return p, s')
        /\ map PropertyListResponse.property_id (propertyList s')
           = map PropertyListResponse.property_id
               (propertyList Sample.two_houses)).
Proof.
  split.
  - destruct (@propertyList_order Sample.rt Sample.one_house)
      as (_ & _ & Hcreate & _).
    eexists. eexists. split; [vm_compute; reflexivity|].
    eapply (Hcreate (Sample.Create (Sample.casa 456)) Sample.noon
              Sample.uuid_b Sample.noon Sample.noon).
    + reflexivity.
    + vm_compute. reflexivity.
  - destruct (@propertyList_order Sample.rt Sample.two_houses)
      as (_ & _ & _ & Hupdate).
    eexists. eexists. split; [vm_compute; reflexivity|].
    eapply (Hupdate Sample.uuid_a
              (Sample.Update (Sample.casa_reformada 123))).
    vm_compute. reflexivity.
Defined.

Lemma propertyUpdate_checks_witness :
  @propertyUpdate Sample.rt Sample.one_house Sample.uuid_b Sample.Malformed
  = (Throw (ServiceError "VALIDATION_ERROR" 400), Sample.one_house)
  /\ @propertyUpdate Sample.rt Sample.one_house Sample.uuid_b
       (Sample.Update (Sample.casa_reformada 123))
     = (Throw (ServiceError "NOT_FOUND" 404), Sample.one_house).
Proof.
  split.
  - apply (@propertyUpdate_checks Sample.rt Sample.one_house Sample.uuid_b
             Sample.Malformed).
    reflexivity.
  - destruct (@propertyUpdate_checks Sample.rt Sample.one_house
                Sample.uuid_b (Sample.Update (Sample.casa_reformada 123)))
      as (_ & Hmissing & _).
    apply (Hmissing (Sample.casa_reformada 123)); reflexivity.
Defined.


Lemma propertyUpdate_idempotent_witness :
  exists p s',
    @propertyUpdate Sample.rt Sample.one_house Sample.uuid_a
      (Sample.Update (Sample.casa_reformada 123)) = (Return p, s')
    /\ @propertyUpdate Sample.rt s' Sample.uuid_a
         (Sample.Update (Sample.casa_reformada 123)) = (Return p, s').
Proof.
  eexists. eexists. split; [vm_compute; reflexivity|].
  apply (@propertyUpdate_idempotent Sample.rt Sample.one_house).
  - repeat constructor.
  - vm_compute. reflexivity.
Defined.


Lemma propertyCreate_failures_witness :
  no_lock_held Sample.two_houses
  /\ exists e,
       @propertyCreate Sample.rt Sample.two_houses
         (Sample.Create (Sample.casa 123)) Sample.noon Sample.uuid_c
         Sample.noon Sample.noon = (Throw e, Sample.two_houses)
       /\ (e = ServiceError "VALIDATION_ERROR" 400
           \/ e = ServiceError "DUPLICATE_ADDRESS" 409
           \/ e = ServiceError "MAX_RECORDS_REACHED" 507).
Proof.
  assert (Hreach : @reachable Sample.rt Sample.two_houses)
    by (repeat constructor).
  destruct (@propertyCreate_failures Sample.rt Sample.two_houses Hreach)
    as [Hfree Hthrows].
  split; [exact Hfree|].
  eexists. split; [vm_compute; reflexivity|].
  eapply (Hthrows (Sample.Create (Sample.casa 123)) Sample.noon
            Sample.uuid_c Sample.noon Sample.noon).
  vm_compute. reflexivity.
Defined.

Lemma property_codes_unique_witness :
  exists p q,
    PropertyStore.getById Sample.two_houses.(propertyStore) Sample.uuid_a
    = Some p
    /\ PropertyStore.getById Sample.two_houses.(propertyStore) Sample.uuid_b
       = Some q
    /\ p.(PropertyEntity.codigo_propriedade)
       <> q.(PropertyEntity.codigo_propriedade).
Proof.
  assert (Hreach : @reachable Sample.rt Sample.two_houses)
    by (repeat constructor).
  destruct (@property_codes_unique Sample.rt Sample.two_houses Hreach)
    as [Hdiff _].
  eexists. eexists.
  split; [vm_compute; reflexivity|]. split; [vm_compute; reflexivity|].
  apply Hdiff.
  - vm_compute. left. reflexivity.
  - vm_compute. right. left. reflexivity.
  - vm_compute. discriminate.
Defined.


Lemma history_query_newest_first_witness :
  exists response s',
    @propertyHistoryQuery Sample.rt Sample.with_history
      (Sample.query None None None None) Sample.audit_uuid
      (Sample.noon + 2 * msPerDay) = (Return response, s')
    /\ StronglySorted
         (fun a b => b.(PropertyHistoryChangeRecord.change_date)
                     <= a.(PropertyHistoryChangeRecord.change_date))
         response.(PropertyHistoryResponse.changes)
    /\ StronglySorted
         (fun a b => b.(PropertyLifecycleEventRecord.event_date)
                     <= a.(PropertyLifecycleEventRecord.event_date))
         response.(PropertyHistoryResponse.lifecycle_events).
Proof.
  eexists. eexists. split; [vm_compute; reflexivity|].
  eapply (@history_query_newest_first Sample.rt Sample.with_history
            (Sample.query None None None None) Sample.audit_uuid
            (Sample.noon + 2 * msPerDay)).
  vm_compute. reflexivity.
Defined.

Lemma todos_is_no_filter_witness :
  fst (@propertyHistoryQuery Sample.rt Sample.with_history
         (Sample.query None None (Some "todos") None) Sample.audit_uuid
         (Sample.noon + 2 * msPerDay))
  = fst (@propertyHistoryQuery Sample.rt Sample.with_history
           (Sample.query None None None None) Sample.uuid_e
           (Sample.noon + 3 * msPerDay)).
Proof.
  eapply (@todos_is_no_filter Sample.rt Sample.with_history); reflexivity.
Defined.

Lemma propertyHistoryQuery_checks_witness :
  @propertyHistoryQuery Sample.rt Sample.with_history Sample.Malformed
    Sample.audit_uuid Sample.noon
  = (Throw (ServiceError "VALIDATION_ERROR" 400), Sample.with_history)
  /\ @propertyHistoryQuery Sample.rt initial_state Sample.rent_query
       Sample.audit_uuid Sample.noon
     = (Throw (ServiceError "NOT_FOUND" 404), initial_state).
Proof.
  split.
  - apply (@propertyHistoryQuery_checks Sample.rt Sample.with_history
             Sample.Malformed).
    reflexivity.
  - destruct (@propertyHistoryQuery_checks Sample.rt initial_state
                Sample.rent_query Sample.audit_uuid Sample.noon)
      as (_ & Hmissing & _).
    eapply Hmissing; reflexivity.
Defined.

Lemma property_services_write_no_history_witness :
  exists response s1,
    @propertyHistoryQuery Sample.rt Sample.with_history Sample.rent_query
      Sample.audit_uuid (Sample.noon + 2 * msPerDay) = (Return response, s1)
    /\ fst (@propertyHistoryQuery Sample.rt
              (snd (@propertyUpdate Sample.rt Sample.with_history
                      Sample.uuid_a
                      (Sample.Update (Sample.casa_reformada 123))))
              Sample.rent_query Sample.audit_uuid
              (Sample.noon + 2 * msPerDay))
       = Return response.
Proof.
  destruct (@property_services_write_no_history Sample.rt
              Sample.with_history) as [_ Hupdate].
  destruct (Hupdate Sample.uuid_a
              (Sample.Update (Sample.casa_reformada 123)))
    as (_ & _ & Hquery).
  eexists. eexists. split; [vm_compute; reflexivity|].
  eapply Hquery. vm_compute. reflexivity.
Defined.

Lemma audit_records_sound_witness :
  exists a,
    In a (JsMap.values Sample.queried.(propertyAuditStore))
    /\ PropertyAuditStore.getAuditById Sample.queried.(propertyAuditStore)
         a.(PropertyHistoryAuditRecord.audit_id) = Some a
    /\ a.(PropertyHistoryAuditRecord.user_id) = "system"
    /\ PropertyStore.exists_ Sample.queried.(propertyStore)
         a.(PropertyHistoryAuditRecord.consulted_property_id) = true.
Proof.
  assert (Hreach : @reachable Sample.rt Sample.queried).
  { apply reachable_exec, reachable_run. repeat constructor. }
  destruct (JsMap.values Sample.queried.(propertyAuditStore))
    as [|a l] eqn:E; [vm_compute in E; discriminate|].
  assert (Hin : In a (JsMap.values Sample.queried.(propertyAuditStore)))
    by (rewrite E; now left).
  destruct (@audit_records_sound Sample.rt Sample.queried Hreach a Hin)
    as (Hget & Huser & _ & _ & _ & _ & Hexists).
  exists a. rewrite <- E. auto.
Defined.

Lemma history_records_sound_witness :
  (forall c,
     In c (JsMap.values
             Sample.with_history.(propertyHistoryStore)
               .(PropertyHistoryStore.changes)) ->
     PropertyHistoryStore.getChangeById
       Sample.with_history.(propertyHistoryStore)
       c.(PropertyHistoryChangeRecord.change_id) = Some c)
  /\ (forall e,
        In e (JsMap.values
                Sample.with_history.(propertyHistoryStore)
                  .(PropertyHistoryStore.events)) ->
        PropertyHistoryStore.getEventById
          Sample.with_history.(propertyHistoryStore)
          e.(PropertyLifecycleEventRecord.event_id) = Some e
        /\ e.(PropertyLifecycleEventRecord.related_contract_id) <> Some ""
        /\ e.(PropertyLifecycleEventRecord.related_tenant_id) <> Some "").
Proof.
  apply (@history_records_sound Sample.rt Sample.with_history).
  apply reachable_run. repeat constructor.
Defined.

Lemma cepOnChange_mask_witness :
  cepOnChange "CEP 01310100" = "01310-100"
  /\ cepSchema (cepOnChange "CEP 01310100") = true.
Proof.
  split; [reflexivity|].
  apply (cepOnChange_mask "CEP 01310100"). vm_compute. constructor.
Defined.
